(** * DriveEt: the prepaid-bundle ledger and the order engine

    A shallow embedding of [core/models.py] (the bundle models) and
    [core/services.py] ([BundleService], [BundleOrderService]), with the
    properties of the ledger and of the order state machine stated over it.

    Conventions of the embedding.
    - The database is an explicit value [DB]; every service method is a
      function in the state-and-exception monad [M] over it.
    - [transaction.atomic()] is [atomic]: an exception that leaves the block
      restores the state the block started from.
    - [timezone.now()] is read once per service call and passed in [Env],
      together with the request metadata the services recover from the call
      stack ([get_client_ip], [get_user_agent]).
    - A [DateTimeField] is a number of microseconds since the epoch (UTC), a
      [DecimalField(decimal_places=2)] a number of hundredths, a
      [PositiveIntegerField] an integer with the column's [>= 0] check made
      on every write, a [FloatField] / Python [float] a binary64 float.
    - [uuid.uuid4()] draws the next value of a counter kept in the state.
    - A model object takes the declared defaults of its fields when it is
      constructed, its [UUIDField] key included; the tables enforce what the
      field declarations say: primary keys and [OneToOneField]s are unique,
      a field without [null=True] is [NOT NULL], [unique_together] holds.
    - A foreign key to the catalogue ([BundleDefinition], [PaymentMethod]) is
      held resolved, as the row it points to: the services never write the
      catalogue.  [auto_now] bookkeeping columns ([updated_at]) are left out.
    - The [ip_address] of a row is the text the service hands to the
      [GenericIPAddressField]: the request metadata, or the text "system"
      of the jobs.  What the column holds afterwards is that text as the
      field prepares it (an IPv6 text is normalised, the empty text becomes
      [NULL]); [order_columns] and [transaction_columns] are the columns of
      a row that are stored as they are handed over.
    - Integers and dates are unbounded in the model.  The bounds of the
      platform (an SQLite [INTEGER] has 64 bits, a Python [datetime] ends
      with the year 9999) are hypotheses of the statements that depend on
      them: [fits_int64], [fits_decimal], [expiry_in_range]. *)

From Stdlib Require Import ZArith List String Bool Lia Floats Uint63.
From stdpp Require Import base option list gmap strings.

#[local] Open Scope Z_scope.
#[local] Set Warnings "-inexact-float".

(** ** Scalars *)

Abbreviation UUID := positive.
Abbreviation UserId := positive.
Abbreviation Time := Z.
Abbreviation Decimal := Z.

Definition usec_per_day : Z := 86400 * 1000000.
Definition usec_per_hour : Z := 3600 * 1000000.

(** [timedelta(days=n)] and [timedelta(hours=n)]. *)
Definition timedelta_days (n : Z) : Z := n * usec_per_day.
Definition timedelta_hours (n : Z) : Z := n * usec_per_hour.

(** [delta.days] of a [timedelta]: whole days, rounded towards minus
    infinity. *)
Definition days (delta : Z) : Z := delta / usec_per_day.

(** [now.replace(hour=0, minute=0, second=0, microsecond=0)]. *)
Definition start_of_day (now : Time) : Time := now - now mod usec_per_day.

(** [float(n)] for an [int], and [float(d)] for a two-place [Decimal]
    (the correctly rounded quotient of the hundredths by 100). *)
Definition float_of_int (z : Z) : float :=
  if z <? 0 then PrimFloat.opp (PrimFloat.of_uint63 (Uint63.of_Z (- z)))
  else PrimFloat.of_uint63 (Uint63.of_Z z).

Definition float_of_decimal (d : Decimal) : float :=
  (float_of_int d / float_of_int 100)%float.

(** The request context of one service call. *)
Record Env := mkEnv {
  now : Time;
  client_ip : string;
  client_user_agent : string
}.

(** ** The data model ([core/models.py]) *)

Module BundleDefinition.
Record t := mk {
  id : UUID;
  name : string;
  code : string;
  exam_quota : Z;
  total_chat_quota : Z;
  daily_chat_limit : Z;
  search_quota : Z;
  has_unlimited_road_sign_quiz : bool;
  validity_days : Z;
  price_etb : Decimal;
  is_active : bool;
  order : Z
}.

Definition is_unlimited_exams (self : t) : bool := exam_quota self =? 0.
Definition is_unlimited_chats (self : t) : bool := total_chat_quota self =? 0.
Definition is_unlimited_search (self : t) : bool := search_quota self =? 0.
End BundleDefinition.

Module PaymentMethod.
Record t := mk {
  id : UUID;
  code : string;
  is_active : bool
}.
End PaymentMethod.

Module UserProfile.
Record t := mk {
  active_bundle : option UUID
}.
End UserProfile.

Module UserBundle.
Record t := mk {
  id : UUID;
  user : UserId;
  bundle_definition : BundleDefinition.t;
  purchase_date : Time;
  expiry_date : Time;
  is_active : bool;
  exams_remaining : Z;
  chats_remaining : Z;
  search_remaining : Z;
  total_chats_consumed : Z;
  last_chat_reset : Time;
  daily_chats_used : Z
}.

Definition set_is_active (v : bool) (b : t) : t :=
  mk (id b) (user b) (bundle_definition b) (purchase_date b) (expiry_date b)
     v (exams_remaining b) (chats_remaining b) (search_remaining b)
     (total_chats_consumed b) (last_chat_reset b) (daily_chats_used b).

Definition set_exams_remaining (v : Z) (b : t) : t :=
  mk (id b) (user b) (bundle_definition b) (purchase_date b) (expiry_date b)
     (is_active b) v (chats_remaining b) (search_remaining b)
     (total_chats_consumed b) (last_chat_reset b) (daily_chats_used b).

Definition set_chats_remaining (v : Z) (b : t) : t :=
  mk (id b) (user b) (bundle_definition b) (purchase_date b) (expiry_date b)
     (is_active b) (exams_remaining b) v (search_remaining b)
     (total_chats_consumed b) (last_chat_reset b) (daily_chats_used b).

Definition set_search_remaining (v : Z) (b : t) : t :=
  mk (id b) (user b) (bundle_definition b) (purchase_date b) (expiry_date b)
     (is_active b) (exams_remaining b) (chats_remaining b) v
     (total_chats_consumed b) (last_chat_reset b) (daily_chats_used b).

Definition set_total_chats_consumed (v : Z) (b : t) : t :=
  mk (id b) (user b) (bundle_definition b) (purchase_date b) (expiry_date b)
     (is_active b) (exams_remaining b) (chats_remaining b)
     (search_remaining b) v (last_chat_reset b) (daily_chats_used b).

(** The two columns of the daily chat window, always written together. *)
Definition set_daily (used : Z) (reset : Time) (b : t) : t :=
  mk (id b) (user b) (bundle_definition b) (purchase_date b) (expiry_date b)
     (is_active b) (exams_remaining b) (chats_remaining b)
     (search_remaining b) (total_chats_consumed b) reset used.

Definition set_daily_chats_used (v : Z) (b : t) : t :=
  set_daily v (last_chat_reset b) b.

(** The five balance counters of a row. *)
Definition counters (b : t) : Z * Z * Z * Z * Z :=
  (exams_remaining b, chats_remaining b, search_remaining b,
   daily_chats_used b, total_chats_consumed b).

(** The [>= 0] check of the five [PositiveIntegerField] columns. *)
Definition check_positive (b : t) : bool :=
  (0 <=? exams_remaining b) && (0 <=? chats_remaining b)
  && (0 <=? search_remaining b) && (0 <=? total_chats_consumed b)
  && (0 <=? daily_chats_used b).

Definition is_expired (self : t) (now : Time) : bool :=
  expiry_date self <? now.

Definition can_use_exam (self : t) (now : Time) : bool :=
  if negb (is_active self) then false
  else if is_expired self now then false
  else if BundleDefinition.is_unlimited_exams (bundle_definition self) then true
  else 0 <? exams_remaining self.

Definition can_use_search (self : t) (now : Time) : bool :=
  if negb (is_active self) then false
  else if is_expired self now then false
  else if BundleDefinition.is_unlimited_search (bundle_definition self) then true
  else 0 <? search_remaining self.

Definition has_unlimited_road_sign_quiz (self : t) : bool :=
  BundleDefinition.has_unlimited_road_sign_quiz (bundle_definition self).

(** [get_remaining_resources]. *)
Record resources := mk_resources {
  r_exams_remaining : Z;
  r_chats_remaining : Z;
  r_search_remaining : Z;
  r_daily_chats_used : Z;
  r_daily_chat_limit : Z;
  r_total_chats_consumed : Z;
  r_is_active : bool;
  r_expiry_date : Time;
  r_days_remaining : Z
}.

Definition get_remaining_resources (self : t) (now : Time) : resources :=
  mk_resources (exams_remaining self) (chats_remaining self)
    (search_remaining self) (daily_chats_used self)
    (BundleDefinition.daily_chat_limit (bundle_definition self))
    (total_chats_consumed self) (is_active self) (expiry_date self)
    (Z.max 0 (days (expiry_date self - now))).
End UserBundle.

Module ResourceTransaction.
Inductive TransactionType := PURCHASE | CONSUME | REFUND | RESET | EXPIRY.

(** [ResourceType]: the text values of the choices. *)
Definition EXAM : string := "exam".
Definition CHAT : string := "chat".
Definition SEARCH : string := "search".
Definition ROAD_SIGN : string := "road_sign".

Record t := mk {
  user : UserId;
  user_bundle : option UUID;
  transaction_type : TransactionType;
  resource_type : option string;
  quantity : Z;
  exams_before : option Z;
  exams_after : option Z;
  chats_before : option Z;
  chats_after : option Z;
  search_before : option Z;
  search_after : option Z;
  description : string;
  ip_address : string;
  user_agent : string;
  created_at : Time
}.
End ResourceTransaction.

Module BundleOrder.
Inductive OrderStatus :=
  PENDING | PAYMENT_VERIFIED | INSUFFICIENT_FUNDS | COMPLETED | CANCELLED
| EXPIRED.

#[global] Instance OrderStatus_eq_dec : EqDecision OrderStatus.
Proof. solve_decision. Defined.

Record t := mk {
  id : UUID;
  user : UserId;
  bundle_definition : BundleDefinition.t;
  order_amount : Decimal;
  status : OrderStatus;
  payment_method : option PaymentMethod.t;
  reference_number : string;
  verified_amount : option Decimal;
  verified_at : option Time;
  resulting_bundle : option UUID;
  ip_address : string;
  user_agent : string;
  expires_at : Time;
  created_at : Time
}.

Definition set_status (v : OrderStatus) (o : t) : t :=
  mk (id o) (user o) (bundle_definition o) (order_amount o) v
     (payment_method o) (reference_number o) (verified_amount o)
     (verified_at o) (resulting_bundle o) (ip_address o) (user_agent o)
     (expires_at o) (created_at o).

Definition set_verification (ref : string) (amount : Decimal) (at_ : Time)
    (o : t) : t :=
  mk (id o) (user o) (bundle_definition o) (order_amount o) (status o)
     (payment_method o) ref (Some amount) (Some at_) (resulting_bundle o)
     (ip_address o) (user_agent o) (expires_at o) (created_at o).

Definition set_resulting_bundle (v : option UUID) (o : t) : t :=
  mk (id o) (user o) (bundle_definition o) (order_amount o) (status o)
     (payment_method o) (reference_number o) (verified_amount o)
     (verified_at o) v (ip_address o) (user_agent o) (expires_at o)
     (created_at o).

Definition set_bundle (d : BundleDefinition.t) (amount : Decimal) (o : t) : t :=
  mk (id o) (user o) d amount (status o) (payment_method o)
     (reference_number o) (verified_amount o) (verified_at o)
     (resulting_bundle o) (ip_address o) (user_agent o) (expires_at o)
     (created_at o).

Definition is_expired (self : t) (now : Time) : bool := expires_at self <? now.
End BundleOrder.

(** The reason text of a suggestion ([get_budget_suggestions]):
    - [CheapestAvailable d]: "Cheapest available bundle. Need additional d ETB"
    - [GoodBudgetUtilization]: "Good budget utilization"
    - [SlightlyOverBudget]: "Slightly over budget"
    - [WithinBudget d]: "Within budget (saves d ETB)" *)
Inductive Reason :=
  | CheapestAvailable (deficit : Decimal)
  | GoodBudgetUtilization
  | SlightlyOverBudget
  | WithinBudget (saves : Decimal).

Module OrderBundleSuggestion.
Record t := mk {
  order : UUID;
  bundle_definition : BundleDefinition.t;
  reason : Reason;
  order_score : float
}.
End OrderBundleSuggestion.

Module BundlePurchase.
Inductive PaymentStatus := PENDING | COMPLETED | FAILED | REFUNDED | CANCELLED.

Record t := mk {
  id : UUID;
  user : UserId;
  bundle_definition : BundleDefinition.t;
  order : option UUID;
  amount_paid : option Decimal;
  payment_method : option PaymentMethod.t;
  payment_status : PaymentStatus;
  reference_number : string;
  transaction_id : string;
  user_bundle : option UUID;
  verified_at : option Time;
  ip_address : string;
  user_agent : string
}.

Definition set_completed (at_ : Time) (p : t) : t :=
  mk (id p) (user p) (bundle_definition p) (order p) (amount_paid p)
     (payment_method p) COMPLETED (reference_number p) (transaction_id p)
     (user_bundle p) (Some at_) (ip_address p) (user_agent p).

Definition set_user_bundle (v : option UUID) (p : t) : t :=
  mk (id p) (user p) (bundle_definition p) (order p) (amount_paid p)
     (payment_method p) (payment_status p) (reference_number p)
     (transaction_id p) v (verified_at p) (ip_address p) (user_agent p).
End BundlePurchase.

(** ** The database *)

Record DB := mkDB {
  bundle_definitions : list BundleDefinition.t;
  payment_methods : list PaymentMethod.t;
  profiles : gmap positive UserProfile.t;
  user_bundles : gmap positive UserBundle.t;
  resource_transactions : list ResourceTransaction.t;
  bundle_orders : gmap positive BundleOrder.t;
  order_suggestions : list OrderBundleSuggestion.t;
  bundle_purchases : gmap positive BundlePurchase.t;
  uuid_seed : positive
}.

Definition with_profiles (v : gmap positive UserProfile.t) (db : DB) : DB :=
  mkDB (bundle_definitions db) (payment_methods db) v (user_bundles db)
       (resource_transactions db) (bundle_orders db) (order_suggestions db)
       (bundle_purchases db) (uuid_seed db).

Definition with_user_bundles (v : gmap positive UserBundle.t) (db : DB) : DB :=
  mkDB (bundle_definitions db) (payment_methods db) (profiles db) v
       (resource_transactions db) (bundle_orders db) (order_suggestions db)
       (bundle_purchases db) (uuid_seed db).

Definition with_resource_transactions (v : list ResourceTransaction.t)
    (db : DB) : DB :=
  mkDB (bundle_definitions db) (payment_methods db) (profiles db)
       (user_bundles db) v (bundle_orders db) (order_suggestions db)
       (bundle_purchases db) (uuid_seed db).

Definition with_bundle_orders (v : gmap positive BundleOrder.t) (db : DB) : DB :=
  mkDB (bundle_definitions db) (payment_methods db) (profiles db)
       (user_bundles db) (resource_transactions db) v (order_suggestions db)
       (bundle_purchases db) (uuid_seed db).

Definition with_order_suggestions (v : list OrderBundleSuggestion.t)
    (db : DB) : DB :=
  mkDB (bundle_definitions db) (payment_methods db) (profiles db)
       (user_bundles db) (resource_transactions db) (bundle_orders db) v
       (bundle_purchases db) (uuid_seed db).

Definition with_bundle_purchases (v : gmap positive BundlePurchase.t)
    (db : DB) : DB :=
  mkDB (bundle_definitions db) (payment_methods db) (profiles db)
       (user_bundles db) (resource_transactions db) (bundle_orders db)
       (order_suggestions db) v (uuid_seed db).

Definition with_uuid_seed (v : positive) (db : DB) : DB :=
  mkDB (bundle_definitions db) (payment_methods db) (profiles db)
       (user_bundles db) (resource_transactions db) (bundle_orders db)
       (order_suggestions db) (bundle_purchases db) v.

(** ** Exceptions, and the monad of database programs *)

Inductive Model :=
  | MUserProfile | MUserBundle | MBundleDefinition | MPaymentMethod
  | MBundleOrder | MOrderBundleSuggestion | MBundlePurchase.

Inductive Exn :=
  | DoesNotExist (model : Model)
  | IntegrityError (constraint : string)
  | DatabaseError
  | ZeroDivisionError
  | TypeError
  | AttributeError
  | ValueError.

Inductive Result (A : Type) : Type :=
  | Ok (a : A)
  | Raise (e : Exn).
Arguments Ok {A} a.
Arguments Raise {A} e.

Definition M (A : Type) : Type := DB -> Result A * DB.

Definition ret {A} (a : A) : M A := fun db => (Ok a, db).

Definition bind {A B} (m : M A) (k : A -> M B) : M B :=
  fun db =>
    match m db with
    | (Ok a, db') => k a db'
    | (Raise e, db') => (Raise e, db')
    end.

Definition raise {A} (e : Exn) : M A := fun db => (Raise e, db).

Definition gets {A} (f : DB -> A) : M A := fun db => (Ok (f db), db).

Definition modify (f : DB -> DB) : M unit := fun db => (Ok tt, f db).

(** [with transaction.atomic(): m]. *)
Definition atomic {A} (m : M A) : M A :=
  fun db =>
    match m db with
    | (Ok a, db') => (Ok a, db')
    | (Raise e, _) => (Raise e, db)
    end.

(** [try: m except Exception as e: h e]. *)
Definition try_except {A} (m : M A) (h : Exn -> M A) : M A :=
  fun db =>
    match m db with
    | (Ok a, db') => (Ok a, db')
    | (Raise e, db') => h e db'
    end.

(** A pure computation that may raise. *)
Definition lift {A} (r : Result A) : M A := fun db => (r, db).

Notation "x <- m ;; k" := (bind m (fun x => k))
  (at level 100, m at next level, right associativity).
Notation "m ;;; k" := (bind m (fun _ => k))
  (at level 100, right associativity).

(** [for x in l: f x]. *)
Fixpoint for_each {A} (l : list A) (f : A -> M unit) : M unit :=
  match l with
  | [] => ret tt
  | x :: l' => f x ;;; for_each l' f
  end.

(** The state a program leaves, and the value it returns. *)
Definition exec {A} (m : M A) (db : DB) : DB := snd (m db).
Definition eval {A} (m : M A) (db : DB) : Result A := fst (m db).

(** ** Query helpers *)

(** A stable insertion sort: [order_by], and [list.sort]. *)
Fixpoint insert_sorted {A} (le : A -> A -> bool) (x : A) (l : list A) : list A :=
  match l with
  | [] => [x]
  | y :: l' => if le x y then x :: l else y :: insert_sorted le x l'
  end.

Definition sort_by {A} (le : A -> A -> bool) (l : list A) : list A :=
  foldr (insert_sorted le) [] l.

(** [UserBundle.objects.all()] in the model's default ordering,
    [-purchase_date]. *)
Definition all_user_bundles (db : DB) : list UserBundle.t :=
  sort_by (fun x y => UserBundle.purchase_date y <=? UserBundle.purchase_date x)
          (map snd (map_to_list (user_bundles db))).

Definition uuid4 : M positive :=
  fun db => (Ok (uuid_seed db), with_uuid_seed (Pos.succ (uuid_seed db)) db).

(** [user.profile]. *)
Definition get_profile (user : UserId) : M UserProfile.t :=
  fun db =>
    match profiles db !! user with
    | Some p => (Ok p, db)
    | None => (Raise (DoesNotExist MUserProfile), db)
    end.

(** [UserProfile.activate_bundle]. *)
Definition activate_bundle (user : UserId) (user_bundle : option UUID) : M unit :=
  modify (fun db =>
    with_profiles (<[user := UserProfile.mk user_bundle]> (profiles db)) db).

(** [UserBundle.objects.get(pk=pk)]. *)
Definition get_user_bundle (pk : UUID) : M UserBundle.t :=
  fun db =>
    match user_bundles db !! pk with
    | Some b => (Ok b, db)
    | None => (Raise (DoesNotExist MUserBundle), db)
    end.

(** [bundle.save(update_fields=...)] on a stored row: [f] rewrites the
    columns named; the table's [>= 0] checks are made on the new row. *)
Definition update_user_bundle (pk : UUID) (f : UserBundle.t -> UserBundle.t)
    : M unit :=
  fun db =>
    match user_bundles db !! pk with
    | None => (Raise DatabaseError, db)
    | Some row =>
        if UserBundle.check_positive (f row)
        then (Ok tt, with_user_bundles (<[pk := f row]> (user_bundles db)) db)
        else (Raise (IntegrityError "CHECK (>= 0)"), db)
    end.

(** [ResourceTransaction.objects.create(...)]: rows are only ever appended. *)
Definition create_transaction (t : ResourceTransaction.t) : M unit :=
  modify (fun db =>
    with_resource_transactions (resource_transactions db ++ [t]) db).

(** [BundleDefinition.objects.get(id=id, is_active=True)] when [active_only],
    [BundleDefinition.objects.get(id=id)] otherwise. *)
Definition get_bundle_definition (active_only : bool) (id : UUID)
    : M BundleDefinition.t :=
  fun db =>
    match List.find (fun d => Pos.eqb (BundleDefinition.id d) id
                       && (negb active_only || BundleDefinition.is_active d))
                    (bundle_definitions db) with
    | Some d => (Ok d, db)
    | None => (Raise (DoesNotExist MBundleDefinition), db)
    end.

(** [PaymentMethod.objects.get(id=id, is_active=True)]. *)
Definition get_payment_method (id : UUID) : M PaymentMethod.t :=
  fun db =>
    match List.find (fun p => Pos.eqb (PaymentMethod.id p) id
                       && PaymentMethod.is_active p)
                    (payment_methods db) with
    | Some p => (Ok p, db)
    | None => (Raise (DoesNotExist MPaymentMethod), db)
    end.

(** [BundleOrder.objects.get(id=id)] when [statuses] is [None], and
    [BundleOrder.objects.get(id=id, status__in=l)] when it is [Some l]. *)
Definition get_order (id : UUID)
    (statuses : option (list BundleOrder.OrderStatus)) : M BundleOrder.t :=
  fun db =>
    match bundle_orders db !! id with
    | Some o =>
        match statuses with
        | None => (Ok o, db)
        | Some l =>
            if bool_decide (BundleOrder.status o ∈ l) then (Ok o, db)
            else (Raise (DoesNotExist MBundleOrder), db)
        end
    | None => (Raise (DoesNotExist MBundleOrder), db)
    end.

(** [order.save()]. *)
Definition save_order (o : BundleOrder.t) : M unit :=
  modify (fun db =>
    with_bundle_orders (<[BundleOrder.id o := o]> (bundle_orders db)) db).

(** ** Creating a [UserBundle] *)

Module UserBundleInstance.
(** A [UserBundle] object between its construction and its first write:
    the key and the expiry date may still be unset. *)
Record t := mk {
  pk : option UUID;
  user : UserId;
  bundle_definition : BundleDefinition.t;
  expiry_date : option Time;
  is_active : bool;
  exams_remaining : Z;
  chats_remaining : Z;
  search_remaining : Z;
  total_chats_consumed : Z;
  last_chat_reset : Time;
  daily_chats_used : Z
}.
End UserBundleInstance.

(** [UserBundle(user=..., bundle_definition=..., expiry_date=...)]: a field
    that is not passed takes its declared default at construction, the key
    included ([id = UUIDField(primary_key=True, default=uuid.uuid4)]), the
    counters [0], [is_active] [True], [last_chat_reset] [timezone.now]. *)
Definition UserBundle_init (env : Env) (user : UserId)
    (bundle_definition : BundleDefinition.t) (expiry_date : option Time)
    : M UserBundleInstance.t :=
  u <- uuid4 ;;
  ret (UserBundleInstance.mk (Some u) user bundle_definition expiry_date true
         0 0 0 0 (now env) 0).

(** The [INSERT] of a row: unique key, and the [>= 0] checks. *)
Definition insert_user_bundle (row : UserBundle.t) : M unit :=
  fun db =>
    match user_bundles db !! UserBundle.id row with
    | Some _ => (Raise (IntegrityError "UNIQUE (id)"), db)
    | None =>
        if UserBundle.check_positive row
        then (Ok tt, with_user_bundles
                       (<[UserBundle.id row := row]> (user_bundles db)) db)
        else (Raise (IntegrityError "CHECK (>= 0)"), db)
    end.

(** [UserBundle.save] on such an object: the block under [if not self.pk],
    then [super().save()], which inserts; [expiry_date] is [NOT NULL] and
    [purchase_date] is [auto_now_add]. *)
Definition UserBundle_save (env : Env) (self : UserBundleInstance.t)
    : M UserBundle.t :=
  let d := UserBundleInstance.bundle_definition self in
  let self :=
    match UserBundleInstance.pk self with
    | None =>
        UserBundleInstance.mk None (UserBundleInstance.user self) d
          (Some (now env + timedelta_days (BundleDefinition.validity_days d)))
          (UserBundleInstance.is_active self)
          (BundleDefinition.exam_quota d)
          (BundleDefinition.total_chat_quota d)
          (BundleDefinition.search_quota d)
          (UserBundleInstance.total_chats_consumed self)
          (now env)
          (UserBundleInstance.daily_chats_used self)
    | Some _ => self
    end in
  match UserBundleInstance.pk self, UserBundleInstance.expiry_date self with
  | None, _ => raise (IntegrityError "NOT NULL (id)")
  | Some _, None => raise (IntegrityError "NOT NULL (expiry_date)")
  | Some k, Some e =>
      let row :=
        UserBundle.mk k (UserBundleInstance.user self) d (now env) e
          (UserBundleInstance.is_active self)
          (UserBundleInstance.exams_remaining self)
          (UserBundleInstance.chats_remaining self)
          (UserBundleInstance.search_remaining self)
          (UserBundleInstance.total_chats_consumed self)
          (UserBundleInstance.last_chat_reset self)
          (UserBundleInstance.daily_chats_used self) in
      insert_user_bundle row ;;;
      ret row
  end.

(** [UserBundle.objects.create(...)]. *)
Definition UserBundle_objects_create (env : Env) (user : UserId)
    (bundle_definition : BundleDefinition.t) (expiry_date : option Time)
    : M UserBundle.t :=
  self <- UserBundle_init env user bundle_definition expiry_date ;;
  UserBundle_save env self.

(** ** [UserBundle]: the chat admission check *)

(** [_reset_daily_chat_if_needed]: returns the object as it is afterwards. *)
Definition _reset_daily_chat_if_needed (env : Env) (self : UserBundle.t)
    : M UserBundle.t :=
  if 1 <=? days (now env - UserBundle.last_chat_reset self) then
    update_user_bundle (UserBundle.id self) (UserBundle.set_daily 0 (now env)) ;;;
    ret (UserBundle.set_daily 0 (now env) self)
  else ret self.

(** [can_use_chat]: the answer, and the object as it is afterwards. *)
Definition can_use_chat (env : Env) (self : UserBundle.t)
    : M (bool * UserBundle.t) :=
  let d := UserBundle.bundle_definition self in
  if negb (UserBundle.is_active self) then ret (false, self)
  else if UserBundle.is_expired self (now env) then ret (false, self)
  else
    r <- (if 0 <? BundleDefinition.daily_chat_limit d then
            self' <- _reset_daily_chat_if_needed env self ;;
            ret (BundleDefinition.daily_chat_limit d
                   <=? UserBundle.daily_chats_used self', self')
          else ret (false, self)) ;;
    let '(over_limit, self) := r in
    if (over_limit : bool) then ret (false, self)
    else if BundleDefinition.is_unlimited_chats d then ret (true, self)
    else ret (0 <? UserBundle.chats_remaining self, self).

(** ** [BundleService] *)

(** The message texts of the two services:
    - [MsgNone]: the empty message of a success
    - [NoActiveBundleFound]: "No active bundle found"
    - [NoActiveBundle]: "No active bundle"
    - [ExamExhaustedOrExpired]: "Exam quota exhausted or bundle expired"
    - [InsufficientExam n]: "Insufficient exam attempts. Remaining: n"
    - [ChatExhaustedOrDailyLimit]: "Chat quota exhausted or daily limit reached"
    - [InsufficientChat n]: "Insufficient chat messages. Remaining: n"
    - [SearchExhaustedOrExpired]: "Search quota exhausted or bundle expired"
    - [InsufficientSearch n]: "Insufficient search quota. Remaining: n"
    - [RoadSignNotIncluded]: "Road sign quiz not included in bundle"
    - [InvalidResourceType r]: "Invalid resource type: r"
    - [InternalError e]: "Internal error: e"
    - [DefinitionNotFound]: "Bundle definition not found"
    - [DefinitionNotFoundOrInactive]: "Bundle definition not found or inactive"
    - [PaymentMethodNotFoundOrInactive]: "Payment method not found or inactive" *)
Inductive Message :=
  | MsgNone
  | NoActiveBundleFound
  | NoActiveBundle
  | ExamExhaustedOrExpired
  | InsufficientExam (remaining : Z)
  | ChatExhaustedOrDailyLimit
  | InsufficientChat (remaining : Z)
  | SearchExhaustedOrExpired
  | InsufficientSearch (remaining : Z)
  | RoadSignNotIncluded
  | InvalidResourceType (resource_type : string)
  | InternalError (e : Exn)
  | DefinitionNotFound
  | DefinitionNotFoundOrInactive
  | PaymentMethodNotFoundOrInactive.

(** [(success, bundle, error_message)]. *)
Definition Outcome : Type := bool * option UserBundle.t * Message.

Definition get_active_bundle (env : Env) (user : UserId) (db : DB)
    : option UserBundle.t :=
  match profiles db !! user with
  | None => None
  | Some profile =>
      match UserProfile.active_bundle profile with
      | None => None
      | Some pk =>
          match user_bundles db !! pk with
          | None => None
          | Some bundle =>
              (* profile.has_active_bundle *)
              if UserBundle.is_active bundle
                 && negb (UserBundle.is_expired bundle (now env))
              then Some bundle else None
          end
      end
  end.

(** The part of [consume_resource] before [transaction.atomic()]: either the
    method returns, or it goes on to the update with the object it holds. *)
Inductive Admission :=
  | Return (r : Outcome)
  | Proceed (bundle : UserBundle.t).

Definition consume_admission (env : Env) (user : UserId)
    (resource_type : string) (quantity : Z) : M Admission :=
  found <- gets (get_active_bundle env user) ;;
  match found with
  | None => ret (Return (false, None, NoActiveBundleFound))
  | Some bundle =>
      let d := UserBundle.bundle_definition bundle in
      if String.eqb resource_type ResourceTransaction.EXAM then
        if negb (UserBundle.can_use_exam bundle (now env)) then
          ret (Return (false, Some bundle, ExamExhaustedOrExpired))
        else if negb (BundleDefinition.is_unlimited_exams d)
                && (UserBundle.exams_remaining bundle <? quantity) then
          ret (Return (false, Some bundle,
                       InsufficientExam (UserBundle.exams_remaining bundle)))
        else ret (Proceed bundle)
      else if String.eqb resource_type ResourceTransaction.CHAT then
        r <- can_use_chat env bundle ;;
        let '(can, bundle) := r in
        if negb can then
          ret (Return (false, Some bundle, ChatExhaustedOrDailyLimit))
        else if negb (BundleDefinition.is_unlimited_chats d)
                && (UserBundle.chats_remaining bundle <? quantity) then
          ret (Return (false, Some bundle,
                       InsufficientChat (UserBundle.chats_remaining bundle)))
        else ret (Proceed bundle)
      else if String.eqb resource_type ResourceTransaction.SEARCH then
        if negb (UserBundle.can_use_search bundle (now env)) then
          ret (Return (false, Some bundle, SearchExhaustedOrExpired))
        else if negb (BundleDefinition.is_unlimited_search d)
                && (UserBundle.search_remaining bundle <? quantity) then
          ret (Return (false, Some bundle,
                       InsufficientSearch (UserBundle.search_remaining bundle)))
        else ret (Proceed bundle)
      else if String.eqb resource_type ResourceTransaction.ROAD_SIGN then
        if negb (UserBundle.has_unlimited_road_sign_quiz bundle) then
          ret (Return (false, Some bundle, RoadSignNotIncluded))
        else ret (Return (true, Some bundle, MsgNone))
      else ret (Return (false, Some bundle, InvalidResourceType resource_type))
  end.

(** The columns [consume_resource] writes.  A column assigned an [F]
    expression is computed from the stored row; the other columns of
    [update_fields] are written back from the object read under the lock. *)
Definition consume_update (resource_type : string) (quantity : Z)
    (bundle row : UserBundle.t) : UserBundle.t :=
  let d := UserBundle.bundle_definition bundle in
  let exams :=
    if String.eqb resource_type ResourceTransaction.EXAM
       && negb (BundleDefinition.is_unlimited_exams d)
    then UserBundle.exams_remaining row - quantity
    else UserBundle.exams_remaining bundle in
  let chats :=
    if String.eqb resource_type ResourceTransaction.CHAT
       && negb (BundleDefinition.is_unlimited_chats d)
    then UserBundle.chats_remaining row - quantity
    else UserBundle.chats_remaining bundle in
  let total :=
    if String.eqb resource_type ResourceTransaction.CHAT
    then UserBundle.total_chats_consumed row + quantity
    else UserBundle.total_chats_consumed bundle in
  let daily :=
    if String.eqb resource_type ResourceTransaction.CHAT
    then UserBundle.daily_chats_used row + quantity
    else UserBundle.daily_chats_used bundle in
  let search :=
    if String.eqb resource_type ResourceTransaction.SEARCH
       && negb (BundleDefinition.is_unlimited_search d)
    then UserBundle.search_remaining row - quantity
    else UserBundle.search_remaining bundle in
  UserBundle.set_exams_remaining exams
    (UserBundle.set_chats_remaining chats
      (UserBundle.set_search_remaining search
        (UserBundle.set_total_chats_consumed total
          (UserBundle.set_daily_chats_used daily row)))).

(** The row [consume_resource] appends to the ledger. *)
Definition consume_transaction (env : Env) (user : UserId)
    (resource_type : string) (quantity : Z) (description : string)
    (pk : UUID) (before after : UserBundle.t) : ResourceTransaction.t :=
  ResourceTransaction.mk user (Some pk)
    ResourceTransaction.CONSUME (Some resource_type) (- quantity)
    (Some (UserBundle.exams_remaining before))
    (Some (UserBundle.exams_remaining after))
    (Some (UserBundle.chats_remaining before))
    (Some (UserBundle.chats_remaining after))
    (Some (UserBundle.search_remaining before))
    (Some (UserBundle.search_remaining after))
    description (client_ip env) (client_user_agent env) (now env).

(** The [try: with transaction.atomic(): ... except Exception] part of
    [consume_resource], for the object [held] by the caller.  The row is
    re-read, written and refreshed under the key of that object. *)
Definition consume_commit (env : Env) (user : UserId) (resource_type : string)
    (quantity : Z) (description : string) (held : UserBundle.t) : M Outcome :=
  try_except
    (atomic
       (let pk := UserBundle.id held in
        bundle <- get_user_bundle pk ;;
        update_user_bundle pk (consume_update resource_type quantity bundle) ;;;
        refreshed <- get_user_bundle pk ;;
        create_transaction
          (consume_transaction env user resource_type quantity description
             pk bundle refreshed) ;;;
        ret (true, Some refreshed, MsgNone)))
    (fun e => ret (false, None, InternalError e)).

Definition consume_finish (env : Env) (user : UserId) (resource_type : string)
    (quantity : Z) (description : string) (a : Admission) : M Outcome :=
  match a with
  | Return r => ret r
  | Proceed held => consume_commit env user resource_type quantity description held
  end.

Definition consume_resource (env : Env) (user : UserId) (resource_type : string)
    (quantity : Z) (description : string) : M Outcome :=
  a <- consume_admission env user resource_type quantity ;;
  consume_finish env user resource_type quantity description a.

Definition check_resource_access (env : Env) (user : UserId)
    (resource_type : string) : M Outcome :=
  found <- gets (get_active_bundle env user) ;;
  match found with
  | None => ret (false, None, NoActiveBundle)
  | Some bundle =>
      if String.eqb resource_type ResourceTransaction.EXAM then
        if negb (UserBundle.can_use_exam bundle (now env)) then
          ret (false, Some bundle, ExamExhaustedOrExpired)
        else ret (true, Some bundle, MsgNone)
      else if String.eqb resource_type ResourceTransaction.CHAT then
        r <- can_use_chat env bundle ;;
        let '(can, bundle) := r in
        if negb can then ret (false, Some bundle, ChatExhaustedOrDailyLimit)
        else ret (true, Some bundle, MsgNone)
      else if String.eqb resource_type ResourceTransaction.SEARCH then
        if negb (UserBundle.can_use_search bundle (now env)) then
          ret (false, Some bundle, SearchExhaustedOrExpired)
        else ret (true, Some bundle, MsgNone)
      else if String.eqb resource_type ResourceTransaction.ROAD_SIGN then
        if negb (UserBundle.has_unlimited_road_sign_quiz bundle) then
          ret (false, Some bundle, RoadSignNotIncluded)
        else ret (true, Some bundle, MsgNone)
      else ret (false, Some bundle, InvalidResourceType resource_type)
  end.

(** The value under the key [payment_method] of [payment_data]: a
    [PaymentMethod] object, as [api/views/payments.py] passes, or the key of
    one, as [api/views/bundles.py] passes ([payment_method_id]). *)
Inductive PaymentMethodValue :=
  | MethodObject (p : PaymentMethod.t)
  | MethodKey (k : UUID).

(** [payment_data]: a field is [None] when the key is absent ([None] too,
    for [payment_method], when the value is [None]). *)
Record PaymentData := mkPaymentData {
  pd_amount : option (option Decimal);
  pd_payment_method : option PaymentMethodValue;
  pd_reference_number : option string;
  pd_transaction_id : option string;
  pd_auto_complete : option bool
}.

(** The [INSERT] of a purchase: [order] is a [OneToOneField] without
    [null=True], so the column is [NOT NULL] and unique; [amount_paid] is
    [NOT NULL]; [user_bundle] is unique where set. *)
Definition insert_purchase (p : BundlePurchase.t) : M unit :=
  fun db =>
    let rows := map snd (map_to_list (bundle_purchases db)) in
    match bundle_purchases db !! BundlePurchase.id p with
    | Some _ => (Raise (IntegrityError "UNIQUE (id)"), db)
    | None =>
        match BundlePurchase.order p, BundlePurchase.amount_paid p with
        | None, _ => (Raise (IntegrityError "NOT NULL (order_id)"), db)
        | Some _, None => (Raise (IntegrityError "NOT NULL (amount_paid)"), db)
        | Some o, Some _ =>
            if existsb (fun q => bool_decide (BundlePurchase.order q = Some o)) rows
            then (Raise (IntegrityError "UNIQUE (order_id)"), db)
            else if existsb (fun q => bool_decide (is_Some (BundlePurchase.user_bundle p))
                                 && bool_decide (BundlePurchase.user_bundle q
                                                 = BundlePurchase.user_bundle p)) rows
            then (Raise (IntegrityError "UNIQUE (user_bundle_id)"), db)
            else (Ok tt, with_bundle_purchases
                           (<[BundlePurchase.id p := p]> (bundle_purchases db)) db)
        end
    end.

(** [purchase.save()] on a stored purchase. *)
Definition save_purchase (p : BundlePurchase.t) : M unit :=
  modify (fun db =>
    with_bundle_purchases (<[BundlePurchase.id p := p]> (bundle_purchases db)) db).

(** [BundlePurchase.create_user_bundle]: the bundle, and the purchase as it is
    afterwards. *)
Definition create_user_bundle (env : Env) (self : BundlePurchase.t)
    : M (option UserBundle.t * BundlePurchase.t) :=
  match BundlePurchase.payment_status self, BundlePurchase.user_bundle self with
  | BundlePurchase.COMPLETED, None =>
      user_bundle <- UserBundle_objects_create env (BundlePurchase.user self)
                       (BundlePurchase.bundle_definition self) None ;;
      let self := BundlePurchase.set_user_bundle
                    (Some (UserBundle.id user_bundle)) self in
      save_purchase self ;;;
      ret (Some user_bundle, self)
  | _, _ => ret (None, self)
  end.

Definition purchase_bundle (env : Env) (user : UserId)
    (bundle_definition_id : UUID) (payment_data : PaymentData)
    : M (bool * option BundlePurchase.t * Message) :=
  try_except
    (bundle_definition <- get_bundle_definition true bundle_definition_id ;;
     atomic
       (pk <- uuid4 ;;
        (* [BundlePurchase(...)]: a foreign key takes an object of its
           model or [None], and raises [ValueError] for any other value *)
        payment_method <-
          match pd_payment_method payment_data with
          | None => ret None
          | Some (MethodObject p) => ret (Some p)
          | Some (MethodKey _) => raise ValueError
          end ;;
        let purchase :=
          BundlePurchase.mk pk user bundle_definition None
            (default (Some (BundleDefinition.price_etb bundle_definition))
                     (pd_amount payment_data))
            payment_method BundlePurchase.PENDING
            (default EmptyString (pd_reference_number payment_data))
            (default EmptyString (pd_transaction_id payment_data))
            None None (client_ip env) (client_user_agent env) in
        insert_purchase purchase ;;;
        if default true (pd_auto_complete payment_data) then
          let purchase := BundlePurchase.set_completed (now env) purchase in
          save_purchase purchase ;;;
          r <- create_user_bundle env purchase ;;
          let '(user_bundle, purchase) := r in
          _ <- get_profile user ;;
          activate_bundle user (UserBundle.id <$> user_bundle) ;;;
          match user_bundle with
          | None => raise AttributeError
          | Some user_bundle =>
              create_transaction
                (ResourceTransaction.mk user (Some (UserBundle.id user_bundle))
                   ResourceTransaction.PURCHASE None
                   (BundleDefinition.exam_quota bundle_definition)
                   (Some 0) (Some (UserBundle.exams_remaining user_bundle))
                   (Some 0) (Some (UserBundle.chats_remaining user_bundle))
                   (Some 0) (Some (UserBundle.search_remaining user_bundle))
                   ("Purchased " ++ BundleDefinition.name bundle_definition)
                   (BundlePurchase.ip_address purchase)
                   (BundlePurchase.user_agent purchase) (now env))
          end ;;;
          ret (true, Some purchase, MsgNone)
        else ret (true, Some purchase, MsgNone)))
    (fun e =>
       match e with
       | DoesNotExist MBundleDefinition => ret (false, None, DefinitionNotFound)
       | _ => ret (false, None, InternalError e)
       end).

(** The rows the bulk [update] of [reset_daily_chats] selects. *)
Definition reset_due (now : Time) (b : UserBundle.t) : bool :=
  UserBundle.is_active b && (UserBundle.last_chat_reset b <? start_of_day now).

(** The bulk [update(daily_chats_used=0, last_chat_reset=now)] of
    [reset_daily_chats], on the rows it selects. *)
Definition reset_rows (now : Time) (m : gmap positive UserBundle.t)
    : gmap positive UserBundle.t :=
  (fun b => if reset_due now b then UserBundle.set_daily 0 now b else b) <$> m.

(** The rows [reset_daily_chats] then logs. *)
Definition reset_logged (now : Time) (b : UserBundle.t) : bool :=
  UserBundle.is_active b && (UserBundle.daily_chats_used b =? 0)
  && (UserBundle.last_chat_reset b =? now).

Definition reset_transaction (b : UserBundle.t) (now : Time)
    : ResourceTransaction.t :=
  ResourceTransaction.mk (UserBundle.user b) (Some (UserBundle.id b))
    ResourceTransaction.RESET (Some ResourceTransaction.CHAT) 0
    None None None None None None "Daily chat reset" "system" "cron" now.

Definition reset_daily_chats (env : Env) : M Z :=
  try_except
    (atomic
       (before <- gets all_user_bundles ;;
        let updated := Z.of_nat (length (List.filter (reset_due (now env)) before)) in
        modify (fun db =>
          with_user_bundles (reset_rows (now env) (user_bundles db)) db) ;;;
        reset_bundles <- gets (fun db =>
          List.filter (reset_logged (now env)) (all_user_bundles db)) ;;
        for_each reset_bundles
          (fun bundle => create_transaction (reset_transaction bundle (now env))) ;;;
        ret updated))
    (fun _ => ret 0).

Definition expiry_transaction (b : UserBundle.t) (now : Time)
    : ResourceTransaction.t :=
  ResourceTransaction.mk (UserBundle.user b) (Some (UserBundle.id b))
    ResourceTransaction.EXPIRY None 0
    None None None None None None "Bundle expired" "system" "cron" now.

(** One turn of the loop of [expire_bundles]. *)
Definition expire_one (env : Env) (bundle : UserBundle.t) : M unit :=
  update_user_bundle (UserBundle.id bundle) (UserBundle.set_is_active false) ;;;
  create_transaction (expiry_transaction bundle (now env)) ;;;
  try_except
    (profile <- get_profile (UserBundle.user bundle) ;;
     if bool_decide (UserProfile.active_bundle profile = Some (UserBundle.id bundle))
     then activate_bundle (UserBundle.user bundle) None
     else ret tt)
    (fun e =>
       match e with
       | DoesNotExist MUserProfile => ret tt
       | _ => raise e
       end).

Definition expire_bundles (env : Env) : M Z :=
  try_except
    (atomic
       (expired_bundles <- gets (fun db =>
          List.filter (fun b => UserBundle.is_active b
                                && (UserBundle.expiry_date b <? now env))
                      (all_user_bundles db)) ;;
        let expired_count := Z.of_nat (length expired_bundles) in
        for_each expired_bundles (expire_one env) ;;;
        ret expired_count))
    (fun _ => ret 0).

(** ** The payment verifier ([payments/verification.py]) *)

Record VerifyResult := mkVerifyResult {
  success : bool;
  amount : option Decimal;
  date : option Time;
  error : option string
}.

(** [PaymentVerifier._mock_verify]: a reference that starts with "TEST" is a
    payment of 500.00 dated "2024-01-01 10:00:00", a text without a zone that
    Django reads in [TIME_ZONE] ([Africa/Addis_Ababa], three hours ahead of
    UTC) when the order is saved: 2024-01-01 07:00:00 UTC. *)
Definition mock_verify (method reference : string) : VerifyResult :=
  if String.prefix "TEST" reference
  then mkVerifyResult true (Some 50000) (Some (1704092400 * 1000000)) None
  else mkVerifyResult false None None (Some "Mock payment not found"%string).

(** ** [BundleOrderService] *)

(** A suggestion of [get_budget_suggestions]: the keys [bundle], [reason],
    [score], and [deficit] or [remaining_budget]. *)
Record Suggestion := mkSuggestion {
  s_bundle : BundleDefinition.t;
  s_reason : Reason;
  s_score : float;
  s_deficit : option Decimal;
  s_remaining_budget : option Decimal
}.

(** [x / float(d)] for a two-place decimal [d].  Python raises
    [ZeroDivisionError] when the divisor is [0.0], and [float(d)] is [0.0]
    exactly when [d] is zero. *)
Definition div_by_decimal (x : float) (d : Decimal) : Result float :=
  if d =? 0 then Raise ZeroDivisionError
  else Ok (x / float_of_decimal d)%float.

(** The body of the scoring loop of [get_budget_suggestions]. *)
Definition score_bundle (budget : Decimal) (current_bundle : option BundleDefinition.t)
    (bundle : BundleDefinition.t) : Result Suggestion :=
  let price := BundleDefinition.price_etb bundle in
  match div_by_decimal
          (float_of_int (BundleDefinition.exam_quota bundle
                         + BundleDefinition.total_chat_quota bundle
                         + BundleDefinition.search_quota bundle)) price with
  | Raise e => Raise e
  | Ok value_score =>
      let score := (0 + value_score * 0.4)%float in
      let score :=
        match current_bundle with
        | Some c =>
            if Pos.eqb (BundleDefinition.id bundle) (BundleDefinition.id c)
            then (score + 0.3)%float else score
        | None => score
        end in
      match div_by_decimal (float_of_decimal price) budget with
      | Raise e => Raise e
      | Ok budget_utilization =>
          let '(score, reason) :=
            if PrimFloat.leb 0.8 budget_utilization
               && PrimFloat.leb budget_utilization 1.0
            then ((score + 0.2)%float, GoodBudgetUtilization)
            else if PrimFloat.ltb 1.0 budget_utilization
            then (score, SlightlyOverBudget)
            else (score, WithinBudget (budget - price)) in
          let score :=
            if 50 <=? BundleDefinition.order bundle
            then (score + 0.1)%float else score in
          Ok (mkSuggestion bundle reason score None (Some (budget - price)))
      end
  end.

(** [for bundle in affordable_bundles: ... suggestions.append(...)]. *)
Fixpoint score_all (budget : Decimal) (current_bundle : option BundleDefinition.t)
    (bundles : list BundleDefinition.t) : Result (list Suggestion) :=
  match bundles with
  | [] => Ok []
  | b :: rest =>
      match score_bundle budget current_bundle b with
      | Raise e => Raise e
      | Ok s =>
          match score_all budget current_bundle rest with
          | Raise e => Raise e
          | Ok ss => Ok (s :: ss)
          end
      end
  end.

Definition affordable_bundles (budget : Decimal) (catalogue : list BundleDefinition.t)
    : list BundleDefinition.t :=
  sort_by (fun x y => BundleDefinition.price_etb y <=? BundleDefinition.price_etb x)
    (List.filter (fun d => BundleDefinition.is_active d
                           && (BundleDefinition.price_etb d <=? budget))
                 catalogue).

(** [BundleDefinition.objects.filter(is_active=True).order_by('price_etb')
    .first()]. *)
Definition cheapest_bundle (catalogue : list BundleDefinition.t)
    : option BundleDefinition.t :=
  head (sort_by (fun x y => BundleDefinition.price_etb x <=? BundleDefinition.price_etb y)
          (List.filter BundleDefinition.is_active catalogue)).

Definition get_budget_suggestions (budget : Decimal)
    (current_bundle : option BundleDefinition.t)
    (catalogue : list BundleDefinition.t) : Result (list Suggestion) :=
  match affordable_bundles budget catalogue with
  | [] =>
      match cheapest_bundle catalogue with
      | Some cheapest =>
          let deficit := BundleDefinition.price_etb cheapest - budget in
          Ok [mkSuggestion cheapest (CheapestAvailable deficit) 0.5
                (Some deficit) None]
      | None => Ok []
      end
  | affordable =>
      match score_all budget current_bundle affordable with
      | Raise e => Raise e
      | Ok suggestions =>
          Ok (take 3 (sort_by (fun x y => PrimFloat.leb (s_score y) (s_score x))
                        suggestions))
      end
  end.

(** The dictionary [can_upgrade_existing_bundle] returns; [None] stands for
    its [False]. *)
Record Upgrade := mkUpgrade {
  can_upgrade : bool;
  current_bundle : BundleDefinition.t;
  upgrade_options : list BundleDefinition.t;
  additional_needed : option Decimal
}.

Definition can_upgrade_existing_bundle (env : Env) (user : UserId)
    (additional_amount : Decimal) (db : DB) : option Upgrade :=
  match profiles db !! user with
  | None => None
  | Some profile =>
      match UserProfile.active_bundle profile ≫= (fun pk => user_bundles db !! pk) with
      | None => None
      | Some active =>
          if UserBundle.is_expired active (now env) then None
          else
            let current := UserBundle.bundle_definition active in
            let upgrade_bundles :=
              sort_by (fun x y => BundleDefinition.price_etb x
                                  <=? BundleDefinition.price_etb y)
                (List.filter
                   (fun d => BundleDefinition.is_active d
                      && (BundleDefinition.price_etb d
                          <=? BundleDefinition.price_etb current + additional_amount)
                      && (BundleDefinition.price_etb current
                          <? BundleDefinition.price_etb d))
                   (bundle_definitions db)) in
            match upgrade_bundles with
            | [] => None  (* [upgrade_bundles.first().price_etb] raises *)
            | _ => Some (mkUpgrade true current (take 3 upgrade_bundles) None)
            end
      end
  end.

(** What [complete_order] returns. *)
Record Completion := mkCompletion {
  c_bundle : UserBundle.t;
  c_remaining_resources : UserBundle.resources
}.

Definition complete_order (env : Env) (order_id : UUID) : M Completion :=
  order <- get_order order_id (Some [BundleOrder.PAYMENT_VERIFIED]) ;;
  atomic
    (let d := BundleOrder.bundle_definition order in
     user_bundle <- UserBundle_objects_create env (BundleOrder.user order) d
                      (Some (now env + timedelta_days (BundleDefinition.validity_days d))) ;;
     let order := BundleOrder.set_status BundleOrder.COMPLETED
                    (BundleOrder.set_resulting_bundle
                       (Some (UserBundle.id user_bundle)) order) in
     save_order order ;;;
     _ <- get_profile (BundleOrder.user order) ;;
     activate_bundle (BundleOrder.user order) (Some (UserBundle.id user_bundle)) ;;;
     pk <- uuid4 ;;
     insert_purchase
       (BundlePurchase.mk pk (BundleOrder.user order) d
          (Some (BundleOrder.id order)) (BundleOrder.verified_amount order)
          (BundleOrder.payment_method order) BundlePurchase.COMPLETED
          (BundleOrder.reference_number order) EmptyString
          (Some (UserBundle.id user_bundle)) (BundleOrder.verified_at order)
          (BundleOrder.ip_address order) (BundleOrder.user_agent order)) ;;;
     create_transaction
       (ResourceTransaction.mk (BundleOrder.user order)
          (Some (UserBundle.id user_bundle))
          ResourceTransaction.PURCHASE None (BundleDefinition.exam_quota d)
          (Some 0) (Some (UserBundle.exams_remaining user_bundle))
          (Some 0) (Some (UserBundle.chats_remaining user_bundle))
          (Some 0) (Some (UserBundle.search_remaining user_bundle))
          ("Purchased " ++ BundleDefinition.name d ++ " via order")
          (BundleOrder.ip_address order) (BundleOrder.user_agent order)
          (now env)) ;;;
     ret (mkCompletion user_bundle
            (UserBundle.get_remaining_resources user_bundle (now env)))).

(** [BundleOrder.objects.create(...)]: [status] defaults to [PENDING], and
    [BundleOrder.save] fills [expires_at], which has no default, with
    [timezone.now() + 24 hours]. *)
Definition insert_order (o : BundleOrder.t) : M unit :=
  fun db =>
    match bundle_orders db !! BundleOrder.id o with
    | Some _ => (Raise (IntegrityError "UNIQUE (id)"), db)
    | None => (Ok tt, with_bundle_orders
                        (<[BundleOrder.id o := o]> (bundle_orders db)) db)
    end.

Definition create_order (env : Env) (user : UserId) (bundle_definition_id : UUID)
    (payment_method_id : UUID) : M (bool * option BundleOrder.t * Message) :=
  try_except
    (bundle_definition <- get_bundle_definition true bundle_definition_id ;;
     payment_method <- get_payment_method payment_method_id ;;
     atomic
       (pk <- uuid4 ;;
        let order :=
          BundleOrder.mk pk user bundle_definition
            (BundleDefinition.price_etb bundle_definition) BundleOrder.PENDING
            (Some payment_method) EmptyString None None None
            (client_ip env) (client_user_agent env)
            (now env + timedelta_hours 24) (now env) in
        insert_order order ;;;
        ret (true, Some order, MsgNone)))
    (fun e =>
       match e with
       | DoesNotExist MBundleDefinition =>
           ret (false, None, DefinitionNotFoundOrInactive)
       | DoesNotExist MPaymentMethod =>
           ret (false, None, PaymentMethodNotFoundOrInactive)
       | _ => ret (false, None, InternalError e)
       end).

(** [OrderBundleSuggestion.objects.create(...)]: [(order, bundle_definition)]
    is unique. *)
Definition same_suggestion (order : UUID) (definition : UUID)
    (s : OrderBundleSuggestion.t) : bool :=
  Pos.eqb (OrderBundleSuggestion.order s) order
  && Pos.eqb (BundleDefinition.id (OrderBundleSuggestion.bundle_definition s))
             definition.

Definition create_suggestion (s : OrderBundleSuggestion.t) : M unit :=
  fun db =>
    if existsb (same_suggestion (OrderBundleSuggestion.order s)
                  (BundleDefinition.id (OrderBundleSuggestion.bundle_definition s)))
               (order_suggestions db)
    then (Raise (IntegrityError "UNIQUE (order_id, bundle_definition_id)"), db)
    else (Ok tt, with_order_suggestions (order_suggestions db ++ [s]) db).

(** [OrderBundleSuggestion.objects.get(order=..., bundle_definition=...)]. *)
Definition get_suggestion (order : UUID) (definition : UUID)
    : M OrderBundleSuggestion.t :=
  fun db =>
    match List.find (same_suggestion order definition) (order_suggestions db) with
    | Some s => (Ok s, db)
    | None => (Raise (DoesNotExist MOrderBundleSuggestion), db)
    end.

(** The row [verify_payment] stores for a suggestion. *)
Definition suggestion_row (order : UUID) (s : Suggestion)
    : OrderBundleSuggestion.t :=
  OrderBundleSuggestion.mk order (s_bundle s) (s_reason s) (s_score s).

(** The dictionaries [verify_payment] returns, by their [status] key. *)
Inductive VerifyOutcome :=
  | VExpired
  | VVerificationFailed (message : option string)
  | VCompleted (order : BundleOrder.t) (completion : Completion)
  | VInsufficientFunds (verified_amount required_amount deficit : Decimal)
      (suggestions : list Suggestion) (can_upgrade_existing : option Upgrade)
  | VNotFound
  | VError (e : Exn).

Section Verifier.
(** [PaymentVerifier(mock_mode=True).verify_payment]: the collaborator that
    confirms a payment reference.  The source wires in [mock_verify]. *)
Variable verifier : string -> string -> VerifyResult.

Definition verify_payment (env : Env) (order_id : UUID)
    (reference_number : string) : M VerifyOutcome :=
  try_except
    (order <- get_order order_id (Some [BundleOrder.PENDING]) ;;
     if BundleOrder.is_expired order (now env) then
       save_order (BundleOrder.set_status BundleOrder.EXPIRED order) ;;;
       ret VExpired
     else
       match BundleOrder.payment_method order with
       | None => raise AttributeError
       | Some payment_method =>
           let result := verifier (PaymentMethod.code payment_method)
                           reference_number in
           if negb (success result) then
             ret (VVerificationFailed (error result))
           else
             match amount result with
             | None => raise TypeError
             | Some verified =>
                 let order :=
                   BundleOrder.set_verification reference_number verified
                     (default (now env) (date result)) order in
                 if BundleOrder.order_amount order <=? verified then
                   let order :=
                     BundleOrder.set_status BundleOrder.PAYMENT_VERIFIED order in
                   save_order order ;;;
                   completion <- complete_order env (BundleOrder.id order) ;;
                   ret (VCompleted order completion)
                 else
                   let order :=
                     BundleOrder.set_status BundleOrder.INSUFFICIENT_FUNDS order in
                   save_order order ;;;
                   suggestions <- (catalogue <- gets bundle_definitions ;;
                                   lift (get_budget_suggestions verified
                                           (Some (BundleOrder.bundle_definition order))
                                           catalogue)) ;;
                   for_each suggestions
                     (fun s => create_suggestion
                                 (suggestion_row (BundleOrder.id order) s)) ;;;
                   upgrade <- gets (can_upgrade_existing_bundle env
                                      (BundleOrder.user order) verified) ;;
                   ret (VInsufficientFunds verified
                          (BundleOrder.order_amount order)
                          (BundleOrder.order_amount order - verified)
                          suggestions upgrade)
             end
       end)
    (fun e =>
       match e with
       | DoesNotExist MBundleOrder => ret VNotFound
       | _ => ret (VError e)
       end).
End Verifier.

(** The dictionaries [accept_suggestion] returns. *)
Inductive AcceptOutcome :=
  | Accepted (completion : Completion)
  | InvalidSuggestionOrOrder
  | AcceptError (e : Exn).

Definition accept_suggestion (env : Env) (order_id : UUID)
    (suggested_bundle_id : UUID) : M AcceptOutcome :=
  try_except
    (order <- get_order order_id None ;;
     suggested_bundle <- get_bundle_definition false suggested_bundle_id ;;
     _ <- get_suggestion (BundleOrder.id order)
            (BundleDefinition.id suggested_bundle) ;;
     atomic
       (let order :=
          BundleOrder.set_status BundleOrder.PAYMENT_VERIFIED
            (BundleOrder.set_bundle suggested_bundle
               (BundleDefinition.price_etb suggested_bundle) order) in
        save_order order ;;;
        completion <- complete_order env (BundleOrder.id order) ;;
        ret (Accepted completion)))
    (fun e =>
       match e with
       | DoesNotExist MBundleOrder
       | DoesNotExist MBundleDefinition
       | DoesNotExist MOrderBundleSuggestion => ret InvalidSuggestionOrOrder
       | _ => ret (AcceptError e)
       end).

(** [cancel_order]: the [success] key of its result. *)
Definition cancel_order (order_id : UUID) : M bool :=
  try_except
    (order <- get_order order_id
                (Some [BundleOrder.PENDING; BundleOrder.INSUFFICIENT_FUNDS]) ;;
     save_order (BundleOrder.set_status BundleOrder.CANCELLED order) ;;;
     ret true)
    (fun e =>
       match e with
       | DoesNotExist MBundleOrder => ret false
       | _ => raise e
       end).

(** ** The public operations *)

Inductive Op :=
  | ConsumeResource (user : UserId) (resource_type : string) (quantity : Z)
      (description : string)
  | CheckResourceAccess (user : UserId) (resource_type : string)
  | PurchaseBundle (user : UserId) (bundle_definition_id : UUID)
      (payment_data : PaymentData)
  | ResetDailyChats
  | ExpireBundles
  | CreateOrder (user : UserId) (bundle_definition_id payment_method_id : UUID)
  | VerifyPayment (order_id : UUID) (reference_number : string)
  | CompleteOrder (order_id : UUID)
  | AcceptSuggestion (order_id suggested_bundle_id : UUID)
  | CancelOrder (order_id : UUID).

(** The database after one operation. *)
Definition run (verifier : string -> string -> VerifyResult) (env : Env)
    (op : Op) (db : DB) : DB :=
  match op with
  | ConsumeResource u r q d => exec (consume_resource env u r q d) db
  | CheckResourceAccess u r => exec (check_resource_access env u r) db
  | PurchaseBundle u d p => exec (purchase_bundle env u d p) db
  | ResetDailyChats => exec (reset_daily_chats env) db
  | ExpireBundles => exec (expire_bundles env) db
  | CreateOrder u d p => exec (create_order env u d p) db
  | VerifyPayment o r => exec (verify_payment verifier env o r) db
  | CompleteOrder o => exec (complete_order env o) db
  | AcceptSuggestion o s => exec (accept_suggestion env o s) db
  | CancelOrder o => exec (cancel_order o) db
  end.

(** ** The derived properties of the models *)

(** [UserProfile.has_active_bundle]; the foreign key is followed in [db]. *)
Definition has_active_bundle (env : Env) (self : UserProfile.t) (db : DB) : bool :=
  match UserProfile.active_bundle self ≫= (fun pk => user_bundles db !! pk) with
  | None => false
  | Some bundle =>
      UserBundle.is_active bundle && negb (UserBundle.is_expired bundle (now env))
  end.

(** [UserProfile.is_pro_user]. *)
Definition is_pro_user (env : Env) (self : UserProfile.t) (db : DB) : bool :=
  has_active_bundle env self db.

(** [UserProfile.bundle_remaining_resources]. *)
Definition bundle_remaining_resources (env : Env) (self : UserProfile.t) (db : DB)
    : option UserBundle.resources :=
  if negb (has_active_bundle env self db) then None
  else
    bundle ← UserProfile.active_bundle self ≫= (fun pk => user_bundles db !! pk);
    Some (UserBundle.get_remaining_resources bundle (now env)).

(** [UserProfile.days_remaining]. *)
Definition days_remaining (env : Env) (self : UserProfile.t) (db : DB) : Z :=
  if negb (has_active_bundle env self db) then 0
  else
    match UserProfile.active_bundle self ≫= (fun pk => user_bundles db !! pk) with
    | Some bundle => Z.max 0 (days (UserBundle.expiry_date bundle - now env))
    | None => 0
    end.

(** [BundleOrder.amount_difference]: a verified amount of zero is as false
    as a missing one. *)
Definition amount_difference (self : BundleOrder.t) : option Decimal :=
  match BundleOrder.verified_amount self with
  | Some verified =>
      if verified =? 0 then None
      else Some (verified - BundleOrder.order_amount self)
  | None => None
  end.

(** [BundleOrder.can_be_completed], as a truth value. *)
Definition can_be_completed (self : BundleOrder.t) (now : Time) : bool :=
  bool_decide (BundleOrder.status self = BundleOrder.PAYMENT_VERIFIED)
  && match BundleOrder.verified_amount self with
     | Some verified =>
         negb (verified =? 0) && (BundleOrder.order_amount self <=? verified)
     | None => false
     end
  && negb (BundleOrder.is_expired self now).

(** [BundleService.get_user_resources]: the dictionary of the resources with
    the three keys it adds; [None] stands for the dictionary that says
    [has_active_bundle: False]. *)
Record UserResources := mkUserResources {
  ur_resources : UserBundle.resources;
  ur_bundle_name : string;
  ur_bundle_code : string;
  ur_has_unlimited_road_sign_quiz : bool
}.

Definition get_user_resources (env : Env) (user : UserId) (db : DB)
    : option UserResources :=
  match get_active_bundle env user db with
  | None => None
  | Some bundle =>
      Some (mkUserResources
              (UserBundle.get_remaining_resources bundle (now env))
              (BundleDefinition.name (UserBundle.bundle_definition bundle))
              (BundleDefinition.code (UserBundle.bundle_definition bundle))
              (UserBundle.has_unlimited_road_sign_quiz bundle))
  end.

(** ** The permission classes ([core/permissions.py]) *)

(** What the checks read of a request: its path, and its user, [None] for
    an anonymous one. *)
Record Request := mkRequest {
  request_path : string;
  request_user : option UserId
}.

(** [HasActiveBundle.has_permission]; [hasattr(request.user, 'profile')] is
    false for a user without a profile row. *)
Definition HasActiveBundle (env : Env) (request : Request) (db : DB) : bool :=
  match request_user request with
  | None => false
  | Some user =>
      match profiles db !! user with
      | None => false
      | Some profile => has_active_bundle env profile db
      end
  end.

(** [IsProUser.has_permission]. *)
Definition IsProUser (env : Env) (request : Request) (db : DB) : bool :=
  match request_user request with
  | None => false
  | Some user =>
      match profiles db !! user with
      | None => false
      | Some profile => is_pro_user env profile db
      end
  end.

(** [HasBundleResource(resource_type).has_permission]. *)
Definition HasBundleResource (resource_type : string) (env : Env)
    (request : Request) : M bool :=
  match request_user request with
  | None => ret false
  | Some user =>
      r <- check_resource_access env user resource_type ;;
      let '(can_access, _, _) := r in
      ret can_access
  end.

(** ** The access-control middleware ([core/middleware/access_control.py]) *)

(** The regular expressions of the endpoint tables are of two shapes:
    [^s$], which [re.match] takes for the text [s] and for [s] followed by
    one newline, and [^s] or [^s.*], which it takes for any text that starts
    with [s]. *)
Inductive Pattern :=
  | Exactly (s : string)
  | StartsWith (s : string).

Definition newline : string :=
  String (Ascii.Ascii false true false true false false false false) EmptyString.

Definition re_match (pattern : Pattern) (path : string) : bool :=
  match pattern with
  | Exactly s => String.eqb path s || String.eqb path (s ++ newline)
  | StartsWith s => String.prefix s path
  end.

(** [needle in text]. *)
Fixpoint contains (needle text : string) : bool :=
  String.prefix needle text
  || match text with
     | EmptyString => false
     | String _ rest => contains needle rest
     end.

Definition RESOURCE_REQUIRED_ENDPOINTS : list (Pattern * string) :=
  [ (Exactly "/api/v1/exam/", ResourceTransaction.EXAM);
    (Exactly "/api/v1/exam/exam_start/", ResourceTransaction.EXAM);
    (Exactly "/api/v1/ai/chat/", ResourceTransaction.CHAT);
    (Exactly "/api/v1/search/", ResourceTransaction.SEARCH);
    (Exactly "/api/v1/questions/", ResourceTransaction.SEARCH) ].

Definition PUBLIC_ENDPOINTS : list Pattern :=
  [ Exactly "/api/v1/meta/";
    Exactly "/api/v1/payment/";
    StartsWith "/api/v1/payment/methods/";
    StartsWith "/media/";
    StartsWith "/api/v1/auth/";
    Exactly "/api/v1/subscription/status/" ].

Definition AUTH_REQUIRED_ENDPOINTS : list Pattern :=
  [ Exactly "/api/v1/auth/me/";
    Exactly "/api/v1/payment/verify/";
    StartsWith "/api/v1/bundles/" ].

(** The answers of the middleware:
    - [AuthenticationRequired]: status 401, "Authentication required"
    - [BundleExpired]: status 403, code [BUNDLE_EXPIRED]
    - [ResourceLimit]: status 402, code [RESOURCE_LIMIT], with the message of
      the service and the remaining resources of the bundle, if any. *)
Inductive Response :=
  | AuthenticationRequired
  | BundleExpired
  | ResourceLimit (message : Message)
      (remaining_resources : option UserBundle.resources).

(** [AccessControlMiddleware.process_view]; [None] lets the request through.
    The middleware looks at [bundle.is_expired] after the service call has
    returned: [later] is that reading of the clock, [env] holds the one of
    the service call. *)
Definition process_view (env : Env) (later : Time) (request : Request)
    : M (option Response) :=
  let path := request_path request in
  if String.prefix "/admin/" path || String.prefix "/static/" path
     || String.prefix "/media/" path
  then ret None
  else if existsb (fun pattern => re_match pattern path) PUBLIC_ENDPOINTS
  then ret None
  else
    match List.find (fun entry => re_match (fst entry) path)
            RESOURCE_REQUIRED_ENDPOINTS with
    | Some (_, resource_type) =>
        match request_user request with
        | None => ret (Some AuthenticationRequired)
        | Some user =>
            unlimited <-
              (if contains "road_sign" path
                  && String.eqb resource_type ResourceTransaction.ROAD_SIGN
               then
                 bundle <- gets (get_active_bundle env user) ;;
                 ret (match bundle with
                      | Some bundle => UserBundle.has_unlimited_road_sign_quiz bundle
                      | None => false
                      end)
               else ret false) ;;
            if (unlimited : bool) then ret None
            else
              r <- check_resource_access env user resource_type ;;
              let '(can_access, bundle, error) := r in
              if negb can_access then
                match bundle with
                | Some bundle =>
                    if UserBundle.is_expired bundle later
                    then ret (Some BundleExpired)
                    else ret (Some (ResourceLimit error
                                      (Some (UserBundle.get_remaining_resources
                                               bundle later))))
                | None => ret (Some (ResourceLimit error None))
                end
              else ret None
        end
    | None =>
        if existsb (fun pattern => re_match pattern path) AUTH_REQUIRED_ENDPOINTS
        then
          match request_user request with
          | None => ret (Some AuthenticationRequired)
          | Some _ => ret None
          end
        else if String.prefix "/api/v1/" path then
          match request_user request with
          | None => ret (Some AuthenticationRequired)
          | Some _ => ret None
          end
        else ret None
    end.

(** * Properties *)

(** ** Vocabulary of the statements *)

(** A relation between the database before and after a program that every
    step of the program maintains. *)
Definition keeps (R : relation DB) {A} (m : M A) : Prop :=
  forall db, R db (exec m db).

(** A program that writes neither the bundles nor the ledger. *)
Definition ledger_frame {A} (m : M A) : Prop :=
  forall db,
    user_bundles (exec m db) = user_bundles db
    /\ resource_transactions (exec m db) = resource_transactions db.

(** A relation that the bookkeeping steps of the services keep: the steps
    outside the bundles and the ledger, the append of a ledger row, and the
    writes of the daily window and of the active flag. *)
Class Bookkeeping (R : relation DB) : Prop := {
  bk_preorder :: PreOrder R;
  bk_frame : forall A (m : M A), ledger_frame m -> keeps R m;
  bk_create_transaction : forall t, keeps R (create_transaction t);
  bk_set_daily : forall pk used reset,
    keeps R (update_user_bundle pk (UserBundle.set_daily used reset));
  bk_set_is_active : forall pk v,
    keeps R (update_user_bundle pk (UserBundle.set_is_active v));
  bk_reset_rows : forall now,
    keeps R (modify (fun db =>
      with_user_bundles (reset_rows now (user_bundles db)) db))
}.

(** The part of the bookkeeping that the order engine and the expiry job
    use: they never write the daily window. *)
Class Ledgering (R : relation DB) : Prop := {
  lg_preorder :: PreOrder R;
  lg_frame : forall A (m : M A), ledger_frame m -> keeps R m;
  lg_create_transaction : forall t, keeps R (create_transaction t);
  lg_set_is_active : forall pk v,
    keeps R (update_user_bundle pk (UserBundle.set_is_active v))
}.

(** A remaining counter is within the quota of the definition when that
    quota is bounded. *)
Definition within (quota remaining : Z) : Prop :=
  0 < quota -> 0 <= remaining <= quota.

Definition in_quota (b : UserBundle.t) : Prop :=
  let d := UserBundle.bundle_definition b in
  within (BundleDefinition.exam_quota d) (UserBundle.exams_remaining b)
  /\ within (BundleDefinition.total_chat_quota d) (UserBundle.chats_remaining b)
  /\ within (BundleDefinition.search_quota d) (UserBundle.search_remaining b).

Definition quota_invariant (db : DB) : Prop :=
  forall k b, user_bundles db !! k = Some b -> in_quota b.

Definition keeps_quota : relation DB :=
  fun db db' => quota_invariant db -> quota_invariant db'.

Definition quantity_not_negative (op : Op) : Prop :=
  match op with
  | ConsumeResource _ _ quantity _ => 0 <= quantity
  | _ => True
  end.

(** The state [consume_commit] leaves when its update goes through. *)
Definition committed (env : Env) (user : UserId) (rt : string) (q : Z)
    (desc : string) (pk : UUID) (row : UserBundle.t) (db : DB) : DB :=
  let row' := consume_update rt q row row in
  with_resource_transactions
    (resource_transactions db
       ++ [consume_transaction env user rt q desc pk row row'])
    (with_user_bundles (<[pk := row']> (user_bundles db)) db).

(** The ledger rows of [rows] that belong to bundle [k]. *)
Definition logged (k : UUID) (rows : list ResourceTransaction.t) : Prop :=
  exists t, In t rows /\ ResourceTransaction.user_bundle t = Some k.

(** The balances whose writes the services log: the three remaining
    counters and the running total of chats. *)
Definition balances (b : UserBundle.t) : Z * Z * Z * Z :=
  (UserBundle.exams_remaining b, UserBundle.chats_remaining b,
   UserBundle.search_remaining b, UserBundle.total_chats_consumed b).

(** Between [db] and [db'] the ledger only grew, and every bundle whose
    [view] (a tuple of its counters) was written, or that was created, has
    a row among the new ones. *)
Definition writes_logged {V} (view : UserBundle.t -> V) : relation DB :=
  fun db db' =>
    exists rows,
      resource_transactions db' = resource_transactions db ++ rows
      /\ forall k, view <$> (user_bundles db !! k) <> view <$> (user_bundles db' !! k)
                   -> logged k rows.

(** The row [UserBundle.objects.create] writes under the key [pk]. *)
Definition created_bundle (env : Env) (user : UserId) (d : BundleDefinition.t)
    (expiry : Time) (pk : UUID) : UserBundle.t :=
  UserBundle.mk pk user d (now env) expiry true 0 0 0 0 (now env) 0.

(** The failure kinds of a consumption, and the kinds a message of the
    service can stand for. *)
Inductive FailureKind :=
  | KNoActiveBundle | KQuotaExhausted | KDailyLimitReached | KBundleExpired
  | KInvalidResourceKind | KInternalError.

Definition failure_kinds (m : Message) : list FailureKind :=
  match m with
  | NoActiveBundleFound | NoActiveBundle => [KNoActiveBundle]
  | ExamExhaustedOrExpired | SearchExhaustedOrExpired =>
      [KQuotaExhausted; KBundleExpired]
  | ChatExhaustedOrDailyLimit => [KQuotaExhausted; KDailyLimitReached]
  | InsufficientExam _ | InsufficientChat _ | InsufficientSearch _ =>
      [KQuotaExhausted]
  | InvalidResourceType _ => [KInvalidResourceKind]
  | InternalError _ => [KInternalError]
  | _ => []
  end.

(** Two [consume_resource] calls of one user that both finish their admission
    check before either takes the row lock; the two locked sections then run
    one after the other. *)
Definition consume_resource_racing (env : Env) (user : UserId)
    (resource_type : string) (quantity : Z) (description : string)
    : M (Outcome * Outcome) :=
  a1 <- consume_admission env user resource_type quantity ;;
  a2 <- consume_admission env user resource_type quantity ;;
  r1 <- consume_finish env user resource_type quantity description a1 ;;
  r2 <- consume_finish env user resource_type quantity description a2 ;;
  ret (r1, r2).

(** The transitions of the order state machine, as seen from the start to
    the end of one operation: those of the specification, and
    [PENDING] to [COMPLETED] for a [verify_payment] that passes through
    [PAYMENT_VERIFIED] on its way. *)
Definition allowed_transition (from to : BundleOrder.OrderStatus) : bool :=
  match from, to with
  | BundleOrder.PENDING, BundleOrder.PAYMENT_VERIFIED
  | BundleOrder.PENDING, BundleOrder.INSUFFICIENT_FUNDS
  | BundleOrder.PENDING, BundleOrder.EXPIRED
  | BundleOrder.PENDING, BundleOrder.CANCELLED
  | BundleOrder.PENDING, BundleOrder.COMPLETED
  | BundleOrder.PAYMENT_VERIFIED, BundleOrder.COMPLETED
  | BundleOrder.INSUFFICIENT_FUNDS, BundleOrder.COMPLETED
  | BundleOrder.INSUFFICIENT_FUNDS, BundleOrder.CANCELLED => true
  | _, _ => false
  end.

(** ** A small shop for the examples *)

Definition at_ (day hour : Z) : Time := day * usec_per_day + hour * usec_per_hour.

Definition basic : BundleDefinition.t :=
  BundleDefinition.mk 1 "Basic" "BASIC" 5 50 10 20 false 30 15000 true 1.
Definition premium : BundleDefinition.t :=
  BundleDefinition.mk 2 "Premium" "PREMIUM" 0 200 0 0 true 90 80000 true 60.
Definition free_trial : BundleDefinition.t :=
  BundleDefinition.mk 3 "Free trial" "FREE" 1 5 5 5 false 7 0 true 0.
Definition telebirr : PaymentMethod.t := PaymentMethod.mk 1 "TELEBIRR" true.
Definition alice : UserId := 7%positive.

Definition request (day hour : Z) : Env := mkEnv (at_ day hour) "10.0.0.1" "test".

(** Nothing bought yet. *)
Definition shop : DB :=
  mkDB [basic; premium] [telebirr] {[alice := UserProfile.mk None]} ∅ [] ∅ [] ∅ 100.

(** The same shop with a free bundle in the catalogue. *)
Definition shop_with_free_trial : DB :=
  mkDB [basic; premium; free_trial] [telebirr] {[alice := UserProfile.mk None]}
       ∅ [] ∅ [] ∅ 100.

(** A Basic bundle of [alice], bought on day 1 at 8:00, with the given
    exams left and daily chats used. *)
Definition alice_bundle (exams daily : Z) : UserBundle.t :=
  UserBundle.mk 50 alice basic (at_ 1 8) (at_ 31 8) true exams 50 20 0
    (at_ 1 8) daily.

Definition shop_with_bundle (exams daily : Z) : DB :=
  mkDB [basic; premium] [telebirr] {[alice := UserProfile.mk (Some 50%positive)]}
       {[50%positive := alice_bundle exams daily]} [] ∅ [] ∅ 100.

(** The status of an order. *)
Definition status_of (order_id : UUID) (db : DB) : option BundleOrder.OrderStatus :=
  BundleOrder.status <$> (bundle_orders db !! order_id).

(** An order for Premium, paid 500.00 of its 800.00, offered Basic instead,
    then cancelled. *)
Definition shop_after_cancel : DB :=
  exec (cancel_order 100)
    (exec (verify_payment mock_verify (request 1 9) 100 "TEST-0001")
       (exec (create_order (request 1 8) alice 2 1) shop)).

(** The order of [alice] for Premium, placed on day 1 at 8:00, and the two
    shops holding it. *)
Definition pending_order : BundleOrder.t :=
  BundleOrder.mk 100 alice premium 80000 BundleOrder.PENDING (Some telebirr)
    EmptyString None None None "10.0.0.1" "test"
    (at_ 1 8 + timedelta_hours 24) (at_ 1 8).

Definition shop_with_order : DB :=
  with_bundle_orders {[100%positive := pending_order]} (with_uuid_seed 101 shop).

Definition free_shop_with_order : DB :=
  with_bundle_orders {[100%positive := pending_order]}
    (with_uuid_seed 101 shop_with_free_trial).

(** No remaining counter of any bundle is negative. *)
Definition never_negative (db : DB) : Prop :=
  forall k b, user_bundles db !! k = Some b ->
    0 <= UserBundle.exams_remaining b /\ 0 <= UserBundle.chats_remaining b
    /\ 0 <= UserBundle.search_remaining b.

Definition keeps_never_negative : relation DB :=
  fun db db' => never_negative db -> never_negative db'.

(** ** Vocabulary of the further properties *)

(** A call of [consume_resource] or [check_resource_access] that answers
    with success. *)
Definition granted (r : Result Outcome) : bool :=
  match r with
  | Ok (true, _, _) => true
  | _ => false
  end.

(** An admission check of [consume_resource] that does not refuse. *)
Definition admitted (a : Result Admission) : bool :=
  match a with
  | Ok (Proceed _) => true
  | Ok (Return (true, _, _)) => true
  | _ => false
  end.


(** A Premium bundle of [alice] (unlimited exams and searches, 200 chats
    without a daily limit, road-sign quizzes included), bought on day 1 at
    8:00, and the shop holding it. *)
Definition alice_premium : UserBundle.t :=
  UserBundle.mk 51 alice premium (at_ 1 8) (at_ 91 8) true 0 200 0 0 (at_ 1 8) 0.

Definition shop_with_premium : DB :=
  mkDB [basic; premium] [telebirr] {[alice := UserProfile.mk (Some 51%positive)]}
       {[51%positive := alice_premium]} [] ∅ [] ∅ 100.

(** No stored purchase stands for the order [o] or for the bundle [pk]: the
    two [OneToOneField]s of a new purchase are free. *)
Definition purchase_free (o pk : UUID) (db : DB) : Prop :=
  forall k p, bundle_purchases db !! k = Some p ->
    BundlePurchase.order p <> Some o /\ BundlePurchase.user_bundle p <> Some pk.

(** The order of [alice] for Basic, placed on day 1 at 8:00, and the shop
    holding it. *)
Definition basic_order : BundleOrder.t :=
  BundleOrder.mk 100 alice basic 15000 BundleOrder.PENDING (Some telebirr)
    EmptyString None None None "10.0.0.1" "test"
    (at_ 1 8 + timedelta_hours 24) (at_ 1 8).

Definition shop_with_basic_order : DB :=
  with_bundle_orders {[100%positive := basic_order]} (with_uuid_seed 101 shop).

(** The same order once its payment of 500.00 has been verified. *)
Definition verified_basic_order : BundleOrder.t :=
  BundleOrder.set_status BundleOrder.PAYMENT_VERIFIED
    (BundleOrder.set_verification "TEST-0001" 50000 (at_ 1 9) basic_order).

Definition shop_with_verified_order : DB :=
  with_bundle_orders {[100%positive := verified_basic_order]}
    (with_uuid_seed 101 shop).

(** The order as [verify_payment] writes it once the verifier has confirmed
    [verified] for the reference [ref]. *)
Definition verified_order (env : Env) (ref : string) (result : VerifyResult)
    (verified : Decimal) (order : BundleOrder.t) : BundleOrder.t :=
  BundleOrder.set_verification ref verified (default (now env) (date result))
    order.


(** The Premium order of [alice] after a payment of 500.00 of its 800.00:
    [INSUFFICIENT_FUNDS], with Basic among the suggestions stored. *)
Definition shop_after_short_payment : DB :=
  exec (verify_payment mock_verify (request 1 9) 100 "TEST-0001") shop_with_order.

Definition short_paid_order : BundleOrder.t :=
  BundleOrder.set_status BundleOrder.INSUFFICIENT_FUNDS
    (BundleOrder.set_verification "TEST-0001" 50000 (1704092400 * 1000000)
       pending_order).

(** Every bundle row is stored under its own key. *)
Definition stored_under_keys (db : DB) : Prop :=
  forall k b, user_bundles db !! k = Some b -> UserBundle.id b = k.

(** Every bundle row passes the [>= 0] checks of its columns. *)
Definition rows_checked (db : DB) : Prop :=
  forall k b, user_bundles db !! k = Some b -> UserBundle.check_positive b = true.

(** What identifies a bundle: its key, owner and definition, and the two
    dates fixed at its creation. *)
Definition identity (b : UserBundle.t)
    : UUID * UserId * BundleDefinition.t * Time * Time :=
  (UserBundle.id b, UserBundle.user b, UserBundle.bundle_definition b,
   UserBundle.purchase_date b, UserBundle.expiry_date b).

(** Every bundle of [db] is still there in [db'], under the same key and
    with the same identity. *)
Definition keeps_identity : relation DB :=
  fun db db' =>
    forall k b, user_bundles db !! k = Some b ->
      exists b', user_bundles db' !! k = Some b' /\ identity b' = identity b.

(** The catalogue is the same in [db] and [db']. *)
Definition keeps_catalogue : relation DB :=
  fun db db' =>
    bundle_definitions db' = bundle_definitions db
    /\ payment_methods db' = payment_methods db.

(** An integer that the database takes, with its opposite: SQLite stores an
    [INTEGER] on 64 bits, and a Python [int] outside of them is refused when
    it is bound to a statement. *)
Definition fits_int64 (z : Z) : Prop := - 2 ^ 63 < z < 2 ^ 63.

(** An amount that a [DecimalField(max_digits=10, decimal_places=2)]
    takes: fewer than ten digits in all.  Any other is refused with
    [decimal.InvalidOperation] when the row is written. *)
Definition fits_decimal (amount : Decimal) : Prop :=
  - 10 ^ 10 < amount < 10 ^ 10.

(** The last instant a Python [datetime] holds, 9999-12-31 23:59:59.999999
    UTC: arithmetic on dates raises [OverflowError] beyond it. *)
Definition datetime_max : Time := 253402300799 * 1000000 + 999999.

(** The columns of an order other than [ip_address]. *)
Definition order_columns (o : BundleOrder.t) :=
  (BundleOrder.id o, BundleOrder.user o, BundleOrder.bundle_definition o,
   BundleOrder.order_amount o, BundleOrder.status o,
   BundleOrder.payment_method o, BundleOrder.reference_number o,
   BundleOrder.verified_amount o, BundleOrder.verified_at o,
   BundleOrder.resulting_bundle o, BundleOrder.user_agent o,
   BundleOrder.expires_at o, BundleOrder.created_at o).

(** The expiry date of a bundle bought now for [validity_days] days is a
    date Python can compute: the clock reads a time of this era, the
    validity is not negative, and [now + timedelta(days=validity_days)] is
    no later than [datetime_max]. *)
Definition expiry_in_range (env : Env) (validity_days : Z) : Prop :=
  0 <= now env /\ 0 <= validity_days
  /\ now env + timedelta_days validity_days <= datetime_max.

(** The columns of a ledger row other than [ip_address]. *)
Definition transaction_columns (t : ResourceTransaction.t) :=
  (ResourceTransaction.user t, ResourceTransaction.user_bundle t,
   ResourceTransaction.transaction_type t, ResourceTransaction.resource_type t,
   ResourceTransaction.quantity t,
   ResourceTransaction.exams_before t, ResourceTransaction.exams_after t,
   ResourceTransaction.chats_before t, ResourceTransaction.chats_after t,
   ResourceTransaction.search_before t, ResourceTransaction.search_after t,
   ResourceTransaction.description t, ResourceTransaction.user_agent t,
   ResourceTransaction.created_at t).

(** The tables other than the bundles and the ledger. *)
Definition other_tables (db : DB) :=
  (profiles db, bundle_orders db, order_suggestions db, bundle_purchases db,
   bundle_definitions db, payment_methods db).

(** The operations that run the admission check of a chat. *)
Definition chat_admission (op : Op) : Prop :=
  match op with
  | ConsumeResource _ resource_type _ _
  | CheckResourceAccess _ resource_type =>
      resource_type = ResourceTransaction.CHAT
  | _ => False
  end.

(** Between [db] and [db'] nothing happened but the lazy reset of the daily
    window of bundle [k]: its row has [daily_chats_used] at 0 and the clock
    in [last_chat_reset]; no other column, row or table differs, the ledger
    included. *)
Definition lazy_reset (env : Env) (k : UUID) (db db' : DB) : Prop :=
  exists row,
    user_bundles db !! k = Some row
    /\ db' = with_user_bundles
               (<[k := UserBundle.set_daily 0 (now env) row]> (user_bundles db))
               db.

(** Every ledger row appended between [db] and [db'] belongs to a bundle
    one of whose counters was written, or that was created. *)
Definition rows_are_writes : relation DB :=
  fun db db' =>
    forall rows t,
      resource_transactions db' = resource_transactions db ++ rows ->
      In t rows ->
      exists k,
        ResourceTransaction.user_bundle t = Some k
        /\ UserBundle.counters <$> (user_bundles db !! k)
           <> UserBundle.counters <$> (user_bundles db' !! k).

(** * Proofs *)

(** ** Programs and the relations they keep *)

Section Keeps.
Context (R : relation DB) `{!PreOrder R}.

Lemma keeps_ret {A} (a : A) : keeps R (ret a).
Proof. intros db. reflexivity. Qed.

Lemma keeps_raise {A} (e : Exn) : keeps R (@raise A e).
Proof. intros db. reflexivity. Qed.

Lemma keeps_gets {A} (f : DB -> A) : keeps R (gets f).
Proof. intros db. reflexivity. Qed.

Lemma keeps_lift {A} (r : Result A) : keeps R (lift r).
Proof. intros db. reflexivity. Qed.

Lemma keeps_bind {A B} (m : M A) (k : A -> M B) :
  keeps R m -> (forall a, keeps R (k a)) -> keeps R (bind m k).
Proof.
  intros Hm Hk db. unfold exec, bind.
  specialize (Hm db). unfold exec in Hm.
  destruct (m db) as [[a|e] db']; simpl in *; [|done].
  etransitivity; [exact Hm|]. apply Hk.
Qed.

Lemma keeps_atomic {A} (m : M A) : keeps R m -> keeps R (atomic m).
Proof.
  intros Hm db. unfold exec, atomic.
  specialize (Hm db). unfold exec in Hm.
  destruct (m db) as [[a|e] db']; simpl in *; [done|reflexivity].
Qed.

Lemma keeps_try_except {A} (m : M A) (h : Exn -> M A) :
  keeps R m -> (forall e, keeps R (h e)) -> keeps R (try_except m h).
Proof.
  intros Hm Hh db. unfold exec, try_except.
  specialize (Hm db). unfold exec in Hm.
  destruct (m db) as [[a|e] db']; simpl in *; [done|].
  etransitivity; [exact Hm|]. apply Hh.
Qed.

Lemma keeps_for_each {A} (l : list A) (f : A -> M unit) :
  (forall x, keeps R (f x)) -> keeps R (for_each l f).
Proof.
  intros Hf. induction l as [|x l IH]; simpl.
  - apply keeps_ret.
  - apply keeps_bind; [apply Hf|intros _; exact IH].
Qed.
End Keeps.

(** Break a program down along its control structure. *)
Ltac keeps_step :=
  match goal with
  | |- keeps _ (bind _ _) => apply keeps_bind; [apply _| |intros ?]
  | |- keeps _ (atomic _) => apply keeps_atomic; [apply _|]
  | |- keeps _ (try_except _ _) => apply keeps_try_except; [apply _| |intros ?]
  | |- keeps _ (for_each _ _) => apply keeps_for_each; [apply _|intros ?]
  | |- keeps _ (ret _) => apply keeps_ret; apply _
  | |- keeps _ (raise _) => apply keeps_raise; apply _
  | |- keeps _ (gets _) => apply keeps_gets; apply _
  | |- keeps _ (lift _) => apply keeps_lift; apply _
  | |- keeps _ (if ?c then _ else _) => destruct c
  | |- keeps _ (match ?x with _ => _ end) => destruct x
  end.

Create HintDb ledger.

Ltac solve_keeps := repeat (first [keeps_step | solve [eauto with ledger]]).

(** The steps that touch neither the bundles nor the ledger. *)
Ltac frame :=
  intros db;
  unfold exec, activate_bundle, get_profile, get_user_bundle,
    get_bundle_definition, get_payment_method, get_order, save_order,
    insert_order, insert_purchase, save_purchase, create_suggestion,
    get_suggestion, uuid4, modify;
  repeat case_match; split; reflexivity.

Lemma frame_activate_bundle u b : ledger_frame (activate_bundle u b).
Proof. frame. Qed.
Lemma frame_get_profile u : ledger_frame (get_profile u).
Proof. frame. Qed.
Lemma frame_get_user_bundle k : ledger_frame (get_user_bundle k).
Proof. frame. Qed.
Lemma frame_get_bundle_definition a k : ledger_frame (get_bundle_definition a k).
Proof. frame. Qed.
Lemma frame_get_payment_method k : ledger_frame (get_payment_method k).
Proof. frame. Qed.
Lemma frame_get_order k l : ledger_frame (get_order k l).
Proof. frame. Qed.
Lemma frame_save_order o : ledger_frame (save_order o).
Proof. frame. Qed.
Lemma frame_insert_order o : ledger_frame (insert_order o).
Proof. frame. Qed.
Lemma frame_insert_purchase p : ledger_frame (insert_purchase p).
Proof. frame. Qed.
Lemma frame_save_purchase p : ledger_frame (save_purchase p).
Proof. frame. Qed.
Lemma frame_create_suggestion s : ledger_frame (create_suggestion s).
Proof. frame. Qed.
Lemma frame_get_suggestion o d : ledger_frame (get_suggestion o d).
Proof. frame. Qed.
Lemma frame_uuid4 : ledger_frame uuid4.
Proof. frame. Qed.

#[local] Hint Resolve frame_activate_bundle frame_get_profile
  frame_get_user_bundle frame_get_bundle_definition frame_get_payment_method
  frame_get_order frame_save_order frame_insert_order frame_insert_purchase
  frame_save_purchase frame_create_suggestion frame_get_suggestion
  frame_uuid4 bk_frame bk_create_transaction bk_set_daily bk_set_is_active
  bk_reset_rows lg_frame lg_create_transaction lg_set_is_active : ledger.

(** ** What the writing steps compute *)

Lemma consume_commit_run env user rt q desc held db :
  consume_commit env user rt q desc held db =
  match user_bundles db !! UserBundle.id held with
  | Some row =>
      if UserBundle.check_positive (consume_update rt q row row)
      then (Ok (true, Some (consume_update rt q row row), MsgNone),
            committed env user rt q desc (UserBundle.id held) row db)
      else (Ok (false, None, InternalError (IntegrityError "CHECK (>= 0)")), db)
  | None => (Ok (false, None, InternalError (DoesNotExist MUserBundle)), db)
  end.
Proof.
  unfold consume_commit, try_except, atomic, bind, get_user_bundle,
    update_user_bundle, create_transaction, modify, ret, committed.
  destruct (user_bundles db !! UserBundle.id held) as [row|] eqn:Hrow;
    simpl; [|reflexivity].
  rewrite Hrow.
  destruct (UserBundle.check_positive (consume_update rt q row row));
    simpl; [|reflexivity].
  rewrite lookup_insert_eq. reflexivity.
Qed.

(** A query leaves the database alone. *)
Lemma get_order_state o l db : snd (get_order o l db) = db.
Proof. unfold get_order. repeat case_match; reflexivity. Qed.

(** [UserBundle.objects.create]: the key is set when the object is built, so
    [save] skips the block that would copy the quotas. *)
Lemma UserBundle_objects_create_run env user d e db :
  UserBundle_objects_create env user d e db =
  let db1 := with_uuid_seed (Pos.succ (uuid_seed db)) db in
  match e with
  | None => (Raise (IntegrityError "NOT NULL (expiry_date)"), db1)
  | Some expiry =>
      match user_bundles db !! uuid_seed db with
      | Some _ => (Raise (IntegrityError "UNIQUE (id)"), db1)
      | None =>
          (Ok (created_bundle env user d expiry (uuid_seed db)),
           with_user_bundles
             (<[uuid_seed db := created_bundle env user d expiry (uuid_seed db)]>
                (user_bundles db)) db1)
      end
  end.
Proof.
  unfold UserBundle_objects_create, UserBundle_init, UserBundle_save,
    insert_user_bundle, uuid4, bind, ret, raise; simpl.
  destruct e as [expiry|]; simpl; [|reflexivity].
  destruct (user_bundles db !! uuid_seed db); reflexivity.
Qed.

(** [purchase_bundle] never gets past the insert of its purchase row, which
    carries no order: it leaves the database as it found it. *)
Lemma purchase_bundle_exec env user d p db :
  exec (purchase_bundle env user d p) db = db.
Proof.
  unfold exec, purchase_bundle, try_except, bind, atomic, uuid4,
    insert_purchase, get_bundle_definition, ret.
  repeat (case_match; simplify_eq/=); reflexivity.
Qed.

(** ** The services, for any relation the bookkeeping keeps *)

#[local] Instance bookkeeping_ledgering (R : relation DB) `{!Bookkeeping R} :
  Ledgering R.
Proof.
  split; [apply _|apply bk_frame|apply bk_create_transaction
         |apply bk_set_is_active].
Qed.

(** The expiry job and the order engine. *)
Section Orders.
Context (R : relation DB) `{!Ledgering R}.

Lemma keeps_expire_bundles env : keeps R (expire_bundles env).
Proof. unfold expire_bundles, expire_one. solve_keeps. Qed.

Lemma keeps_create_order env u d p : keeps R (create_order env u d p).
Proof. unfold create_order. solve_keeps. Qed.

Lemma keeps_cancel_order o : keeps R (cancel_order o).
Proof. unfold cancel_order. solve_keeps. Qed.

(** [complete_order], when the creation of the bundle keeps the relation by
    itself. *)
Lemma keeps_complete_order env o :
  (forall user d e, keeps R (UserBundle_objects_create env user d e)) ->
  keeps R (complete_order env o).
Proof. intros Hcreate. unfold complete_order. solve_keeps. Qed.

Lemma keeps_verify_payment v env o r :
  (forall o', keeps R (complete_order env o')) ->
  keeps R (verify_payment v env o r).
Proof. intros Hcomplete. unfold verify_payment. solve_keeps. Qed.

Lemma keeps_accept_suggestion env o s :
  (forall o', keeps R (complete_order env o')) ->
  keeps R (accept_suggestion env o s).
Proof. intros Hcomplete. unfold accept_suggestion. solve_keeps. Qed.
End Orders.

Section Services.
Context (R : relation DB) `{!Bookkeeping R}.

Lemma keeps_can_use_chat env b : keeps R (can_use_chat env b).
Proof. unfold can_use_chat, _reset_daily_chat_if_needed. solve_keeps. Qed.

Lemma keeps_consume_admission env user rt q :
  keeps R (consume_admission env user rt q).
Proof.
  pose proof keeps_can_use_chat. unfold consume_admission. solve_keeps.
Qed.

Lemma keeps_consume_resource env user rt q desc :
  (forall held, keeps R (consume_commit env user rt q desc held)) ->
  keeps R (consume_resource env user rt q desc).
Proof.
  intros Hcommit. unfold consume_resource, consume_finish.
  keeps_step; [apply keeps_consume_admission|].
  destruct a; [solve_keeps|apply Hcommit].
Qed.

Lemma keeps_check_resource_access env user rt :
  keeps R (check_resource_access env user rt).
Proof.
  pose proof keeps_can_use_chat. unfold check_resource_access. solve_keeps.
Qed.

Lemma keeps_reset_daily_chats env : keeps R (reset_daily_chats env).
Proof. unfold reset_daily_chats. solve_keeps. Qed.

(** Every operation keeps [R] once the two writes of balances do: the locked
    update of [consume_resource] and the creation in [complete_order]. *)
Lemma keeps_run verifier env op db :
  (forall user rt q desc held,
     op = ConsumeResource user rt q desc ->
     keeps R (consume_commit env user rt q desc held)) ->
  (forall o, keeps R (complete_order env o)) ->
  R db (run verifier env op db).
Proof.
  intros Hcommit Hcomplete. destruct op; simpl.
  - apply keeps_consume_resource. intros held. by apply Hcommit.
  - apply keeps_check_resource_access.
  - rewrite purchase_bundle_exec. reflexivity.
  - apply keeps_reset_daily_chats.
  - apply (keeps_expire_bundles R).
  - apply (keeps_create_order R).
  - by apply (keeps_verify_payment R).
  - apply Hcomplete.
  - by apply (keeps_accept_suggestion R).
  - apply (keeps_cancel_order R).
Qed.
End Services.

(** ** The quota invariant *)

Lemma kq_update pk f :
  (forall row, UserBundle.check_positive (f row) = true ->
               in_quota row -> in_quota (f row)) ->
  keeps keeps_quota (update_user_bundle pk f).
Proof.
  intros Hf db Hinv k b. unfold exec, update_user_bundle.
  destruct (user_bundles db !! pk) as [row|] eqn:Hrow; [|apply Hinv].
  destruct (UserBundle.check_positive (f row)) eqn:Hc; [|apply Hinv].
  simpl. rewrite lookup_insert. case_decide; [|apply Hinv].
  intros [= <-]. eauto.
Qed.

#[local] Instance keeps_quota_bookkeeping : Bookkeeping keeps_quota.
Proof.
  split.
  - split; [intros x; red; auto | intros x y z H1 H2 H; auto].
  - intros A m H db Hinv k b. destruct (H db) as [-> _]. apply Hinv.
  - intros t db Hinv. exact Hinv.
  - intros pk used reset. apply kq_update. intros row _ H. exact H.
  - intros pk v. apply kq_update. intros row _ H. exact H.
  - intros now_ db Hinv k b. unfold exec, modify, reset_rows; simpl.
    rewrite lookup_fmap.
    destruct (user_bundles db !! k) as [b0|] eqn:E; simpl; [|done].
    intros [= <-]. specialize (Hinv k b0 E). by destruct (reset_due _ _).
Qed.

Lemma kq_UserBundle_objects_create env user d e :
  keeps keeps_quota (UserBundle_objects_create env user d e).
Proof.
  intros db Hinv. unfold exec. rewrite UserBundle_objects_create_run.
  destruct e as [e|]; simpl; [|exact Hinv].
  destruct (user_bundles db !! uuid_seed db); simpl; [exact Hinv|].
  intros k b. simpl. rewrite lookup_insert. case_decide; [|apply Hinv].
  intros [= <-]. unfold in_quota, within; simpl. lia.
Qed.

Lemma consume_update_in_quota rt q row :
  0 <= q -> UserBundle.check_positive (consume_update rt q row row) = true ->
  in_quota row -> in_quota (consume_update rt q row row).
Proof.
  intros Hq Hc (He & Hch & Hs).
  unfold UserBundle.check_positive in Hc.
  unfold in_quota, within, consume_update in *; simpl in *.
  repeat match goal with
         | |- context [if ?c then _ else _] => destruct c
         | H : context [if ?c then _ else _] |- _ => destruct c
         end; lia.
Qed.

Lemma kq_consume_commit env user rt q desc held :
  0 <= q -> keeps keeps_quota (consume_commit env user rt q desc held).
Proof.
  intros Hq db Hinv. unfold exec. rewrite consume_commit_run.
  destruct (user_bundles db !! UserBundle.id held) as [row|] eqn:Hrow;
    [|exact Hinv].
  destruct (UserBundle.check_positive _) eqn:Hc; [|exact Hinv].
  intros k b. simpl. rewrite lookup_insert. case_decide; [|apply Hinv].
  intros [= <-]. apply consume_update_in_quota; eauto.
Qed.

(** C1 (amended).  Every operation keeps each remaining counter of a bundle
    with a bounded quota between 0 and that quota, provided a
    [consume_resource] call asks for a quantity that is not negative. *)
Theorem quota_invariant_preserved verifier env op db :
  quantity_not_negative op ->
  quota_invariant db -> quota_invariant (run verifier env op db).
Proof.
  intros Hq. apply (keeps_run keeps_quota).
  - intros user rt q desc held ->. by apply kq_consume_commit.
  - intros o. apply keeps_complete_order; [apply _|].
    intros user d e. apply kq_UserBundle_objects_create.
Qed.

(** ** No counter below zero *)

Lemma check_positive_never_negative b :
  UserBundle.check_positive b = true ->
  0 <= UserBundle.exams_remaining b /\ 0 <= UserBundle.chats_remaining b
  /\ 0 <= UserBundle.search_remaining b.
Proof. unfold UserBundle.check_positive. lia. Qed.

(** The [>= 0] check of the columns guards every single-row write. *)
Lemma nn_update pk f : keeps keeps_never_negative (update_user_bundle pk f).
Proof.
  intros db Hinv k b. unfold exec, update_user_bundle.
  destruct (user_bundles db !! pk) as [row|] eqn:Hrow; [|apply Hinv].
  destruct (UserBundle.check_positive (f row)) eqn:Hc; [|apply Hinv].
  simpl. rewrite lookup_insert. case_decide; [|apply Hinv].
  intros [= <-]. by apply check_positive_never_negative.
Qed.

#[local] Instance keeps_never_negative_bookkeeping :
  Bookkeeping keeps_never_negative.
Proof.
  split.
  - split; [intros x; red; auto | intros x y z H1 H2 H; auto].
  - intros A m H db Hinv k b. destruct (H db) as [-> _]. apply Hinv.
  - intros t db Hinv. exact Hinv.
  - intros pk used reset. apply nn_update.
  - intros pk v. apply nn_update.
  - intros now_ db Hinv k b. unfold exec, modify, reset_rows; simpl.
    rewrite lookup_fmap.
    destruct (user_bundles db !! k) as [b0|] eqn:E; simpl; [|done].
    intros [= <-]. specialize (Hinv k b0 E). by destruct (reset_due _ _).
Qed.

(** X1.  Every operation, whatever quantity it is asked for, keeps the
    remaining counters of every bundle at or above zero. *)
Lemma remaining_never_negative verifier env op db :
  never_negative db -> never_negative (run verifier env op db).
Proof.
  apply (keeps_run keeps_never_negative).
  - intros user rt q desc held _ db' Hinv. unfold exec.
    rewrite consume_commit_run.
    destruct (user_bundles db' !! UserBundle.id held) as [row|] eqn:Hrow;
      [|exact Hinv].
    destruct (UserBundle.check_positive _) eqn:Hc; [|exact Hinv].
    intros k b. simpl. rewrite lookup_insert. case_decide; [|apply Hinv].
    intros [= <-]. by apply check_positive_never_negative.
  - intros o. apply keeps_complete_order; [apply _|].
    intros user d e db' Hinv. unfold exec.
    rewrite UserBundle_objects_create_run.
    destruct e as [e|]; simpl; [|exact Hinv].
    destruct (user_bundles db' !! uuid_seed db'); simpl; [exact Hinv|].
    intros k b. simpl. rewrite lookup_insert. case_decide; [|apply Hinv].
    intros [= <-]. simpl. lia.
Qed.

(** ** Writes and their ledger rows *)

Section WritesLogged.
Context {V : Type} `{!EqDecision V} (view : UserBundle.t -> V).

Lemma wl_update pk f :
  (forall row, view (f row) = view row) ->
  keeps (writes_logged view) (update_user_bundle pk f).
Proof.
  intros Hf db. unfold exec, update_user_bundle.
  destruct (user_bundles db !! pk) as [row|] eqn:Hrow;
    [|exists []; split; [by rewrite app_nil_r|done]].
  destruct (UserBundle.check_positive (f row));
    [|exists []; split; [by rewrite app_nil_r|done]].
  exists []. split; [by rewrite app_nil_r|].
  intros k. simpl. rewrite lookup_insert. case_decide; [|done].
  subst. rewrite Hrow. simpl. by rewrite Hf.
Qed.

(** A view that the active flag is no part of: the expiry job and the order
    engine log what they write of it. *)
Lemma writes_logged_ledgering :
  (forall v row, view (UserBundle.set_is_active v row) = view row) ->
  Ledgering (writes_logged view).
Proof.
  intros Hactive. split.
  - split.
    + intros db. exists []. split; [by rewrite app_nil_r|]. intros k H. done.
    + intros a b c (r1 & E1 & H1) (r2 & E2 & H2). exists (r1 ++ r2). split.
      * by rewrite E2, E1, app_assoc.
      * intros k Hk.
        destruct (decide (view <$> user_bundles a !! k
                          = view <$> user_bundles b !! k)) as [Eab|Nab].
        -- rewrite Eab in Hk. destruct (H2 k Hk) as (t & Ht & Hu).
           exists t. split; [apply in_or_app; by right|done].
        -- destruct (H1 k Nab) as (t & Ht & Hu).
           exists t. split; [apply in_or_app; by left|done].
  - intros A m H db. destruct (H db) as [Hb Ht]. exists []. split.
    + by rewrite Ht, app_nil_r.
    + intros k. by rewrite Hb.
  - intros t db. exists [t]. split; [done|]. intros k H. done.
  - intros pk v. apply wl_update. intros row. apply Hactive.
Qed.

Lemma writes_logged_bookkeeping :
  (forall used reset row, view (UserBundle.set_daily used reset row) = view row) ->
  (forall v row, view (UserBundle.set_is_active v row) = view row) ->
  Bookkeeping (writes_logged view).
Proof.
  intros Hdaily Hactive.
  destruct (writes_logged_ledgering Hactive) as [Hpre Hframe Hcreate Hflag].
  split; [exact Hpre|exact Hframe|exact Hcreate| |exact Hflag| ].
  - intros pk used reset. apply wl_update. intros row. apply Hdaily.
  - intros now_ db. exists []. split; [by rewrite app_nil_r|].
    intros k. unfold reset_rows. simpl. rewrite lookup_fmap.
    destruct (user_bundles db !! k) as [b|]; simpl; [|done].
    destruct (reset_due _ _); [by rewrite Hdaily|done].
Qed.

(** The update and its row, both or neither. *)
Lemma wl_consume_commit env user rt q desc held :
  keeps (writes_logged view) (consume_commit env user rt q desc held).
Proof.
  intros db. unfold exec. rewrite consume_commit_run.
  destruct (user_bundles db !! UserBundle.id held) as [row|] eqn:Hrow;
    [|exists []; split; [by rewrite app_nil_r|done]].
  destruct (UserBundle.check_positive _);
    [|exists []; split; [by rewrite app_nil_r|done]].
  eexists. split; [reflexivity|].
  intros k. simpl. rewrite lookup_insert. case_decide; [|done].
  intros _. subst. eexists. split; [left; reflexivity|done].
Qed.

(** The new bundle and its purchase row, both or neither. *)
Lemma wl_complete_order env o : keeps (writes_logged view) (complete_order env o).
Proof.
  intros db.
  assert (Hrefl : writes_logged view db db)
    by (exists []; split; [by rewrite app_nil_r|done]).
  unfold exec, complete_order, bind, atomic.
  pose proof (get_order_state o (Some [BundleOrder.PAYMENT_VERIFIED]) db) as Hs.
  destruct (get_order o _ db) as [[order|e] db0]; simpl in Hs; subst db0;
    [|exact Hrefl].
  rewrite UserBundle_objects_create_run. simpl.
  destruct (user_bundles db !! uuid_seed db) eqn:Hfresh; [exact Hrefl|].
  unfold save_order, get_profile, activate_bundle, uuid4,
    insert_purchase, create_transaction, modify, ret, raise.
  repeat (case_match; simplify_eq/=); try exact Hrefl.
  eexists. split; [reflexivity|].
  intros k. simpl. rewrite lookup_insert. case_decide; [|done].
  intros _. subst. eexists. split; [left; reflexivity|done].
Qed.
End WritesLogged.

#[local] Instance writes_logged_balances : Bookkeeping (writes_logged balances).
Proof. apply writes_logged_bookkeeping; first [apply _|done]. Qed.

(** Every operation only appends to the ledger, and whenever it writes a
    remaining counter or the running chat total of a bundle, or creates a
    bundle, it appends a row for that bundle in the same unit of work. *)
Theorem balance_writes_are_logged verifier env op db :
  writes_logged balances db (run verifier env op db).
Proof.
  apply (keeps_run (writes_logged balances)).
  - intros user rt q desc held _. apply wl_consume_commit.
  - intros o. apply wl_complete_order.
Qed.

(** ** Sorting and filtering *)

Lemma insert_sorted_In {A} (le : A -> A -> bool) x y l :
  In y (insert_sorted le x l) <-> y = x \/ In y l.
Proof.
  induction l as [|z l IH]; simpl.
  - intuition.
  - destruct (le x z); simpl; [intuition|]. rewrite IH. intuition.
Qed.

Lemma sort_by_In {A} (le : A -> A -> bool) y l :
  In y (sort_by le l) <-> In y l.
Proof.
  unfold sort_by. induction l as [|x l IH]; simpl; [done|].
  rewrite insert_sorted_In, IH. intuition.
Qed.

Lemma insert_sorted_length {A} (le : A -> A -> bool) x l :
  length (insert_sorted le x l) = S (length l).
Proof.
  induction l as [|z l IH]; simpl; [done|].
  destruct (le x z); simpl; [done|]. by rewrite IH.
Qed.

Lemma filter_none {A} (f : A -> bool) l :
  (forall x, In x l -> f x = false) -> List.filter f l = [].
Proof.
  induction l as [|x l IH]; simpl; [done|]. intros H.
  rewrite (H x) by (by left). apply IH. intros y Hy. apply H. by right.
Qed.

Lemma all_user_bundles_In db b :
  In b (all_user_bundles db) -> exists k, user_bundles db !! k = Some b.
Proof.
  unfold all_user_bundles. rewrite sort_by_In, in_map_iff.
  intros ([k b'] & <- & H). exists k.
  apply list_elem_of_In in H. by apply elem_of_map_to_list in H.
Qed.

(** ** The daily reset job *)

Lemma for_each_create_transaction {A} (l : list A) (g : A -> ResourceTransaction.t) db :
  for_each l (fun x => create_transaction (g x)) db
  = (Ok tt, with_resource_transactions (resource_transactions db ++ map g l) db).
Proof.
  revert db. induction l as [|x l IH]; intros db; simpl.
  - unfold ret. rewrite app_nil_r. by destruct db.
  - unfold bind, create_transaction, modify. rewrite IH. simpl.
    by rewrite <- app_assoc.
Qed.

Lemma reset_daily_chats_run env db :
  reset_daily_chats env db =
  let db1 := with_user_bundles (reset_rows (now env) (user_bundles db)) db in
  (Ok (Z.of_nat (length (List.filter (reset_due (now env)) (all_user_bundles db)))),
   with_resource_transactions
     (resource_transactions db
        ++ map (fun b => reset_transaction b (now env))
               (List.filter (reset_logged (now env)) (all_user_bundles db1)))
     db1).
Proof.
  unfold reset_daily_chats, try_except, atomic, bind, gets, modify, ret.
  simpl. rewrite for_each_create_transaction. reflexivity.
Qed.

(** C9.  A second run of [reset_daily_chats] later on the same day changes
    nothing: no counter, no reset time, no new ledger row; it reports 0
    bundles reset.  (The clock has moved on between the two runs, and no
    stored reset time lies in the future of the first run.) *)
Theorem reset_daily_chats_twice env1 env2 db :
  (forall k b, user_bundles db !! k = Some b ->
               UserBundle.last_chat_reset b <= now env1) ->
  now env1 < now env2 ->
  start_of_day (now env2) = start_of_day (now env1) ->
  reset_daily_chats env2 (exec (reset_daily_chats env1) db)
  = (Ok 0, exec (reset_daily_chats env1) db).
Proof.
  intros Hpast Hlater Hday.
  assert (Hsod : start_of_day (now env1) <= now env1).
  { unfold start_of_day.
    pose proof (Z.mod_pos_bound (now env1) usec_per_day) as Hm.
    unfold usec_per_day in *. lia. }
  set (db1 := exec (reset_daily_chats env1) db).
  assert (Hb1 : user_bundles db1 = reset_rows (now env1) (user_bundles db)).
  { unfold db1, exec. rewrite reset_daily_chats_run. reflexivity. }
  assert (Hrow : forall k b, user_bundles db1 !! k = Some b ->
            reset_due (now env2) b = false /\ reset_logged (now env2) b = false).
  { intros k b. rewrite Hb1. unfold reset_rows. rewrite lookup_fmap.
    destruct (user_bundles db !! k) as [b0|] eqn:Hk; simpl; [|done].
    intros [= <-]. specialize (Hpast k b0 Hk).
    unfold reset_due, reset_logged. rewrite Hday.
    destruct (UserBundle.is_active b0 &&
              (UserBundle.last_chat_reset b0 <? start_of_day (now env1))) eqn:Hdue.
    - simpl. split.
      + apply andb_false_iff. right. lia.
      + apply andb_false_iff. right. lia.
    - split; [exact Hdue|]. apply andb_false_iff. right. lia. }
  assert (Hsame : reset_rows (now env2) (user_bundles db1) = user_bundles db1).
  { apply map_eq. intros k. unfold reset_rows at 1. rewrite lookup_fmap.
    destruct (user_bundles db1 !! k) as [b|] eqn:Hk; simpl; [|done].
    by destruct (Hrow k b Hk) as [-> _]. }
  rewrite reset_daily_chats_run. simpl. rewrite Hsame.
  assert (Hid : with_user_bundles (user_bundles db1) db1 = db1) by (by destruct db1).
  rewrite Hid.
  rewrite !filter_none.
  - simpl. rewrite app_nil_r. by destruct db1.
  - intros b Hb. apply all_user_bundles_In in Hb as [k Hk].
    by destruct (Hrow k b Hk).
  - intros b Hb. apply all_user_bundles_In in Hb as [k Hk].
    by destruct (Hrow k b Hk).
Qed.

Lemma insert_sorted_perm {A} (le : A -> A -> bool) x l :
  insert_sorted le x l ≡ₚ x :: l.
Proof.
  induction l as [|z l IH]; simpl; [done|].
  destruct (le x z); [done|]. rewrite IH. apply Permutation_swap.
Qed.

Lemma sort_by_perm {A} (le : A -> A -> bool) l : sort_by le l ≡ₚ l.
Proof.
  unfold sort_by. induction l as [|x l IH]; simpl; [done|].
  by rewrite insert_sorted_perm, IH.
Qed.

(** ** The suggestion engine *)

Lemma affordable_bundles_In budget catalogue d :
  In d (affordable_bundles budget catalogue) <->
  In d catalogue /\ BundleDefinition.is_active d = true
  /\ BundleDefinition.price_etb d <= budget.
Proof.
  unfold affordable_bundles. rewrite sort_by_In, filter_In, andb_true_iff.
  rewrite Z.leb_le. tauto.
Qed.

Lemma score_bundle_ok budget current d :
  BundleDefinition.price_etb d <> 0 -> budget <> 0 ->
  exists s, score_bundle budget current d = Ok s /\ s_bundle s = d.
Proof.
  intros Hp Hb. unfold score_bundle, div_by_decimal.
  apply Z.eqb_neq in Hp, Hb. rewrite Hp, Hb.
  destruct (_ && _); [|destruct (PrimFloat.ltb _ _)]; eexists; split; reflexivity.
Qed.

Lemma score_all_ok budget current l :
  (forall d, In d l -> BundleDefinition.price_etb d <> 0) -> budget <> 0 ->
  exists ss, score_all budget current l = Ok ss /\ map s_bundle ss = l.
Proof.
  intros Hp Hb. induction l as [|d l IH]; simpl.
  - by exists [].
  - destruct (score_bundle_ok budget current d) as (s & -> & Hs);
      [apply Hp; by left|done|].
    destruct IH as (ss & -> & Hss); [intros d' Hd'; apply Hp; by right|].
    exists (s :: ss). split; [done|]. simpl. by rewrite Hs, Hss.
Qed.

Lemma NoDup_map_filter {A B} (g : A -> B) (f : A -> bool) l :
  List.NoDup (map g l) -> List.NoDup (map g (List.filter f l)).
Proof.
  induction l as [|x l IH]; simpl; [done|].
  intros H. apply List.NoDup_cons_iff in H as [Hx Hl].
  destruct (f x); simpl; [|auto].
  apply List.NoDup_cons_iff. split; [|auto].
  intros Hin. apply Hx. apply in_map_iff in Hin as (y & Hy & Hyin).
  apply filter_In in Hyin as [Hyin _]. apply in_map_iff. eauto.
Qed.

Lemma In_take {A} (x : A) n l : In x (take n l) -> In x l.
Proof.
  intros H. apply list_elem_of_In. apply list_elem_of_In in H.
  by apply (subseteq_take n l).
Qed.

Lemma NoDup_map_take {A B} (g : A -> B) n l :
  List.NoDup (map g l) -> List.NoDup (map g (take n l)).
Proof.
  revert n. induction l as [|x l IH]; intros [|n] H; simpl;
    try apply List.NoDup_nil.
  apply List.NoDup_cons_iff in H as [Hx Hl]. apply List.NoDup_cons_iff. split; [|auto].
  intros Hin. apply Hx. apply in_map_iff in Hin as (y & Hy & Hyin).
  apply In_take in Hyin. apply in_map_iff. eauto.
Qed.

Lemma NoDup_map_sort_by {A B} (g : A -> B) (le : A -> A -> bool) l :
  List.NoDup (map g l) -> List.NoDup (map g (sort_by le l)).
Proof.
  intros H. eapply Permutation_NoDup; [|exact H].
  apply Permutation_map. symmetry. apply sort_by_perm.
Qed.

(** The head of a list sorted by price is a cheapest element. *)
Lemma sort_by_price_head l h :
  head (sort_by (fun x y => BundleDefinition.price_etb x
                            <=? BundleDefinition.price_etb y) l) = Some h ->
  forall d, In d l -> BundleDefinition.price_etb h <= BundleDefinition.price_etb d.
Proof.
  revert h. induction l as [|x l IH]; intros h; [done|].
  unfold sort_by in *. simpl.
  destruct (foldr _ [] l) as [|z s] eqn:Hs; simpl.
  - intros [= <-] d [<-|Hd]; [lia|].
    assert (Hl : l = []).
    { destruct l as [|y l']; [done|]. simpl in Hs.
      pose proof (insert_sorted_perm
        (fun x y => BundleDefinition.price_etb x <=? BundleDefinition.price_etb y)
        y (foldr (insert_sorted (fun x y => BundleDefinition.price_etb x
                                   <=? BundleDefinition.price_etb y)) [] l')) as Hp.
      rewrite Hs in Hp. by apply Permutation_nil_cons in Hp. }
    subst l. done.
  - specialize (IH z eq_refl).
    destruct (BundleDefinition.price_etb x <=? BundleDefinition.price_etb z) eqn:Hle;
      simpl; intros [= <-] d [<-|Hd]; try lia.
    + specialize (IH d Hd). lia.
    + by apply IH.
Qed.

(** What [get_budget_suggestions] computes when no price is zero. *)
Lemma get_budget_suggestions_run budget current catalogue :
  (forall d, In d catalogue -> BundleDefinition.is_active d = true ->
             0 < BundleDefinition.price_etb d) ->
  match affordable_bundles budget catalogue with
  | [] =>
      get_budget_suggestions budget current catalogue
      = Ok match cheapest_bundle catalogue with
           | Some c =>
               [mkSuggestion c
                  (CheapestAvailable (BundleDefinition.price_etb c - budget))
                  0.5 (Some (BundleDefinition.price_etb c - budget)) None]
           | None => []
           end
  | affordable =>
      exists scored,
        map s_bundle scored = affordable
        /\ get_budget_suggestions budget current catalogue
           = Ok (take 3 (sort_by (fun x y => PrimFloat.leb (s_score y) (s_score x))
                           scored))
  end.
Proof.
  intros Hpos. unfold get_budget_suggestions.
  destruct (affordable_bundles budget catalogue) as [|d l] eqn:Ha.
  - by destruct (cheapest_bundle catalogue).
  - destruct (score_all_ok budget current (d :: l)) as (ss & Hss & Hmap).
    + intros d' Hd'. rewrite <- Ha in Hd'.
      apply affordable_bundles_In in Hd' as (Hin & Hact & _).
      specialize (Hpos d' Hin Hact). lia.
    + assert (Hd : In d (affordable_bundles budget catalogue))
        by (rewrite Ha; by left).
      apply affordable_bundles_In in Hd as (Hin & Hact & Hle).
      specialize (Hpos d Hin Hact). lia.
    + exists ss. split; [done|]. by rewrite Hss.
Qed.

Lemma get_budget_suggestions_total budget current catalogue :
  (forall d, In d catalogue -> BundleDefinition.is_active d = true ->
             0 < BundleDefinition.price_etb d) ->
  exists suggestions,
    get_budget_suggestions budget current catalogue = Ok suggestions
    /\ (length suggestions <= 3)%nat.
Proof.
  intros Hpos.
  pose proof (get_budget_suggestions_run budget current catalogue Hpos) as H.
  destruct (affordable_bundles budget catalogue) as [|d l].
  - eexists. split; [exact H|]. destruct (cheapest_bundle catalogue); simpl; lia.
  - destruct H as (scored & _ & ->). eexists. split; [done|].
    rewrite length_take. lia.
Qed.

(** C10.  When every active definition has a positive price and the budget
    is positive, [get_budget_suggestions] returns (no division by zero) and
    gives at most three suggestions. *)
Theorem get_budget_suggestions_returns budget current catalogue :
  (forall d, In d catalogue -> BundleDefinition.is_active d = true ->
             0 < BundleDefinition.price_etb d) ->
  0 < budget ->
  exists suggestions,
    get_budget_suggestions budget current catalogue = Ok suggestions
    /\ (length suggestions <= 3)%nat.
Proof.
  intros Hpos _.
  pose proof (get_budget_suggestions_run budget current catalogue Hpos) as H.
  destruct (affordable_bundles budget catalogue) as [|d l].
  - eexists. split; [exact H|].
    destruct (cheapest_bundle catalogue); simpl; lia.
  - destruct H as (scored & _ & ->). eexists. split; [reflexivity|].
    rewrite length_take. lia.
Qed.

(** The precondition of C10 is needed: a free bundle in the catalogue makes
    the value score divide by zero. *)
Lemma get_budget_suggestions_free_bundle :
  get_budget_suggestions 10000 None [basic; premium; free_trial]
  = Raise ZeroDivisionError.
Proof. vm_compute. reflexivity. Qed.

Lemma get_budget_suggestions_returns_witness :
  0 < 50000
  /\ exists suggestions,
       get_budget_suggestions 50000 (Some premium) [basic; premium]
       = Ok suggestions
       /\ (length suggestions <= 3)%nat.
Proof.
  assert (Hb : 0 < 50000) by lia.
  split; [exact Hb|].
  refine (get_budget_suggestions_returns 50000 (Some premium) [basic; premium] _ Hb).
  intros d [<-|[<-|[]]] _; vm_compute; reflexivity.
Defined.

(** ** Insufficient funds *)

(** What the suggestions of [get_budget_suggestions] are. *)
Lemma get_budget_suggestions_suggestions budget current catalogue suggestions :
  (forall d, In d catalogue -> BundleDefinition.is_active d = true ->
             0 < BundleDefinition.price_etb d) ->
  get_budget_suggestions budget current catalogue = Ok suggestions ->
  forall s, In s suggestions ->
    In (s_bundle s) catalogue
    /\ BundleDefinition.is_active (s_bundle s) = true
    /\ (BundleDefinition.price_etb (s_bundle s) <= budget
        \/ ((forall d, In d catalogue -> BundleDefinition.is_active d = true ->
                       budget < BundleDefinition.price_etb d)
            /\ suggestions = [s]
            /\ (forall d, In d catalogue -> BundleDefinition.is_active d = true ->
                   BundleDefinition.price_etb (s_bundle s)
                   <= BundleDefinition.price_etb d)
            /\ s_deficit s
               = Some (BundleDefinition.price_etb (s_bundle s) - budget)
            /\ s_reason s
               = CheapestAvailable
                   (BundleDefinition.price_etb (s_bundle s) - budget))).
Proof.
  intros Hpos Hrun s Hs.
  pose proof (get_budget_suggestions_run budget current catalogue Hpos) as H.
  destruct (affordable_bundles budget catalogue) as [|d l] eqn:Ha.
  - rewrite H in Hrun. injection Hrun as <-.
    destruct (cheapest_bundle catalogue) as [c|] eqn:Hc; [|done].
    destruct Hs as [<-|[]]. simpl.
    unfold cheapest_bundle in Hc.
    assert (Hin : In c (List.filter BundleDefinition.is_active catalogue)).
    { apply (sort_by_In (fun x y => BundleDefinition.price_etb x
                                    <=? BundleDefinition.price_etb y)).
      destruct (sort_by _ _); [done|]. injection Hc as ->. by left. }
    apply filter_In in Hin as [Hin Hact].
    split; [done|]. split; [done|]. right. repeat split.
    + intros d Hd Hdact.
      destruct (Z_lt_le_dec budget (BundleDefinition.price_etb d)); [done|].
      assert (In d (affordable_bundles budget catalogue))
        by (apply affordable_bundles_In; auto).
      rewrite Ha in *. done.
    + intros d Hd Hdact. eapply sort_by_price_head; [exact Hc|].
      apply filter_In. auto.
  - destruct H as (scored & Hmap & Hrun'). rewrite Hrun' in Hrun.
    injection Hrun as <-.
    apply In_take in Hs. apply sort_by_In in Hs.
    assert (In (s_bundle s) (affordable_bundles budget catalogue)) as Hb.
    { rewrite Ha, <- Hmap. by apply in_map. }
    apply affordable_bundles_In in Hb as (? & ? & ?). auto.
Qed.

(** The suggestions of one call are for different definitions. *)
Lemma get_budget_suggestions_NoDup budget current catalogue suggestions :
  (forall d, In d catalogue -> BundleDefinition.is_active d = true ->
             0 < BundleDefinition.price_etb d) ->
  List.NoDup (map BundleDefinition.id catalogue) ->
  get_budget_suggestions budget current catalogue = Ok suggestions ->
  List.NoDup (map (fun s => BundleDefinition.id (s_bundle s)) suggestions).
Proof.
  intros Hpos Hnd Hrun.
  pose proof (get_budget_suggestions_run budget current catalogue Hpos) as H.
  destruct (affordable_bundles budget catalogue) as [|d l] eqn:Ha.
  - rewrite H in Hrun. injection Hrun as <-.
    destruct (cheapest_bundle catalogue); simpl; repeat constructor. by intros [].
  - destruct H as (scored & Hmap & Hrun'). rewrite Hrun' in Hrun.
    injection Hrun as <-.
    apply NoDup_map_take, NoDup_map_sort_by.
    rewrite <- (map_map s_bundle BundleDefinition.id), Hmap, <- Ha.
    unfold affordable_bundles. by apply NoDup_map_sort_by, NoDup_map_filter.
Qed.

(** Storing suggestions that clash neither with the stored ones nor with one
    another. *)
Lemma for_each_create_suggestion order_id suggestions db :
  (forall r, In r (order_suggestions db) ->
             OrderBundleSuggestion.order r = order_id ->
             ~ In (BundleDefinition.id (OrderBundleSuggestion.bundle_definition r))
                  (map (fun s => BundleDefinition.id (s_bundle s)) suggestions)) ->
  List.NoDup (map (fun s => BundleDefinition.id (s_bundle s)) suggestions) ->
  for_each suggestions (fun s => create_suggestion (suggestion_row order_id s)) db
  = (Ok tt, with_order_suggestions
              (order_suggestions db ++ map (suggestion_row order_id) suggestions)
              db).
Proof.
  revert db. induction suggestions as [|s l IH]; intros db Hold Hnd; simpl.
  - unfold ret. rewrite app_nil_r. by destruct db.
  - apply List.NoDup_cons_iff in Hnd as [Hs Hl].
    unfold bind, create_suggestion at 1. simpl.
    assert (existsb (same_suggestion order_id (BundleDefinition.id (s_bundle s)))
              (order_suggestions db) = false) as ->.
    { apply not_true_is_false. intros Hex.
      apply existsb_exists in Hex as (r & Hr & Hsame).
      unfold same_suggestion in Hsame.
      apply andb_true_iff in Hsame as [Ho Hd].
      apply Pos.eqb_eq in Ho, Hd.
      apply (Hold r Hr Ho). left. by rewrite Hd. }
    rewrite IH; simpl.
    + by rewrite <- app_assoc.
    + intros r Hr Ho Hin. apply in_app_or in Hr as [Hr|[<-|[]]].
      * apply (Hold r Hr Ho). by right.
      * by apply Hs.
    + done.
Qed.

(** With an active definition in the catalogue there is always a
    suggestion. *)
Lemma get_budget_suggestions_nonempty budget current catalogue suggestions :
  (forall d, In d catalogue -> BundleDefinition.is_active d = true ->
             0 < BundleDefinition.price_etb d) ->
  get_budget_suggestions budget current catalogue = Ok suggestions ->
  (exists d, In d catalogue /\ BundleDefinition.is_active d = true) ->
  suggestions <> [].
Proof.
  intros Hpos Hrun (d & Hd & Hact).
  pose proof (get_budget_suggestions_run budget current catalogue Hpos) as H.
  destruct (affordable_bundles budget catalogue) as [|a l] eqn:Ha.
  - rewrite H in Hrun. injection Hrun as <-.
    unfold cheapest_bundle.
    destruct (sort_by _ _) as [|c rest] eqn:Hsort; [|done].
    assert (Hin : In d (List.filter BundleDefinition.is_active catalogue))
      by (apply filter_In; auto).
    apply (sort_by_In (fun x y => BundleDefinition.price_etb x
                                  <=? BundleDefinition.price_etb y)) in Hin.
    by rewrite Hsort in Hin.
  - destruct H as (scored & Hmap & Hrun'). rewrite Hrun' in Hrun.
    injection Hrun as <-.
    destruct scored as [|s0 scored]; [done|].
    destruct (sort_by _ (s0 :: scored)) as [|s1 rest] eqn:Hsort; [|done].
    pose proof (sort_by_perm (fun x y => PrimFloat.leb (s_score y) (s_score x))
                  (s0 :: scored)) as Hp.
    rewrite Hsort in Hp. by apply Permutation_nil_cons in Hp.
Qed.

(** C7 (amended).  For a pending, unexpired order whose payment is confirmed
    for less than the order amount (an amount the column takes), and a
    catalogue whose active definitions all have a positive price: the order becomes [INSUFFICIENT_FUNDS], the
    deficit reported is the order amount minus the amount paid, the
    suggestions returned are stored for the order, and each of them is an
    active definition priced within the amount paid, unless no active
    definition is, in which case the one suggestion is a cheapest active
    definition, with its deficit noted.  There is a suggestion whenever the
    catalogue has an active definition; in particular, when none is
    affordable, the cheapest active definition is suggested. *)
Theorem verify_payment_insufficient_funds
    verifier env order_id reference db order method paid :
  bundle_orders db !! order_id = Some order ->
  BundleOrder.id order = order_id ->
  BundleOrder.status order = BundleOrder.PENDING ->
  now env <= BundleOrder.expires_at order ->
  BundleOrder.payment_method order = Some method ->
  success (verifier (PaymentMethod.code method) reference) = true ->
  amount (verifier (PaymentMethod.code method) reference) = Some paid ->
  fits_decimal paid ->
  paid < BundleOrder.order_amount order ->
  (forall d, In d (bundle_definitions db) -> BundleDefinition.is_active d = true ->
             0 < BundleDefinition.price_etb d) ->
  List.NoDup (map BundleDefinition.id (bundle_definitions db)) ->
  (forall r, In r (order_suggestions db) ->
             OrderBundleSuggestion.order r <> order_id) ->
  exists suggestions upgrade,
    eval (verify_payment verifier env order_id reference) db
    = Ok (VInsufficientFunds paid (BundleOrder.order_amount order)
            (BundleOrder.order_amount order - paid) suggestions upgrade)
    /\ status_of order_id (exec (verify_payment verifier env order_id reference) db)
       = Some BundleOrder.INSUFFICIENT_FUNDS
    /\ order_suggestions (exec (verify_payment verifier env order_id reference) db)
       = order_suggestions db ++ map (suggestion_row order_id) suggestions
    /\ (forall s, In s suggestions ->
         In (s_bundle s) (bundle_definitions db)
         /\ BundleDefinition.is_active (s_bundle s) = true
         /\ (BundleDefinition.price_etb (s_bundle s) <= paid
             \/ ((forall d, In d (bundle_definitions db) ->
                            BundleDefinition.is_active d = true ->
                            paid < BundleDefinition.price_etb d)
                 /\ suggestions = [s]
                 /\ (forall d, In d (bundle_definitions db) ->
                               BundleDefinition.is_active d = true ->
                               BundleDefinition.price_etb (s_bundle s)
                               <= BundleDefinition.price_etb d)
                 /\ s_deficit s
                    = Some (BundleDefinition.price_etb (s_bundle s) - paid)
                 /\ s_reason s
                    = CheapestAvailable
                        (BundleDefinition.price_etb (s_bundle s) - paid))))
    /\ ((exists d, In d (bundle_definitions db)
                   /\ BundleDefinition.is_active d = true) ->
        suggestions <> [])
    /\ ((forall d, In d (bundle_definitions db) ->
                   BundleDefinition.is_active d = true ->
                   paid < BundleDefinition.price_etb d) ->
        (exists d, In d (bundle_definitions db)
                   /\ BundleDefinition.is_active d = true) ->
        exists s,
          suggestions = [s]
          /\ In (s_bundle s) (bundle_definitions db)
          /\ BundleDefinition.is_active (s_bundle s) = true
          /\ (forall d, In d (bundle_definitions db) ->
                        BundleDefinition.is_active d = true ->
                        BundleDefinition.price_etb (s_bundle s)
                        <= BundleDefinition.price_etb d)
          /\ s_deficit s = Some (BundleDefinition.price_etb (s_bundle s) - paid)
          /\ s_reason s
             = CheapestAvailable (BundleDefinition.price_etb (s_bundle s) - paid)).
Proof.
  intros Horder Hid Hpending Hlive Hmethod Hsuccess Hamount _ Hless Hpos Hnd
    Hnone.
  destruct (get_budget_suggestions_total paid
              (Some (BundleOrder.bundle_definition order)) (bundle_definitions db)
              Hpos) as (suggestions & Hrun & _).
  pose proof (get_budget_suggestions_suggestions _ _ _ _ Hpos Hrun) as Hall.
  pose proof (get_budget_suggestions_NoDup _ _ _ _ Hpos Hnd Hrun) as Hdistinct.
  pose proof (get_budget_suggestions_nonempty _ _ _ _ Hpos Hrun) as Hsome.
  assert (Hcheapest :
    (forall d, In d (bundle_definitions db) ->
               BundleDefinition.is_active d = true ->
               paid < BundleDefinition.price_etb d) ->
    (exists d, In d (bundle_definitions db)
               /\ BundleDefinition.is_active d = true) ->
    exists s,
      suggestions = [s]
      /\ In (s_bundle s) (bundle_definitions db)
      /\ BundleDefinition.is_active (s_bundle s) = true
      /\ (forall d, In d (bundle_definitions db) ->
                    BundleDefinition.is_active d = true ->
                    BundleDefinition.price_etb (s_bundle s)
                    <= BundleDefinition.price_etb d)
      /\ s_deficit s = Some (BundleDefinition.price_etb (s_bundle s) - paid)
      /\ s_reason s
         = CheapestAvailable (BundleDefinition.price_etb (s_bundle s) - paid)).
  { intros Hdear Hex. specialize (Hsome Hex).
    destruct suggestions as [|s rest]; [done|].
    destruct (Hall s (or_introl eq_refl)) as (Hin & Hact & [Hle|Hc]).
    - specialize (Hdear _ Hin Hact). lia.
    - destruct Hc as (_ & Hone & Hmin & Hdef & Hreason).
      exists s. by repeat split. }
  exists suggestions,
    (can_upgrade_existing_bundle env (BundleOrder.user order) paid db).
  unfold eval, exec, verify_payment, try_except, bind, get_order.
  rewrite Horder, Hpending. simpl.
  unfold BundleOrder.is_expired.
  assert ((BundleOrder.expires_at order <? now env) = false) as -> by lia.
  rewrite Hmethod, Hsuccess. simpl. rewrite Hamount. simpl.
  assert ((BundleOrder.order_amount order <=? paid) = false) as -> by lia.
  unfold save_order, modify, gets, lift. simpl. rewrite Hrun. simpl.
  rewrite Hid.
  rewrite for_each_create_suggestion; simpl.
  - unfold status_of. simpl. rewrite lookup_insert_eq. simpl.
    split; [done|]. split; [done|]. split; [done|].
    split; [exact Hall|]. split; [exact Hsome|exact Hcheapest].
  - intros r Hr Ho. by destruct (Hnone r Hr).
  - done.
Qed.

(** ** Worked examples and counterexamples of the ledger *)

Lemma shop_with_bundle_in_quota exams daily :
  0 <= exams <= 5 -> quota_invariant (shop_with_bundle exams daily).
Proof.
  intros He k b H. unfold shop_with_bundle in H; simpl in H.
  apply lookup_singleton_Some in H as [_ <-].
  unfold in_quota, within; simpl. lia.
Qed.

(** C1, as stated, fails: asking for a negative quantity passes the
    admission check and raises the counter above the quota. *)
Lemma negative_quantity_exceeds_quota :
  quota_invariant (shop_with_bundle 5 0)
  /\ ~ quota_invariant
         (run mock_verify (request 1 9)
            (ConsumeResource alice "exam" (-1) "first") (shop_with_bundle 5 0)).
Proof.
  split.
  - apply shop_with_bundle_in_quota. lia.
  - intros H.
    specialize (H 50%positive (alice_bundle 6 0)).
    destruct H as [H _]; [vm_compute; reflexivity|].
    unfold within in H; simpl in H. lia.
Qed.

Lemma quota_invariant_preserved_witness :
  quantity_not_negative (ConsumeResource alice "exam" 1 "first")
  /\ quota_invariant (shop_with_bundle 5 0)
  /\ quota_invariant
       (run mock_verify (request 1 9) (ConsumeResource alice "exam" 1 "first")
          (shop_with_bundle 5 0)).
Proof.
  assert (H0 : quantity_not_negative (ConsumeResource alice "exam" 1 "first"))
    by (simpl; lia).
  assert (H1 : quota_invariant (shop_with_bundle 5 0))
    by (apply shop_with_bundle_in_quota; lia).
  split; [exact H0|]. split; [exact H1|].
  exact (quota_invariant_preserved mock_verify (request 1 9)
           (ConsumeResource alice "exam" 1 "first") (shop_with_bundle 5 0) H0 H1).
Defined.

(** ** The admission check and its one write *)

(** The one write of [can_use_chat]: the lazy reset of the daily window. *)
Lemma can_use_chat_exec env b db :
  exec (can_use_chat env b) db = db
  \/ exists row,
       user_bundles db !! UserBundle.id b = Some row
       /\ 0 < BundleDefinition.daily_chat_limit (UserBundle.bundle_definition b)
       /\ 1 <= days (now env - UserBundle.last_chat_reset b)
       /\ exec (can_use_chat env b) db
          = with_user_bundles
              (<[UserBundle.id b := UserBundle.set_daily 0 (now env) row]>
                 (user_bundles db)) db.
Proof.
  unfold exec, can_use_chat, _reset_daily_chat_if_needed, update_user_bundle,
    bind, ret.
  destruct (negb (UserBundle.is_active b)); simpl; [by left|].
  destruct (UserBundle.is_expired b (now env)); simpl; [by left|].
  destruct (0 <? _) eqn:Hlimit; simpl.
  2: { repeat (case_match; simplify_eq/=; try (by left)). }
  destruct (1 <=? _) eqn:Hday; simpl.
  2: { repeat (case_match; simplify_eq/=; try (by left)). }
  destruct (user_bundles db !! UserBundle.id b) as [row|] eqn:Hrow; simpl;
    [|by left].
  destruct (UserBundle.check_positive _); simpl; [|by left].
  right. exists row. repeat split; [lia|lia|].
  repeat (case_match; simplify_eq/=; try reflexivity).
Qed.

(** The one write [check_resource_access] can make. *)
Lemma check_resource_access_exec env user rt db :
  exec (check_resource_access env user rt) db = db
  \/ (rt = ResourceTransaction.CHAT
      /\ exists b row,
           get_active_bundle env user db = Some b
           /\ user_bundles db !! UserBundle.id b = Some row
           /\ 0 < BundleDefinition.daily_chat_limit (UserBundle.bundle_definition b)
           /\ 1 <= days (now env - UserBundle.last_chat_reset b)
           /\ exec (check_resource_access env user rt) db
              = with_user_bundles
                  (<[UserBundle.id b := UserBundle.set_daily 0 (now env) row]>
                     (user_bundles db)) db).
Proof.
  unfold exec, check_resource_access, bind, gets.
  destruct (get_active_bundle env user db) as [b|] eqn:Hb; simpl; [|by left].
  destruct (String.eqb rt ResourceTransaction.EXAM);
    [destruct (negb _); by left|].
  destruct (String.eqb rt ResourceTransaction.CHAT) eqn:Hchat.
  2: { repeat (case_match; simplify_eq/=; try (by left)). }
  apply String.eqb_eq in Hchat.
  pose proof (can_use_chat_exec env b db) as Hc. unfold exec in Hc.
  destruct (can_use_chat env b db) as [[[can b']|e] db']; simpl in *.
  - destruct (negb can); simpl.
    + destruct Hc as [->|(row & ? & ? & ? & ->)]; [by left|].
      right. split; [done|]. by exists b, row.
    + destruct Hc as [->|(row & ? & ? & ? & ->)]; [by left|].
      right. split; [done|]. by exists b, row.
  - destruct Hc as [->|(row & ? & ? & ? & ->)]; [by left|].
    right. split; [done|]. by exists b, row.
Qed.

(** C6 (amended).  [check_resource_access] leaves the database as it is,
    except that a chat check on a bundle with a daily limit, a day or more
    after its last reset, zeroes [daily_chats_used] and stamps
    [last_chat_reset] on the row of the active bundle; no other column, no
    other row, neither the active-bundle pointer nor the ledger changes.
    And in that case the write is made: for a chat check on an active
    bundle, held as it is stored, with a daily limit and a last reset a day
    or more old, the database after the call is the one before it with
    exactly these two columns of that row rewritten. *)
Theorem check_resource_access_effect env user rt db :
  (exec (check_resource_access env user rt) db = db
  \/ (rt = ResourceTransaction.CHAT
      /\ exists b row,
           get_active_bundle env user db = Some b
           /\ user_bundles db !! UserBundle.id b = Some row
           /\ 0 < BundleDefinition.daily_chat_limit (UserBundle.bundle_definition b)
           /\ 1 <= days (now env - UserBundle.last_chat_reset b)
           /\ exec (check_resource_access env user rt) db
              = with_user_bundles
                  (<[UserBundle.id b := UserBundle.set_daily 0 (now env) row]>
                     (user_bundles db)) db))
  /\ (forall b,
        rt = ResourceTransaction.CHAT ->
        get_active_bundle env user db = Some b ->
        user_bundles db !! UserBundle.id b = Some b ->
        UserBundle.check_positive b = true ->
        0 < BundleDefinition.daily_chat_limit (UserBundle.bundle_definition b) ->
        1 <= days (now env - UserBundle.last_chat_reset b) ->
        exec (check_resource_access env user rt) db
        = with_user_bundles
            (<[UserBundle.id b := UserBundle.set_daily 0 (now env) b]>
               (user_bundles db)) db).
Proof.
  split; [apply check_resource_access_exec|].
  intros b -> Hb Hrow Hpos Hlimit Hday.
  assert (Hact : UserBundle.is_active b = true
                 /\ UserBundle.is_expired b (now env) = false).
  { unfold get_active_bundle in Hb. repeat (case_match; simplify_eq/=).
    destruct (UserBundle.is_active b), (UserBundle.is_expired b (now env)); done. }
  destruct Hact as [Hact Hexp].
  assert (Hpos0 : UserBundle.check_positive (UserBundle.set_daily 0 (now env) b)
                  = true).
  { unfold UserBundle.check_positive in *. simpl. lia. }
  unfold exec, check_resource_access, bind, gets. rewrite Hb. simpl.
  unfold can_use_chat, _reset_daily_chat_if_needed, update_user_bundle, bind, ret.
  rewrite Hact, Hexp. simpl.
  assert ((0 <? BundleDefinition.daily_chat_limit (UserBundle.bundle_definition b))
          = true) as -> by lia.
  assert ((1 <=? days (now env - UserBundle.last_chat_reset b)) = true) as ->
    by lia.
  rewrite Hrow, Hpos0. simpl.
  repeat (case_match; simplify_eq/=); reflexivity.
Qed.

Lemma check_resource_access_effect_witness :
  exec (check_resource_access (request 3 9) alice ResourceTransaction.CHAT)
    (shop_with_bundle 5 3)
  = with_user_bundles
      {[50%positive := UserBundle.set_daily 0 (at_ 3 9) (alice_bundle 5 3)]}
      (shop_with_bundle 5 3).
Proof.
  destruct (check_resource_access_effect (request 3 9) alice
              ResourceTransaction.CHAT (shop_with_bundle 5 3)) as [_ H].
  rewrite (H (alice_bundle 5 3));
    [ | reflexivity | reflexivity | reflexivity | reflexivity
      | vm_compute; reflexivity | vm_compute; discriminate ].
  simpl. by rewrite insert_singleton.
Defined.

(** C6, as stated, fails: a chat check two days after the last reset rewrites
    the bundle. *)
Lemma check_resource_access_resets_daily_counter :
  exec (check_resource_access (request 3 9) alice "chat") (shop_with_bundle 5 3)
  <> shop_with_bundle 5 3
  /\ UserBundle.daily_chats_used
       <$> (user_bundles
              (exec (check_resource_access (request 3 9) alice "chat")
                 (shop_with_bundle 5 3)) !! 50%positive)
     = Some 0.
Proof.
  split; [|vm_compute; reflexivity].
  intros H. apply (f_equal (fun db => UserBundle.daily_chats_used
                                        <$> (user_bundles db !! 50%positive))) in H.
  vm_compute in H. discriminate.
Qed.

(** ** Expired bundles *)

(** C8 (amended).  When the bundle the user's profile points to is past its
    expiry date, [consume_resource] fails with "No active bundle found",
    whatever the resource, the quantity and the counters, and writes
    nothing. *)
Theorem consume_resource_expired_bundle env user rt q desc db profile pk b :
  profiles db !! user = Some profile ->
  UserProfile.active_bundle profile = Some pk ->
  user_bundles db !! pk = Some b ->
  UserBundle.expiry_date b < now env ->
  consume_resource env user rt q desc db
  = (Ok (false, None, NoActiveBundleFound), db).
Proof.
  intros Hp Ha Hb He.
  unfold consume_resource, consume_admission, bind, gets, get_active_bundle.
  rewrite Hp, Ha, Hb. unfold UserBundle.is_expired.
  assert ((UserBundle.expiry_date b <? now env) = true) as -> by lia.
  rewrite andb_false_r. reflexivity.
Qed.

Lemma consume_resource_expired_bundle_witness :
  UserBundle.expiry_date (alice_bundle 5 0) < now (request 40 9)
  /\ consume_resource (request 40 9) alice "exam" 1 "first" (shop_with_bundle 5 0)
     = (Ok (false, None, NoActiveBundleFound), shop_with_bundle 5 0).
Proof.
  assert (H : UserBundle.expiry_date (alice_bundle 5 0) < now (request 40 9))
    by (vm_compute; reflexivity).
  split; [exact H|].
  exact (consume_resource_expired_bundle (request 40 9) alice "exam" 1 "first"
           (shop_with_bundle 5 0) (UserProfile.mk (Some 50%positive))
           50%positive (alice_bundle 5 0) eq_refl eq_refl eq_refl H).
Defined.

(** C8, as stated, fails: the failure reported for an expired bundle is not
    one that stands for an expired bundle. *)
Lemma expired_bundle_is_reported_as_no_active_bundle :
  ~ (forall env user rt q desc db profile pk b,
       profiles db !! user = Some profile ->
       UserProfile.active_bundle profile = Some pk ->
       user_bundles db !! pk = Some b ->
       UserBundle.expiry_date b < now env ->
       exists held message,
         eval (consume_resource env user rt q desc) db
         = Ok (false, held, message)
         /\ In KBundleExpired (failure_kinds message)).
Proof.
  intros H.
  destruct (H (request 40 9) alice "exam" 1 "first" (shop_with_bundle 5 0)
              (UserProfile.mk (Some 50%positive)) 50%positive (alice_bundle 5 0))
    as (held & message & Heval & Hkind);
    [reflexivity|reflexivity|reflexivity|vm_compute; reflexivity|].
  vm_compute in Heval. injection Heval as _ <-.
  simpl in Hkind. intuition discriminate.
Qed.

(** ** Two consumers and one unit *)

(** C4 fails on the code.  With one exam left, two calls that both pass the
    admission check before either locks the row: the first succeeds, the
    second is not re-validated under the lock, its decrement breaks the
    [>= 0] check of the column and it comes back as an internal error, not
    as an exhausted quota.  The counter ends at 0. *)
Theorem racing_consumer_gets_internal_error :
  let r := consume_resource_racing (request 1 9) alice "exam" 1 "start"
             (shop_with_bundle 1 0) in
  fst r = Ok ((true, Some (alice_bundle 0 0), MsgNone),
              (false, None, InternalError (IntegrityError "CHECK (>= 0)")))
  /\ ~ In KQuotaExhausted
        (failure_kinds (InternalError (IntegrityError "CHECK (>= 0)")))
  /\ user_bundles (snd r) !! 50%positive = Some (alice_bundle 0 0)
  /\ length (resource_transactions (snd r)) = 1%nat.
Proof.
  repeat split; try (vm_compute; reflexivity).
  simpl. intuition discriminate.
Qed.

(** ** Orders *)

(** C5 fails on the code.  [accept_suggestion] does not look at the status
    of the order: a cancelled order that still has its suggestions is taken
    from [CANCELLED] to [COMPLETED], and a bundle is activated for it. *)
Theorem accept_suggestion_revives_cancelled_order :
  status_of 100 shop_after_cancel = Some BundleOrder.CANCELLED
  /\ status_of 100 (run mock_verify (request 1 10) (AcceptSuggestion 100 1)
                      shop_after_cancel)
     = Some BundleOrder.COMPLETED
  /\ allowed_transition BundleOrder.CANCELLED BundleOrder.COMPLETED = false
  /\ UserProfile.active_bundle
       <$> (profiles (run mock_verify (request 1 10) (AcceptSuggestion 100 1)
                        shop_after_cancel) !! alice)
     = Some (Some 101%positive).
Proof. repeat split; vm_compute; reflexivity. Qed.

(** ** The bundle a completed order creates *)

(** Whatever the order, the bundle [complete_order] returns is the row
    [UserBundle.objects.create] wrote: counters at 0. *)
Lemma complete_order_bundle env order_id db c :
  eval (complete_order env order_id) db = Ok c ->
  exists order,
    bundle_orders db !! order_id = Some order
    /\ c_bundle c
       = created_bundle env (BundleOrder.user order)
           (BundleOrder.bundle_definition order)
           (now env + timedelta_days
                        (BundleDefinition.validity_days
                           (BundleOrder.bundle_definition order)))
           (uuid_seed db).
Proof.
  unfold eval, complete_order, bind, atomic.
  pose proof (get_order_state order_id (Some [BundleOrder.PAYMENT_VERIFIED]) db) as Hs.
  destruct (get_order order_id _ db) as [[order|e] db0] eqn:Ho;
    simpl in Hs; subst db0; [|done].
  rewrite UserBundle_objects_create_run. simpl.
  intros H. exists order. split.
  - unfold get_order in Ho. repeat (case_match; simplify_eq/=); done.
  - destruct (user_bundles db !! uuid_seed db); [done|].
    unfold save_order, get_profile, activate_bundle, uuid4,
      insert_purchase, create_transaction, modify, ret, raise in H.
    repeat (case_match; simplify_eq/=); done.
Qed.

(** C2 fails on the code.  An order for Basic (5 exams, 50 chats, 20
    searches, 30 days) paid in full completes with a bundle whose three
    counters are 0; only the expiry date is the purchase time plus the 30
    days. *)
Theorem completed_order_bundle_starts_empty :
  let placed := exec (create_order (request 1 8) alice 1 1) shop in
  exists order c,
    eval (verify_payment mock_verify (request 1 9) 100 "TEST-0001") placed
    = Ok (VCompleted order c)
    /\ UserBundle.bundle_definition (c_bundle c) = basic
    /\ (BundleDefinition.exam_quota basic,
        BundleDefinition.total_chat_quota basic,
        BundleDefinition.search_quota basic) = (5, 50, 20)
    /\ (UserBundle.exams_remaining (c_bundle c),
        UserBundle.chats_remaining (c_bundle c),
        UserBundle.search_remaining (c_bundle c)) = (0, 0, 0)
    /\ UserBundle.purchase_date (c_bundle c) = at_ 1 9
    /\ UserBundle.expiry_date (c_bundle c) = at_ 1 9 + timedelta_days 30.
Proof.
  eexists _, _. split; [vm_compute; reflexivity|].
  repeat split.
Qed.

(** [shop_with_order] is what [create_order] makes of [shop]. *)
Lemma create_order_shop :
  exec (create_order (request 1 8) alice 2 1) shop = shop_with_order.
Proof. vm_compute. reflexivity. Qed.

Lemma verify_payment_insufficient_funds_witness :
  50000 < BundleOrder.order_amount pending_order
  /\ exists suggestions upgrade,
       eval (verify_payment mock_verify (request 1 9) 100 "TEST-0001")
         shop_with_order
       = Ok (VInsufficientFunds 50000 80000 30000 suggestions upgrade)
       /\ status_of 100
            (exec (verify_payment mock_verify (request 1 9) 100 "TEST-0001")
               shop_with_order)
          = Some BundleOrder.INSUFFICIENT_FUNDS
       /\ suggestions <> [].
Proof.
  assert (Hless : 50000 < BundleOrder.order_amount pending_order)
    by (vm_compute; reflexivity).
  split; [exact Hless|].
  destruct (verify_payment_insufficient_funds mock_verify (request 1 9) 100
              "TEST-0001" shop_with_order pending_order telebirr 50000)
    as (suggestions & upgrade & Heval & Hstatus & _ & _ & Hsome & _).
  - reflexivity.
  - reflexivity.
  - reflexivity.
  - vm_compute. discriminate.
  - reflexivity.
  - reflexivity.
  - reflexivity.
  - split; vm_compute; reflexivity.
  - exact Hless.
  - intros d [<-|[<-|[]]] _; vm_compute; reflexivity.
  - simpl. repeat constructor; simpl; intuition discriminate.
  - intros r [].
  - exists suggestions, upgrade. split; [exact Heval|]. split; [exact Hstatus|].
    apply Hsome. exists basic. split; [by left|reflexivity].
Defined.

(** C7, as stated, fails: with a free bundle in the catalogue the scoring
    divides by zero after the order has been marked [INSUFFICIENT_FUNDS];
    the call reports an error, no deficit, and stores no suggestion. *)
Lemma free_bundle_breaks_insufficient_funds :
  eval (verify_payment mock_verify (request 1 9) 100 "TEST-0001")
    free_shop_with_order
  = Ok (VError ZeroDivisionError)
  /\ (forall suggestions upgrade,
        eval (verify_payment mock_verify (request 1 9) 100 "TEST-0001")
          free_shop_with_order
        <> Ok (VInsufficientFunds 50000 80000 30000 suggestions upgrade))
  /\ status_of 100
       (exec (verify_payment mock_verify (request 1 9) 100 "TEST-0001")
          free_shop_with_order)
     = Some BundleOrder.INSUFFICIENT_FUNDS
  /\ order_suggestions
       (exec (verify_payment mock_verify (request 1 9) 100 "TEST-0001")
          free_shop_with_order)
     = [].
Proof.
  assert (H : eval (verify_payment mock_verify (request 1 9) 100 "TEST-0001")
                free_shop_with_order = Ok (VError ZeroDivisionError))
    by (vm_compute; reflexivity).
  split; [exact H|]. split; [|split; vm_compute; reflexivity].
  intros suggestions upgrade. rewrite H. discriminate.
Qed.

Lemma reset_daily_chats_twice_witness :
  now (request 3 9) < now (request 3 10)
  /\ start_of_day (now (request 3 10)) = start_of_day (now (request 3 9))
  /\ reset_daily_chats (request 3 10)
       (exec (reset_daily_chats (request 3 9)) (shop_with_bundle 5 3))
     = (Ok 0, exec (reset_daily_chats (request 3 9)) (shop_with_bundle 5 3)).
Proof.
  assert (H1 : now (request 3 9) < now (request 3 10)) by (vm_compute; reflexivity).
  assert (H2 : start_of_day (now (request 3 10)) = start_of_day (now (request 3 9)))
    by (vm_compute; reflexivity).
  split; [exact H1|]. split; [exact H2|].
  refine (reset_daily_chats_twice (request 3 9) (request 3 10)
            (shop_with_bundle 5 3) _ H1 H2).
  intros k b H. unfold shop_with_bundle in H; simpl in H.
  apply lookup_singleton_Some in H as [_ <-]. vm_compute. discriminate.
Defined.

(** The first of the two runs did reset the bundle and log it. *)
Lemma reset_daily_chats_first_run :
  UserBundle.daily_chats_used
    <$> (user_bundles (exec (reset_daily_chats (request 3 9))
                         (shop_with_bundle 5 3)) !! 50%positive)
  = Some 0
  /\ length (resource_transactions
              (exec (reset_daily_chats (request 3 9)) (shop_with_bundle 5 3)))
     = 1%nat.
Proof. split; vm_compute; reflexivity. Qed.

(** ** Consumption: what a call changes *)

Lemma with_user_bundles_id db : with_user_bundles (user_bundles db) db = db.
Proof. by destruct db. Qed.

Lemma get_active_bundle_usable env user db b :
  get_active_bundle env user db = Some b ->
  UserBundle.is_active b = true /\ UserBundle.is_expired b (now env) = false.
Proof.
  unfold get_active_bundle. intros H.
  repeat (case_match; simplify_eq/=).
  destruct (UserBundle.is_active b), (UserBundle.is_expired b (now env)); done.
Qed.

(** An exam taken from a bounded quota, as the model runs it. *)
Lemma consume_exam_decrements_run env user q desc db b :
  get_active_bundle env user db = Some b ->
  user_bundles db !! UserBundle.id b = Some b ->
  UserBundle.check_positive b = true ->
  BundleDefinition.exam_quota (UserBundle.bundle_definition b) <> 0 ->
  0 < UserBundle.exams_remaining b ->
  0 <= q <= UserBundle.exams_remaining b ->
  let b' := UserBundle.set_exams_remaining (UserBundle.exams_remaining b - q) b in
  consume_resource env user ResourceTransaction.EXAM q desc db
  = (Ok (true, Some b', MsgNone),
     with_resource_transactions
       (resource_transactions db
          ++ [consume_transaction env user ResourceTransaction.EXAM q desc
                (UserBundle.id b) b b'])
       (with_user_bundles (<[UserBundle.id b := b']> (user_bundles db)) db)).
Proof.
  intros Hb Hrow Hpos Hquota Hleft Hq b'.
  destruct (get_active_bundle_usable _ _ _ _ Hb) as [Hact Hexp].
  assert (Hu : consume_update ResourceTransaction.EXAM q b b = b').
  { unfold consume_update, BundleDefinition.is_unlimited_exams. simpl.
    assert ((BundleDefinition.exam_quota (UserBundle.bundle_definition b) =? 0)
            = false) as -> by lia.
    by destruct b. }
  unfold consume_resource, consume_admission, bind, gets. rewrite Hb. simpl.
  unfold UserBundle.can_use_exam, BundleDefinition.is_unlimited_exams.
  rewrite Hact, Hexp. simpl.
  assert ((BundleDefinition.exam_quota (UserBundle.bundle_definition b) =? 0)
          = false) as -> by lia.
  assert ((0 <? UserBundle.exams_remaining b) = true) as -> by lia.
  assert ((UserBundle.exams_remaining b <? q) = false) as -> by lia.
  simpl. rewrite consume_commit_run, Hrow, Hu.
  assert (UserBundle.check_positive b' = true) as ->.
  { unfold UserBundle.check_positive in *. simpl. lia. }
  unfold committed. rewrite Hu. reflexivity.
Qed.

(** X2.  An exam taken from a bounded quota: with [q] between 0 and what
    is left, the call succeeds, the stored counter goes down by exactly [q],
    no other column, no other row and no other table changes, and one
    [CONSUME] row with the counters before and after is appended to the
    ledger. *)
Theorem consume_exam_decrements env user q desc db b :
  get_active_bundle env user db = Some b ->
  user_bundles db !! UserBundle.id b = Some b ->
  UserBundle.check_positive b = true ->
  BundleDefinition.exam_quota (UserBundle.bundle_definition b) <> 0 ->
  0 < UserBundle.exams_remaining b ->
  0 <= q <= UserBundle.exams_remaining b ->
  let b' := UserBundle.set_exams_remaining (UserBundle.exams_remaining b - q) b in
  let db' := exec (consume_resource env user ResourceTransaction.EXAM q desc) db in
  eval (consume_resource env user ResourceTransaction.EXAM q desc) db
  = Ok (true, Some b', MsgNone)
  /\ user_bundles db' = <[UserBundle.id b := b']> (user_bundles db)
  /\ (exists t,
        resource_transactions db' = resource_transactions db ++ [t]
        /\ transaction_columns t
           = transaction_columns
               (consume_transaction env user ResourceTransaction.EXAM q desc
                  (UserBundle.id b) b b'))
  /\ other_tables db' = other_tables db.
Proof.
  intros Hb Hrow Hpos Hquota Hleft Hq b' db'. subst db'. unfold eval, exec.
  rewrite (consume_exam_decrements_run env user q desc db b) by done.
  simpl. repeat split. eexists. split; reflexivity.
Qed.

Lemma consume_exam_decrements_witness :
  eval (consume_resource (request 1 9) alice ResourceTransaction.EXAM 2 "start")
    (shop_with_bundle 5 0)
  = Ok (true, Some (alice_bundle 3 0), MsgNone)
  /\ user_bundles
       (exec (consume_resource (request 1 9) alice ResourceTransaction.EXAM 2
                "start") (shop_with_bundle 5 0))
     = {[50%positive := alice_bundle 3 0]}.
Proof.
  destruct (consume_exam_decrements (request 1 9) alice 2 "start"
              (shop_with_bundle 5 0) (alice_bundle 5 0))
    as (Heval & Hrows & _);
    [ reflexivity | reflexivity | reflexivity | vm_compute; discriminate
    | vm_compute; reflexivity | split; vm_compute; discriminate | ].
  split; [exact Heval|]. rewrite Hrows. simpl. rewrite insert_singleton.
  reflexivity.
Defined.

(** X3.  An exam asked of a bounded quota that cannot cover it: the call
    is refused and writes nothing; it returns the bundle as it is, with
    "Exam quota exhausted or bundle expired" when nothing is left and
    "Insufficient exam attempts. Remaining: n" when [n], more than nothing,
    is left. *)
Theorem consume_exam_beyond_remaining env user q desc db b :
  get_active_bundle env user db = Some b ->
  BundleDefinition.exam_quota (UserBundle.bundle_definition b) <> 0 ->
  UserBundle.exams_remaining b <= 0 \/ UserBundle.exams_remaining b < q ->
  consume_resource env user ResourceTransaction.EXAM q desc db
  = (Ok (false, Some b,
         if UserBundle.exams_remaining b <=? 0 then ExamExhaustedOrExpired
         else InsufficientExam (UserBundle.exams_remaining b)),
     db).
Proof.
  intros Hb Hquota Hshort.
  destruct (get_active_bundle_usable _ _ _ _ Hb) as [Hact Hexp].
  unfold consume_resource, consume_admission, bind, gets. rewrite Hb. simpl.
  unfold UserBundle.can_use_exam, BundleDefinition.is_unlimited_exams.
  rewrite Hact, Hexp. simpl.
  assert ((BundleDefinition.exam_quota (UserBundle.bundle_definition b) =? 0)
          = false) as -> by lia.
  destruct (0 <? UserBundle.exams_remaining b) eqn:Hleft; simpl.
  - assert ((UserBundle.exams_remaining b <? q) = true) as -> by lia.
    assert ((UserBundle.exams_remaining b <=? 0) = false) as -> by lia.
    reflexivity.
  - assert ((UserBundle.exams_remaining b <=? 0) = true) as -> by lia.
    reflexivity.
Qed.

Lemma consume_exam_beyond_remaining_witness :
  consume_resource (request 1 9) alice ResourceTransaction.EXAM 6 "start"
    (shop_with_bundle 5 0)
  = (Ok (false, Some (alice_bundle 5 0), InsufficientExam 5),
     shop_with_bundle 5 0).
Proof.
  apply (consume_exam_beyond_remaining (request 1 9) alice 6 "start"
           (shop_with_bundle 5 0) (alice_bundle 5 0));
    [ reflexivity | vm_compute; discriminate | right; vm_compute; reflexivity ].
Defined.

(** An exam taken from an unlimited quota, as the model runs it. *)
Lemma consume_exam_unlimited_run env user q desc db b :
  get_active_bundle env user db = Some b ->
  user_bundles db !! UserBundle.id b = Some b ->
  UserBundle.check_positive b = true ->
  BundleDefinition.exam_quota (UserBundle.bundle_definition b) = 0 ->
  consume_resource env user ResourceTransaction.EXAM q desc db
  = (Ok (true, Some b, MsgNone),
     with_resource_transactions
       (resource_transactions db
          ++ [consume_transaction env user ResourceTransaction.EXAM q desc
                (UserBundle.id b) b b])
       db).
Proof.
  intros Hb Hrow Hpos Hquota.
  destruct (get_active_bundle_usable _ _ _ _ Hb) as [Hact Hexp].
  assert (Hu : consume_update ResourceTransaction.EXAM q b b = b).
  { unfold consume_update, BundleDefinition.is_unlimited_exams. simpl.
    rewrite Hquota. by destruct b. }
  unfold consume_resource, consume_admission, bind, gets. rewrite Hb. simpl.
  unfold UserBundle.can_use_exam, BundleDefinition.is_unlimited_exams.
  rewrite Hact, Hexp, Hquota. simpl.
  rewrite consume_commit_run, Hrow, Hu, Hpos.
  unfold committed. rewrite Hu, insert_id by done.
  by rewrite with_user_bundles_id.
Qed.

(** X4.  An exam taken from an unlimited quota (a quota of 0): the call
    succeeds for every quantity the database takes, no bundle and no other
    table changes, and the ledger still gets its [CONSUME] row. *)
Theorem consume_exam_unlimited env user q desc db b :
  get_active_bundle env user db = Some b ->
  user_bundles db !! UserBundle.id b = Some b ->
  UserBundle.check_positive b = true ->
  BundleDefinition.exam_quota (UserBundle.bundle_definition b) = 0 ->
  fits_int64 q ->
  let db' := exec (consume_resource env user ResourceTransaction.EXAM q desc) db in
  eval (consume_resource env user ResourceTransaction.EXAM q desc) db
  = Ok (true, Some b, MsgNone)
  /\ user_bundles db' = user_bundles db
  /\ (exists t,
        resource_transactions db' = resource_transactions db ++ [t]
        /\ transaction_columns t
           = transaction_columns
               (consume_transaction env user ResourceTransaction.EXAM q desc
                  (UserBundle.id b) b b))
  /\ other_tables db' = other_tables db.
Proof.
  intros Hb Hrow Hpos Hquota _ db'. subst db'. unfold eval, exec.
  rewrite (consume_exam_unlimited_run env user q desc db b) by done.
  simpl. repeat split. eexists. split; reflexivity.
Qed.

Lemma consume_exam_unlimited_witness :
  eval (consume_resource (request 1 9) alice ResourceTransaction.EXAM 1000
          "start") shop_with_premium
  = Ok (true, Some alice_premium, MsgNone)
  /\ user_bundles
       (exec (consume_resource (request 1 9) alice ResourceTransaction.EXAM
                1000 "start") shop_with_premium)
     = user_bundles shop_with_premium.
Proof.
  destruct (consume_exam_unlimited (request 1 9) alice 1000 "start"
              shop_with_premium alice_premium)
    as (Heval & Hrows & _);
    [ reflexivity | reflexivity | reflexivity | reflexivity
    | split; vm_compute; reflexivity | ].
  split; [exact Heval|exact Hrows].
Defined.



(** ** The access check and the admission of a consumption *)

(** What [can_use_chat] answers, on the object it returns. *)
Lemma can_use_chat_eval env b db can b' :
  eval (can_use_chat env b) db = Ok (can, b') ->
  UserBundle.bundle_definition b' = UserBundle.bundle_definition b
  /\ UserBundle.expiry_date b' = UserBundle.expiry_date b
  /\ (can = true ->
      BundleDefinition.is_unlimited_chats (UserBundle.bundle_definition b) = true
      \/ 0 < UserBundle.chats_remaining b').
Proof.
  unfold eval, can_use_chat, _reset_daily_chat_if_needed, update_user_bundle,
    bind, ret.
  intros H. repeat (case_match; simplify_eq/=); repeat split; auto; try done;
    intros; try (right; lia); try (by left).
Qed.

(** X6.  [check_resource_access] is the admission check of a consumption of
    one unit: the two make the same write; a consumption that is admitted,
    for any quantity, would have passed the access check; and for a
    quantity of at most one the two answers agree. *)
Theorem check_resource_access_is_admission env user rt q db :
  exec (consume_admission env user rt q) db
  = exec (check_resource_access env user rt) db
  /\ (admitted (eval (consume_admission env user rt q) db) = true ->
      granted (eval (check_resource_access env user rt) db) = true)
  /\ (q <= 1 ->
      admitted (eval (consume_admission env user rt q) db)
      = granted (eval (check_resource_access env user rt) db)).
Proof.
  unfold exec, eval, consume_admission, check_resource_access, bind, gets.
  destruct (get_active_bundle env user db) as [b|] eqn:Hb; simpl; [|done].
  destruct (String.eqb rt ResourceTransaction.EXAM).
  { unfold UserBundle.can_use_exam, BundleDefinition.is_unlimited_exams.
    repeat (case_match; simplify_eq/=); repeat split; auto; try done; lia. }
  destruct (String.eqb rt ResourceTransaction.CHAT).
  { pose proof (can_use_chat_eval env b db) as Hc. unfold eval in Hc.
    destruct (can_use_chat env b db) as [[[can b']|e] db']; simpl in *; [|done].
    destruct (Hc can b' eq_refl) as (Hd & _ & Hcan).
    unfold BundleDefinition.is_unlimited_chats in *.
    destruct can; simpl; [|done].
    destruct Hcan as [Hu|Hleft]; [done|rewrite Hu; done|].
    repeat (case_match; simplify_eq/=); repeat split; auto; try done; lia. }
  destruct (String.eqb rt ResourceTransaction.SEARCH).
  { unfold UserBundle.can_use_search, BundleDefinition.is_unlimited_search.
    repeat (case_match; simplify_eq/=); repeat split; auto; try done; lia. }
  repeat (case_match; simplify_eq/=); repeat split; auto; done.
Qed.

(** ** Chats and the daily window *)





(** X8.  With the daily limit reached and less than a day gone since the
    window was last restarted, a chat is refused, whatever is left of the
    total quota, and nothing is written. *)
Theorem consume_chat_daily_limit env user q desc db b :
  get_active_bundle env user db = Some b ->
  let d := UserBundle.bundle_definition b in
  0 < BundleDefinition.daily_chat_limit d ->
  BundleDefinition.daily_chat_limit d <= UserBundle.daily_chats_used b ->
  days (now env - UserBundle.last_chat_reset b) < 1 ->
  consume_resource env user ResourceTransaction.CHAT q desc db
  = (Ok (false, Some b, ChatExhaustedOrDailyLimit), db).
Proof.
  intros Hb d Hlimit Hused Hday.
  destruct (get_active_bundle_usable _ _ _ _ Hb) as [Hact Hexp].
  unfold consume_resource, consume_admission, bind, gets. rewrite Hb. simpl.
  unfold can_use_chat, _reset_daily_chat_if_needed, bind, ret.
  rewrite Hact, Hexp. simpl. fold d.
  assert ((0 <? BundleDefinition.daily_chat_limit d) = true) as -> by lia.
  assert ((1 <=? days (now env - UserBundle.last_chat_reset b)) = false) as ->
    by lia.
  assert ((BundleDefinition.daily_chat_limit d <=? UserBundle.daily_chats_used b)
          = true) as -> by lia.
  reflexivity.
Qed.

Lemma consume_chat_daily_limit_witness :
  consume_resource (request 1 20) alice ResourceTransaction.CHAT 1 "hello"
    (shop_with_bundle 5 10)
  = (Ok (false, Some (alice_bundle 5 10), ChatExhaustedOrDailyLimit),
     shop_with_bundle 5 10).
Proof.
  apply (consume_chat_daily_limit (request 1 20) alice 1 "hello"
           (shop_with_bundle 5 10) (alice_bundle 5 10));
    [ reflexivity | vm_compute; reflexivity | vm_compute; discriminate
    | vm_compute; reflexivity ].
Defined.

(** ** Completing an order *)

Lemma existsb_none {A} (f : A -> bool) l :
  (forall x, In x l -> f x = false) -> existsb f l = false.
Proof.
  intros H. apply not_true_is_false. intros Hex.
  apply existsb_exists in Hex as (x & Hx & Hf). rewrite (H x Hx) in Hf. done.
Qed.

Lemma purchase_free_rows o pk db :
  purchase_free o pk db ->
  forall q, In q (map snd (map_to_list (bundle_purchases db))) ->
    BundlePurchase.order q <> Some o /\ BundlePurchase.user_bundle q <> Some pk.
Proof.
  intros Hfree q Hq. apply in_map_iff in Hq as ([k q'] & <- & Hq).
  apply list_elem_of_In, elem_of_map_to_list in Hq. by apply (Hfree k).
Qed.

(** The two uniqueness checks of [insert_purchase] pass. *)
Ltac purchase_is_free Hrows :=
  repeat match goal with
         | |- context [existsb ?f ?l] =>
             rewrite (existsb_none f l)
               by (let q := fresh "q" in
                   let Hq := fresh "Hq" in
                   intros q Hq; destruct (Hrows q Hq); simpl;
                   first [ by apply bool_decide_eq_false
                         | apply andb_false_iff; right;
                           by apply bool_decide_eq_false ])
         end.

(** What [complete_order] does when it goes through. *)
Lemma complete_order_run env o db order profile verified :
  bundle_orders db !! o = Some order ->
  BundleOrder.status order = BundleOrder.PAYMENT_VERIFIED ->
  BundleOrder.verified_amount order = Some verified ->
  profiles db !! BundleOrder.user order = Some profile ->
  user_bundles db !! uuid_seed db = None ->
  bundle_purchases db !! Pos.succ (uuid_seed db) = None ->
  purchase_free (BundleOrder.id order) (uuid_seed db) db ->
  let d := BundleOrder.bundle_definition order in
  let pk := uuid_seed db in
  let bundle :=
    created_bundle env (BundleOrder.user order) d
      (now env + timedelta_days (BundleDefinition.validity_days d)) pk in
  let db' := exec (complete_order env o) db in
  eval (complete_order env o) db
  = Ok (mkCompletion bundle (UserBundle.get_remaining_resources bundle (now env)))
  /\ user_bundles db' = <[pk := bundle]> (user_bundles db)
  /\ profiles db'
     = <[BundleOrder.user order := UserProfile.mk (Some pk)]> (profiles db)
  /\ bundle_orders db'
     = <[BundleOrder.id order :=
           BundleOrder.set_status BundleOrder.COMPLETED
             (BundleOrder.set_resulting_bundle (Some pk) order)]>
         (bundle_orders db)
  /\ (exists p,
        bundle_purchases db' = <[Pos.succ pk := p]> (bundle_purchases db)
        /\ BundlePurchase.order p = Some (BundleOrder.id order)
        /\ BundlePurchase.user_bundle p = Some pk
        /\ BundlePurchase.amount_paid p = Some verified
        /\ BundlePurchase.payment_status p = BundlePurchase.COMPLETED)
  /\ (exists t,
        resource_transactions db' = resource_transactions db ++ [t]
        /\ ResourceTransaction.transaction_type t = ResourceTransaction.PURCHASE
        /\ ResourceTransaction.user_bundle t = Some pk
        /\ ResourceTransaction.user t = BundleOrder.user order)
  /\ order_suggestions db' = order_suggestions db
  /\ bundle_definitions db' = bundle_definitions db
  /\ payment_methods db' = payment_methods db.
Proof.
  intros Ho Hstatus Hver Hprofile Hfresh Hfresh' Hfree d pk bundle db'.
  pose proof (purchase_free_rows _ _ _ Hfree) as Hrows.
  subst db'. unfold exec, eval, complete_order, bind, atomic, get_order.
  rewrite Ho, Hstatus. simpl.
  rewrite UserBundle_objects_create_run. simpl. rewrite Hfresh. simpl.
  unfold save_order, get_profile, activate_bundle, uuid4, insert_purchase,
    create_transaction, modify, bind, ret. simpl.
  rewrite Hprofile. simpl. rewrite Hfresh', Hver. simpl.
  purchase_is_free Hrows.
  simpl. repeat split; try done.
  - eexists. split; [reflexivity|]. done.
  - eexists. split; [reflexivity|]. done.
Qed.

(** X9.  [complete_order] on a verified order of a user with a profile,
    when the keys it draws are free and the expiry date is one Python can
    compute: the order ends [COMPLETED] with the new
    bundle as its result, that bundle (of the order's definition, valid for
    its [validity_days] from now) is the user's active bundle, one completed
    purchase stands for the order, the ledger has one more row, a
    [PURCHASE], and no other bundle is touched. *)
Theorem complete_order_effect env o db order profile verified :
  bundle_orders db !! o = Some order ->
  BundleOrder.status order = BundleOrder.PAYMENT_VERIFIED ->
  BundleOrder.verified_amount order = Some verified ->
  profiles db !! BundleOrder.user order = Some profile ->
  user_bundles db !! uuid_seed db = None ->
  bundle_purchases db !! Pos.succ (uuid_seed db) = None ->
  purchase_free (BundleOrder.id order) (uuid_seed db) db ->
  expiry_in_range env
    (BundleDefinition.validity_days (BundleOrder.bundle_definition order)) ->
  let d := BundleOrder.bundle_definition order in
  let pk := uuid_seed db in
  let db' := exec (complete_order env o) db in
  exists bundle,
    eval (complete_order env o) db
    = Ok (mkCompletion bundle
            (UserBundle.get_remaining_resources bundle (now env)))
    /\ identity bundle
       = (pk, BundleOrder.user order, d, now env,
          now env + timedelta_days (BundleDefinition.validity_days d))
    /\ get_active_bundle env (BundleOrder.user order) db' = Some bundle
    /\ status_of (BundleOrder.id order) db' = Some BundleOrder.COMPLETED
    /\ BundleOrder.resulting_bundle <$> (bundle_orders db' !! BundleOrder.id order)
       = Some (Some pk)
    /\ (exists p,
          bundle_purchases db' !! Pos.succ pk = Some p
          /\ BundlePurchase.order p = Some (BundleOrder.id order)
          /\ BundlePurchase.user_bundle p = Some pk
          /\ BundlePurchase.amount_paid p = Some verified
          /\ BundlePurchase.payment_status p = BundlePurchase.COMPLETED)
    /\ (exists t,
          resource_transactions db' = resource_transactions db ++ [t]
          /\ ResourceTransaction.transaction_type t = ResourceTransaction.PURCHASE
          /\ ResourceTransaction.user_bundle t = Some pk)
    /\ forall k, k <> pk -> user_bundles db' !! k = user_bundles db !! k.
Proof.
  intros Ho Hstatus Hver Hprofile Hfresh Hfresh' Hfree (_ & Hvalid & _) d pk db'.
  destruct (complete_order_run env o db order profile verified)
    as (Heval & Hbundles & Hprofiles & Horders & (p & Hpurchases & Hp)
        & (t & Hledger & Htype & Hbundle & _) & _); try done.
  subst d pk db'.
  eexists. split; [exact Heval|]. split; [reflexivity|].
  split; [|split; [|split; [|split; [|split]]]].
  - unfold get_active_bundle. rewrite Hprofiles, lookup_insert_eq. simpl.
    rewrite Hbundles, lookup_insert_eq. simpl.
    unfold UserBundle.is_expired, timedelta_days, usec_per_day. simpl.
    assert ((now env + BundleDefinition.validity_days
                         (BundleOrder.bundle_definition order)
                       * (86400 * 1000000) <? now env) = false) as -> by lia.
    reflexivity.
  - unfold status_of. by rewrite Horders, lookup_insert_eq.
  - by rewrite Horders, lookup_insert_eq.
  - exists p. split; [|exact Hp]. by rewrite Hpurchases, lookup_insert_eq.
  - by exists t.
  - intros k Hk. by rewrite Hbundles, lookup_insert_ne.
Qed.

Lemma complete_order_effect_witness :
  exists bundle,
    get_active_bundle (request 1 9) alice
      (exec (complete_order (request 1 9) 100) shop_with_verified_order)
    = Some bundle
    /\ status_of 100
         (exec (complete_order (request 1 9) 100) shop_with_verified_order)
       = Some BundleOrder.COMPLETED.
Proof.
  destruct (complete_order_effect (request 1 9) 100 shop_with_verified_order
              verified_basic_order (UserProfile.mk None) 50000)
    as (bundle & _ & _ & Hactive & Hstatus & _);
    [ reflexivity | reflexivity | reflexivity | reflexivity | reflexivity
    | reflexivity
    | intros k p H; unfold shop_with_verified_order, shop in H; simpl in H;
      by rewrite lookup_empty in H
    | repeat split; vm_compute; discriminate
    | ].
  exists bundle. split; [exact Hactive|exact Hstatus].
Defined.

(** ** Verifying a payment *)

(** X10.  [verify_payment] only works on pending orders: for an order that
    is missing or in any other state it answers that no pending order was
    found, and it writes nothing; the verifier is not consulted. *)
Theorem verify_payment_not_pending v env o ref db :
  status_of o db <> Some BundleOrder.PENDING ->
  verify_payment v env o ref db = (Ok VNotFound, db).
Proof.
  unfold status_of, verify_payment, try_except, bind, get_order.
  destruct (bundle_orders db !! o) as [order|]; simpl; [|done].
  intros H. rewrite bool_decide_eq_false_2; [done|].
  intros Hin. apply list_elem_of_singleton in Hin. apply H. by f_equal.
Qed.

Lemma verify_payment_not_pending_witness :
  verify_payment mock_verify (request 1 10) 100 "TEST-0001"
    shop_with_verified_order
  = (Ok VNotFound, shop_with_verified_order).
Proof.
  apply (verify_payment_not_pending mock_verify (request 1 10) 100 "TEST-0001"
           shop_with_verified_order).
  vm_compute. discriminate.
Defined.

(** X11.  A pending order past its deadline: [verify_payment] marks it
    [EXPIRED] and answers so, whatever the reference; the verifier is not
    consulted and nothing else is written. *)
Theorem verify_payment_expired_order v env o ref db order :
  bundle_orders db !! o = Some order ->
  BundleOrder.status order = BundleOrder.PENDING ->
  BundleOrder.expires_at order < now env ->
  verify_payment v env o ref db
  = (Ok VExpired,
     with_bundle_orders
       (<[BundleOrder.id order := BundleOrder.set_status BundleOrder.EXPIRED order]>
          (bundle_orders db)) db).
Proof.
  intros Ho Hstatus Hlate.
  unfold verify_payment, try_except, bind, get_order, save_order, modify, ret.
  rewrite Ho, Hstatus. simpl. unfold BundleOrder.is_expired.
  assert ((BundleOrder.expires_at order <? now env) = true) as -> by lia.
  reflexivity.
Qed.

Lemma verify_payment_expired_order_witness :
  verify_payment mock_verify (request 3 9) 100 "TEST-0001" shop_with_basic_order
  = (Ok VExpired,
     with_bundle_orders
       {[100%positive := BundleOrder.set_status BundleOrder.EXPIRED basic_order]}
       shop_with_basic_order).
Proof.
  rewrite (verify_payment_expired_order mock_verify (request 3 9) 100
             "TEST-0001" shop_with_basic_order basic_order);
    [ | reflexivity | reflexivity | vm_compute; reflexivity ].
  simpl. by rewrite insert_singleton.
Defined.

(** A payment the verifier does not confirm leaves the database as it
    is: the order stays [PENDING] and can be verified again. *)
Theorem verify_payment_unconfirmed v env o ref db order method :
  bundle_orders db !! o = Some order ->
  BundleOrder.status order = BundleOrder.PENDING ->
  now env <= BundleOrder.expires_at order ->
  BundleOrder.payment_method order = Some method ->
  success (v (PaymentMethod.code method) ref) = false ->
  verify_payment v env o ref db
  = (Ok (VVerificationFailed (error (v (PaymentMethod.code method) ref))), db).
Proof.
  intros Ho Hstatus Hdue Hmethod Hfail.
  unfold verify_payment, try_except, bind, get_order, ret.
  rewrite Ho, Hstatus. simpl. unfold BundleOrder.is_expired.
  assert ((BundleOrder.expires_at order <? now env) = false) as -> by lia.
  rewrite Hmethod, Hfail. reflexivity.
Qed.

Lemma verify_payment_unconfirmed_witness :
  verify_payment mock_verify (request 1 9) 100 "0001" shop_with_basic_order
  = (Ok (VVerificationFailed (Some "Mock payment not found"%string)),
     shop_with_basic_order).
Proof.
  apply (verify_payment_unconfirmed mock_verify (request 1 9) 100 "0001"
           shop_with_basic_order basic_order telebirr);
    [ reflexivity | reflexivity | vm_compute; discriminate | reflexivity
    | reflexivity ].
Defined.

(** X12.  A confirmed payment that covers the order, of an amount the
    column takes, for a definition whose expiry date Python can compute:
    [verify_payment] records the
    verification, completes the order and activates the new
    bundle in the same call.  The order ends [COMPLETED] in the database
    (the order object handed back still says [PAYMENT_VERIFIED]), the bundle
    is the user's active bundle, and the ledger has grown by one row. *)
Theorem verify_payment_completes v env o ref db order method verified profile :
  bundle_orders db !! o = Some order ->
  BundleOrder.status order = BundleOrder.PENDING ->
  now env <= BundleOrder.expires_at order ->
  BundleOrder.payment_method order = Some method ->
  let result := v (PaymentMethod.code method) ref in
  success result = true ->
  amount result = Some verified ->
  fits_decimal verified ->
  BundleOrder.order_amount order <= verified ->
  profiles db !! BundleOrder.user order = Some profile ->
  user_bundles db !! uuid_seed db = None ->
  bundle_purchases db !! Pos.succ (uuid_seed db) = None ->
  purchase_free (BundleOrder.id order) (uuid_seed db) db ->
  expiry_in_range env
    (BundleDefinition.validity_days (BundleOrder.bundle_definition order)) ->
  let d := BundleOrder.bundle_definition order in
  let pk := uuid_seed db in
  let paid :=
    BundleOrder.set_status BundleOrder.PAYMENT_VERIFIED
      (verified_order env ref result verified order) in
  let bundle :=
    created_bundle env (BundleOrder.user order) d
      (now env + timedelta_days (BundleDefinition.validity_days d)) pk in
  let db' := exec (verify_payment v env o ref) db in
  eval (verify_payment v env o ref) db
  = Ok (VCompleted paid
          (mkCompletion bundle
             (UserBundle.get_remaining_resources bundle (now env))))
  /\ bundle_orders db' !! BundleOrder.id order
     = Some (BundleOrder.set_status BundleOrder.COMPLETED
               (BundleOrder.set_resulting_bundle (Some pk) paid))
  /\ get_active_bundle env (BundleOrder.user order) db' = Some bundle
  /\ length (resource_transactions db')
     = S (length (resource_transactions db)).
Proof.
  intros Ho Hstatus Hdue Hmethod result Hsuccess Hamount _ Hcovers Hprofile
    Hfresh Hfresh' Hfree (_ & Hvalid & _) d pk paid bundle db'.
  set (db1 := with_bundle_orders
                (<[BundleOrder.id order := paid]> (bundle_orders db)) db).
  destruct (complete_order_run env (BundleOrder.id order) db1 paid profile
              verified)
    as (Heval & Hbundles & Hprofiles & Horders & _ & (t & Hledger & _) & _);
    try done.
  { simpl. by rewrite lookup_insert_eq. }
  assert (Hrun : verify_payment v env o ref db
                 = (match complete_order env (BundleOrder.id order) db1 with
                    | (Ok c, db2) => (Ok (VCompleted paid c), db2)
                    | (Raise e, db2) =>
                        (match e with
                         | DoesNotExist MBundleOrder => Ok VNotFound
                         | _ => Ok (VError e)
                         end, db2)
                    end)).
  { clear Heval Hbundles Hprofiles Horders Hledger.
    subst db1 paid result. unfold verified_order.
    unfold verify_payment, try_except, bind, get_order, save_order, modify, ret.
    rewrite Ho, Hstatus. simpl. unfold BundleOrder.is_expired.
    assert ((BundleOrder.expires_at order <? now env) = false) as -> by lia.
    rewrite Hmethod, Hsuccess, Hamount. simpl.
    assert ((BundleOrder.order_amount order <=? verified) = true) as -> by lia.
    simpl.
    match goal with
    | |- context [complete_order ?e ?i ?s] =>
        destruct (complete_order e i s) as [[c|e'] db2]
    end; [done|]. by destruct e' as [[]| | | | | |]. }
  subst db'. unfold exec, eval in *. rewrite Hrun.
  destruct (complete_order env (BundleOrder.id order) db1) as [[c|e] db2];
    simpl in *; [|done].
  injection Heval as ->. repeat split.
  - rewrite Horders. by rewrite lookup_insert_eq.
  - unfold get_active_bundle. rewrite Hprofiles, lookup_insert_eq. simpl.
    rewrite Hbundles, lookup_insert_eq. simpl.
    unfold UserBundle.is_expired, timedelta_days, usec_per_day. simpl.
    assert ((now env + BundleDefinition.validity_days
                         (BundleOrder.bundle_definition order)
                       * (86400 * 1000000) <? now env) = false) as -> by lia.
    reflexivity.
  - rewrite Hledger, length_app. simpl. lia.
Qed.

Lemma verify_payment_completes_witness :
  get_active_bundle (request 1 9) alice
    (exec (verify_payment mock_verify (request 1 9) 100 "TEST-0001")
       shop_with_basic_order)
  = Some (created_bundle (request 1 9) alice basic
            (at_ 1 9 + timedelta_days 30) 101)
  /\ status_of 100
       (exec (verify_payment mock_verify (request 1 9) 100 "TEST-0001")
          shop_with_basic_order)
     = Some BundleOrder.COMPLETED.
Proof.
  destruct (verify_payment_completes mock_verify (request 1 9) 100 "TEST-0001"
              shop_with_basic_order basic_order telebirr 50000
              (UserProfile.mk None))
    as (_ & Horder & Hactive & _);
    [ reflexivity | reflexivity | vm_compute; discriminate | reflexivity
    | reflexivity | reflexivity | split; vm_compute; reflexivity
    | vm_compute; discriminate | reflexivity
    | reflexivity | reflexivity
    | intros k p H; unfold shop_with_basic_order, shop in H; simpl in H;
      by rewrite lookup_empty in H
    | repeat split; vm_compute; discriminate | ].
  split; [exact Hactive|].
  unfold status_of. simpl in Horder. by rewrite Horder.
Defined.



(** ** Accepting a suggestion *)

Lemma get_bundle_definition_found active_only k db d :
  eval (get_bundle_definition active_only k) db = Ok d ->
  get_bundle_definition active_only k db = (Ok d, db)
  /\ In d (bundle_definitions db)
  /\ BundleDefinition.id d = k
  /\ (active_only = true -> BundleDefinition.is_active d = true).
Proof.
  unfold eval, get_bundle_definition.
  destruct (find _ _) as [d'|] eqn:Hfind; simpl; [|done].
  intros [= ->]. apply find_some in Hfind as [Hin Hd].
  apply andb_true_iff in Hd as [Hk Hactive]. apply Pos.eqb_eq in Hk.
  repeat split; try done. intros ->. by simpl in Hactive.
Qed.

Lemma find_absent {A} (f : A -> bool) l :
  (forall x, In x l -> f x = false) -> List.find f l = None.
Proof.
  induction l as [|x l IH]; simpl; [done|]. intros H.
  rewrite (H x) by (by left). apply IH. intros y Hy. apply H. by right.
Qed.

(** X14.  [accept_suggestion] takes only what was offered: without a stored
    suggestion of that definition for that order (or without the order or
    the definition) it answers "invalid suggestion or order" and writes
    nothing. *)
Theorem accept_suggestion_not_offered env o k db :
  (forall order s,
     bundle_orders db !! o = Some order -> In s (order_suggestions db) ->
     same_suggestion (BundleOrder.id order) k s = false) ->
  accept_suggestion env o k db = (Ok InvalidSuggestionOrOrder, db).
Proof.
  intros Hnone.
  unfold accept_suggestion, try_except, bind, get_order, get_suggestion.
  destruct (bundle_orders db !! o) as [order|] eqn:Ho; simpl; [|done].
  pose proof (get_bundle_definition_found false k db) as Hd. unfold eval in Hd.
  destruct (get_bundle_definition false k db) as [[d|e] db0] eqn:Hget; simpl.
  - destruct (Hd d eq_refl) as ([= <-] & _ & Hk & _). rewrite Hk.
    rewrite find_absent; [done|].
    intros s Hs. by apply (Hnone order).
  - unfold get_bundle_definition in Hget.
    destruct (find _ _); simplify_eq/=. done.
Qed.

Lemma accept_suggestion_not_offered_witness :
  accept_suggestion (request 1 10) 100 2 shop_after_short_payment
  = (Ok InvalidSuggestionOrOrder, shop_after_short_payment).
Proof.
  apply (accept_suggestion_not_offered (request 1 10) 100 2
           shop_after_short_payment).
  intros order s Ho Hs.
  assert (Hall : forallb (fun s => negb (same_suggestion 100 2 s))
                   (order_suggestions shop_after_short_payment) = true)
    by (vm_compute; reflexivity).
  rewrite forallb_forall in Hall. specialize (Hall s Hs).
  vm_compute in Ho. injection Ho as <-. simpl.
  by apply negb_true_iff in Hall.
Defined.

(** X15.  [accept_suggestion] on an offered definition, when the completion
    can go through (keys free, profile present, an expiry date Python can
    compute): the order is re-pointed at the suggested definition,
    its amount becomes the price of that definition, and it is completed
    with a bundle of that definition, whatever the state of the order was
    and whatever amount had been verified for it. *)
Theorem accept_suggestion_completes env o k db order d verified profile :
  bundle_orders db !! o = Some order ->
  eval (get_bundle_definition false k) db = Ok d ->
  existsb (same_suggestion (BundleOrder.id order) k) (order_suggestions db)
  = true ->
  BundleOrder.verified_amount order = Some verified ->
  profiles db !! BundleOrder.user order = Some profile ->
  user_bundles db !! uuid_seed db = None ->
  bundle_purchases db !! Pos.succ (uuid_seed db) = None ->
  purchase_free (BundleOrder.id order) (uuid_seed db) db ->
  expiry_in_range env (BundleDefinition.validity_days d) ->
  let pk := uuid_seed db in
  let bundle :=
    created_bundle env (BundleOrder.user order) d
      (now env + timedelta_days (BundleDefinition.validity_days d)) pk in
  let db' := exec (accept_suggestion env o k) db in
  eval (accept_suggestion env o k) db
  = Ok (Accepted (mkCompletion bundle
                    (UserBundle.get_remaining_resources bundle (now env))))
  /\ bundle_orders db' !! BundleOrder.id order
     = Some (BundleOrder.set_status BundleOrder.COMPLETED
               (BundleOrder.set_resulting_bundle (Some pk)
                  (BundleOrder.set_bundle d (BundleDefinition.price_etb d)
                     order)))
  /\ profiles db' !! BundleOrder.user order = Some (UserProfile.mk (Some pk))
  /\ user_bundles db' !! pk = Some bundle.
Proof.
  intros Ho Hd Hoffer Hver Hprofile Hfresh Hfresh' Hfree _ pk bundle db'.
  destruct (get_bundle_definition_found _ _ _ _ Hd) as (Hget & _ & Hk & _).
  set (offered := BundleOrder.set_status BundleOrder.PAYMENT_VERIFIED
                    (BundleOrder.set_bundle d (BundleDefinition.price_etb d)
                       order)).
  set (db1 := with_bundle_orders
                (<[BundleOrder.id order := offered]> (bundle_orders db)) db).
  destruct (complete_order_run env (BundleOrder.id order) db1 offered profile
              verified)
    as (Heval & Hbundles & Hprofiles & Horders & _); try done.
  { simpl. by rewrite lookup_insert_eq. }
  assert (Hrun : accept_suggestion env o k db
                 = (match complete_order env (BundleOrder.id order) db1 with
                    | (Ok c, db2) => (Ok (Accepted c), db2)
                    | (Raise e, _) =>
                        (match e with
                         | DoesNotExist MBundleOrder
                         | DoesNotExist MBundleDefinition
                         | DoesNotExist MOrderBundleSuggestion =>
                             Ok InvalidSuggestionOrOrder
                         | _ => Ok (AcceptError e)
                         end, db)
                    end)).
  { clear Heval Hbundles Hprofiles Horders. subst db1 offered.
    unfold accept_suggestion, try_except, bind, get_order, get_suggestion,
      atomic, save_order, modify, ret.
    rewrite Ho. simpl. rewrite Hget. simpl. rewrite Hk.
    destruct (find _ _) as [s|] eqn:Hfind; simpl.
    2: { apply existsb_exists in Hoffer as (s & Hs & Hsame).
         by rewrite (find_none _ _ Hfind s Hs) in Hsame. }
    match goal with
    | |- context [complete_order ?e ?i ?s] =>
        destruct (complete_order e i s) as [[c|e'] db2]
    end; [done|]. by destruct e' as [[]| | | | | |]. }
  subst db'. unfold exec, eval in *. rewrite Hrun.
  destruct (complete_order env (BundleOrder.id order) db1) as [[c|e] db2];
    simpl in *; [|done].
  injection Heval as ->. repeat split.
  - rewrite Horders. by rewrite lookup_insert_eq.
  - rewrite Hprofiles. by rewrite lookup_insert_eq.
  - rewrite Hbundles. by rewrite lookup_insert_eq.
Qed.

Lemma accept_suggestion_completes_witness :
  status_of 100
    (exec (accept_suggestion (request 1 10) 100 1) shop_after_short_payment)
  = Some BundleOrder.COMPLETED
  /\ user_bundles
       (exec (accept_suggestion (request 1 10) 100 1) shop_after_short_payment)
     !! 101%positive
     = Some (created_bundle (request 1 10) alice basic
               (at_ 1 10 + timedelta_days 30) 101).
Proof.
  destruct (accept_suggestion_completes (request 1 10) 100 1
              shop_after_short_payment short_paid_order basic 50000
              (UserProfile.mk None))
    as (_ & Horder & _ & Hbundle);
    [ vm_compute; reflexivity | vm_compute; reflexivity | vm_compute; reflexivity
    | reflexivity | vm_compute; reflexivity | vm_compute; reflexivity
    | vm_compute; reflexivity
    | intros k p H; vm_compute in H; discriminate
    | repeat split; vm_compute; discriminate | ].
  split; [|exact Hbundle].
  unfold status_of. simpl in Horder. by rewrite Horder.
Defined.

(** ** Placing and cancelling an order *)

(** X16.  [create_order] for an active definition and an active payment
    method, when the key it draws is free: it returns the order, and stores
    it under that key, [PENDING], for the price the definition has at that
    moment, with a deadline 24 hours ahead and nothing verified yet; no
    other table is written.  (Of the stored row every column is stated but
    [ip_address], which the database may hold in another spelling than the
    text the request gave.) *)
Theorem create_order_places env user k m db d method :
  eval (get_bundle_definition true k) db = Ok d ->
  eval (get_payment_method m) db = Ok method ->
  bundle_orders db !! uuid_seed db = None ->
  let order :=
    BundleOrder.mk (uuid_seed db) user d (BundleDefinition.price_etb d)
      BundleOrder.PENDING (Some method) EmptyString None None None
      (client_ip env) (client_user_agent env)
      (now env + timedelta_hours 24) (now env) in
  let db' := exec (create_order env user k m) db in
  eval (create_order env user k m) db = Ok (true, Some order, MsgNone)
  /\ (exists stored,
        bundle_orders db' = <[uuid_seed db := stored]> (bundle_orders db)
        /\ order_columns stored = order_columns order)
  /\ (profiles db', user_bundles db', resource_transactions db',
      order_suggestions db', bundle_purchases db', bundle_definitions db',
      payment_methods db')
     = (profiles db, user_bundles db, resource_transactions db,
        order_suggestions db, bundle_purchases db, bundle_definitions db,
        payment_methods db)
  /\ BundleDefinition.is_active d = true
  /\ BundleOrder.is_expired order (now env) = false.
Proof.
  intros Hd Hm Hfresh order db'.
  destruct (get_bundle_definition_found _ _ _ _ Hd) as (Hget & _ & _ & Hactive).
  assert (Hrun : create_order env user k m db
                 = (Ok (true, Some order, MsgNone),
                    with_bundle_orders
                      (<[uuid_seed db := order]> (bundle_orders db))
                      (with_uuid_seed (Pos.succ (uuid_seed db)) db))).
  { unfold create_order, try_except, bind, atomic, uuid4, insert_order, ret.
    rewrite Hget. simpl.
    unfold eval, get_payment_method in *.
    destruct (find _ _) as [p|]; simplify_eq/=. by rewrite Hfresh. }
  subst db'. unfold eval, exec. rewrite Hrun. simpl.
  split; [done|]. split; [by exists order|]. split; [done|].
  split; [by apply Hactive|].
  subst order. unfold BundleOrder.is_expired, timedelta_hours, usec_per_hour.
  simpl. lia.
Qed.

Lemma create_order_places_witness :
  eval (create_order (request 1 8) alice 1 1) shop
  = Ok (true, Some basic_order, MsgNone).
Proof.
  destruct (create_order_places (request 1 8) alice 1 1 shop basic telebirr)
    as (Hrun & _); [reflexivity|reflexivity|reflexivity|].
  exact Hrun.
Defined.

(** X17.  [create_order] refuses a definition that is missing or inactive
    with "Bundle definition not found or inactive", whatever the payment
    method; and, for an active definition, a payment method that is missing
    or inactive with "Payment method not found or inactive".  In both cases
    nothing is written and no key is drawn. *)
Theorem create_order_rejects env user k m db :
  ((forall d, In d (bundle_definitions db) -> BundleDefinition.id d = k ->
              BundleDefinition.is_active d = false) ->
   create_order env user k m db
   = (Ok (false, None, DefinitionNotFoundOrInactive), db))
  /\ (forall d,
        eval (get_bundle_definition true k) db = Ok d ->
        (forall p, In p (payment_methods db) -> PaymentMethod.id p = m ->
                   PaymentMethod.is_active p = false) ->
        create_order env user k m db
        = (Ok (false, None, PaymentMethodNotFoundOrInactive), db)).
Proof.
  split.
  - intros H.
    unfold create_order, try_except, bind, get_bundle_definition.
    rewrite find_absent; [done|].
    intros d Hd. apply andb_false_iff.
    destruct (Pos.eqb_spec (BundleDefinition.id d) k) as [Hk|]; [|by left].
    right. simpl. exact (H d Hd Hk).
  - intros d Hd H.
    destruct (get_bundle_definition_found _ _ _ _ Hd) as (Hget & _).
    unfold create_order, try_except, bind, get_payment_method.
    rewrite Hget. simpl.
    rewrite find_absent; [done|].
    intros p Hp. apply andb_false_iff.
    destruct (Pos.eqb_spec (PaymentMethod.id p) m) as [Hm|]; [|by left].
    right. exact (H p Hp Hm).
Qed.

Lemma create_order_rejects_witness :
  create_order (request 1 8) alice 9 1 shop
  = (Ok (false, None, DefinitionNotFoundOrInactive), shop)
  /\ create_order (request 1 8) alice 1 9 shop
     = (Ok (false, None, PaymentMethodNotFoundOrInactive), shop).
Proof.
  destruct (create_order_rejects (request 1 8) alice 9 1 shop) as [Hd _].
  destruct (create_order_rejects (request 1 8) alice 1 9 shop) as [_ Hm].
  split.
  - apply Hd. intros d [<-|[<-|[]]]; vm_compute; discriminate.
  - apply (Hm basic); [reflexivity|]. intros p [<-|[]]. vm_compute. discriminate.
Defined.

(** X18.  An order is cancelled at most once: whatever the first
    [cancel_order] did, a second one on the same order answers with a
    failure and writes nothing, and the order is then neither [PENDING] nor
    [INSUFFICIENT_FUNDS]. *)
Theorem cancel_order_twice o db :
  (forall order, bundle_orders db !! o = Some order -> BundleOrder.id order = o) ->
  let db' := exec (cancel_order o) db in
  cancel_order o db' = (Ok false, db')
  /\ status_of o db' <> Some BundleOrder.PENDING
  /\ status_of o db' <> Some BundleOrder.INSUFFICIENT_FUNDS.
Proof.
  intros Hkey db'. subst db'.
  unfold exec, status_of, cancel_order, try_except, bind, get_order, save_order,
    modify, ret.
  destruct (bundle_orders db !! o) as [order|] eqn:Ho; simpl.
  2: { rewrite Ho. done. }
  pose proof (Hkey order eq_refl) as Hid.
  destruct (BundleOrder.status order) eqn:Hs; simpl;
    rewrite ?Hid, ?lookup_insert_eq, ?Ho; simpl; rewrite ?Hs; done.
Qed.

Lemma cancel_order_twice_witness :
  cancel_order 100 (exec (cancel_order 100) shop_with_basic_order)
  = (Ok false, exec (cancel_order 100) shop_with_basic_order)
  /\ status_of 100 (exec (cancel_order 100) shop_with_basic_order)
     = Some BundleOrder.CANCELLED.
Proof.
  destruct (cancel_order_twice 100 shop_with_basic_order) as (Hrun & _).
  { intros order H. unfold shop_with_basic_order in H. simpl in H.
    apply lookup_singleton_Some in H as [_ <-]. reflexivity. }
  split; [exact Hrun|]. vm_compute. reflexivity.
Defined.

(** ** The direct purchase *)

(** X19.  [purchase_bundle] never succeeds, and writes nothing.  Without an
    active definition of that key it answers "Bundle definition not found".
    Otherwise it answers with an internal error: a [ValueError] when the
    payment data hold the key of a payment method where the purchase wants
    the object, and else, for an amount the column takes, an integrity
    error, because the purchase row it builds carries no order and the
    table requires one. *)
Theorem purchase_bundle_never_succeeds env user k payment_data db :
  exists message,
    purchase_bundle env user k payment_data db = (Ok (false, None, message), db)
    /\ match eval (get_bundle_definition true k) db,
             pd_payment_method payment_data with
       | Raise _, _ => message = DefinitionNotFound
       | Ok _, Some (MethodKey _) => message = InternalError ValueError
       | Ok _, _ =>
           (forall amount, pd_amount payment_data = Some (Some amount) ->
                           fits_decimal amount) ->
           exists constraint,
             message = InternalError (IntegrityError constraint)
       end.
Proof.
  unfold eval, purchase_bundle, try_except, bind, atomic, uuid4, insert_purchase,
    get_bundle_definition, ret, raise.
  destruct (find _ _) as [d|]; simpl; [|by eexists].
  destruct (pd_payment_method payment_data) as [[p|k']|]; simpl.
  - destruct (bundle_purchases _ !! _); simpl;
      (eexists; split; [reflexivity|intros _; eexists; reflexivity]).
  - eexists. split; reflexivity.
  - destruct (bundle_purchases _ !! _); simpl;
      (eexists; split; [reflexivity|intros _; eexists; reflexivity]).
Qed.

Lemma purchase_bundle_never_succeeds_witness :
  (exists message,
     purchase_bundle (request 1 9) alice 1
       (mkPaymentData (Some (Some 50000)) (Some (MethodKey 1))
          (Some "TEST-0001") None (Some true)) shop
     = (Ok (false, None, message), shop)
     /\ message = InternalError ValueError)
  /\ (exists message constraint,
        purchase_bundle (request 1 9) alice 1
          (mkPaymentData (Some (Some 50000)) None (Some "TEST-0001") None
             (Some true)) shop
        = (Ok (false, None, message), shop)
        /\ message = InternalError (IntegrityError constraint)).
Proof.
  split.
  - destruct (purchase_bundle_never_succeeds (request 1 9) alice 1
                (mkPaymentData (Some (Some 50000)) (Some (MethodKey 1))
                   (Some "TEST-0001") None (Some true)) shop)
      as (message & Hrun & Hmessage).
    exists message. split; [exact Hrun|exact Hmessage].
  - destruct (purchase_bundle_never_succeeds (request 1 9) alice 1
                (mkPaymentData (Some (Some 50000)) None (Some "TEST-0001") None
                   (Some true)) shop)
      as (message & Hrun & Hmessage).
    destruct Hmessage as (constraint & Hmessage).
    + intros amount [= <-]. split; vm_compute; reflexivity.
    + exists message, constraint. split; [exact Hrun|exact Hmessage].
Defined.

(** ** What no operation does to a bundle *)

Lemma remaining_never_negative_witness :
  never_negative
    (run mock_verify (request 1 9)
       (ConsumeResource alice ResourceTransaction.EXAM (-3) "start")
       (shop_with_bundle 5 0)).
Proof.
  apply (remaining_never_negative mock_verify (request 1 9)
           (ConsumeResource alice ResourceTransaction.EXAM (-3) "start")
           (shop_with_bundle 5 0)).
  intros k b H. unfold shop_with_bundle in H. simpl in H.
  apply lookup_singleton_Some in H as [_ <-]. vm_compute. repeat split; discriminate.
Defined.

Lemma ki_update pk f :
  (forall row, identity (f row) = identity row) ->
  keeps keeps_identity (update_user_bundle pk f).
Proof.
  intros Hf db k b Hb. unfold exec, update_user_bundle.
  destruct (user_bundles db !! pk) as [row|] eqn:Hrow; [|by exists b].
  destruct (UserBundle.check_positive (f row)); [|by exists b].
  simpl. rewrite lookup_insert. case_decide as Hk; [|by exists b].
  subst k. exists (f row). split; [done|]. rewrite Hf. congruence.
Qed.

#[local] Instance keeps_identity_bookkeeping : Bookkeeping keeps_identity.
Proof.
  split.
  - split.
    + intros db k b Hb. by exists b.
    + intros x y z H1 H2 k b Hb.
      destruct (H1 k b Hb) as (b1 & Hb1 & E1).
      destruct (H2 k b1 Hb1) as (b2 & Hb2 & E2).
      exists b2. split; [done|]. congruence.
  - intros A m H db k b Hb. destruct (H db) as [-> _]. by exists b.
  - intros t db k b Hb. by exists b.
  - intros pk used reset. by apply ki_update.
  - intros pk v. by apply ki_update.
  - intros now_ db k b Hb. unfold exec, modify, reset_rows; simpl.
    rewrite lookup_fmap, Hb. simpl.
    eexists. split; [reflexivity|]. by destruct (reset_due _ _).
Qed.

(** X20.  No operation removes a bundle, hands it to another user, changes
    its definition, or moves its purchase date or its expiry date: a bundle
    is never extended, and a stored row keeps its key. *)
Theorem bundle_identity_kept verifier env op db k b :
  user_bundles db !! k = Some b ->
  exists b', user_bundles (run verifier env op db) !! k = Some b'
             /\ identity b' = identity b.
Proof.
  revert k b. change (keeps_identity db (run verifier env op db)).
  apply (keeps_run keeps_identity).
  - intros user rt q desc held _ db' k b Hb. unfold exec.
    rewrite consume_commit_run.
    destruct (user_bundles db' !! UserBundle.id held) as [row|] eqn:Hrow;
      [|by exists b].
    destruct (UserBundle.check_positive _); [|by exists b].
    simpl. rewrite lookup_insert. case_decide as Hk; [|by exists b].
    subst k. eexists. split; [reflexivity|]. simplify_eq. reflexivity.
  - intros o. apply keeps_complete_order; [apply _|].
    intros user d e db' k b Hb. unfold exec.
    rewrite UserBundle_objects_create_run.
    destruct e as [e|]; simpl; [|by exists b].
    destruct (user_bundles db' !! uuid_seed db') eqn:Hfresh; simpl; [by exists b|].
    rewrite lookup_insert. case_decide as Hk; [congruence|by exists b].
Qed.

Lemma bundle_identity_kept_witness :
  exists b',
    user_bundles
      (run mock_verify (request 40 9) ExpireBundles (shop_with_bundle 5 0))
    !! 50%positive = Some b'
    /\ identity b' = identity (alice_bundle 5 0).
Proof.
  apply (bundle_identity_kept mock_verify (request 40 9) ExpireBundles
           (shop_with_bundle 5 0) 50 (alice_bundle 5 0)).
  reflexivity.
Defined.

(** ** The catalogue *)

#[local] Instance keeps_catalogue_preorder : PreOrder keeps_catalogue.
Proof.
  split.
  - by intros db.
  - intros x y z [H1 H2] [H3 H4]. split; congruence.
Qed.

(** The single steps of the services: none writes a catalogue table. *)
Ltac catalogue_step :=
  intros db;
  unfold exec, activate_bundle, get_profile, get_user_bundle,
    get_bundle_definition, get_payment_method, get_order, save_order,
    insert_order, insert_purchase, save_purchase, create_suggestion,
    get_suggestion, uuid4, update_user_bundle, insert_user_bundle,
    create_transaction, modify;
  repeat case_match; split; reflexivity.

Create HintDb catalogue.

#[local] Hint Extern 1 (keeps keeps_catalogue _) => solve [catalogue_step]
  : catalogue.

Ltac solve_catalogue :=
  repeat (first [keeps_step | solve [eauto with catalogue]]).

Lemma kc_complete_order env o : keeps keeps_catalogue (complete_order env o).
Proof.
  unfold complete_order, UserBundle_objects_create, UserBundle_init,
    UserBundle_save.
  solve_catalogue.
Qed.

(** X21.  No operation of the two services writes the catalogue: the bundle
    definitions and the payment methods are the same after it as before. *)
Theorem catalogue_never_written verifier env op db :
  bundle_definitions (run verifier env op db) = bundle_definitions db
  /\ payment_methods (run verifier env op db) = payment_methods db.
Proof.
  change (keeps_catalogue db (run verifier env op db)).
  pose proof kc_complete_order as Hcomplete.
  destruct op; simpl.
  - revert db.
    change (keeps keeps_catalogue (consume_resource env user resource_type
                                     quantity description)).
    unfold consume_resource, consume_admission, consume_finish, consume_commit,
      can_use_chat, _reset_daily_chat_if_needed.
    solve_catalogue.
  - revert db.
    change (keeps keeps_catalogue (check_resource_access env user resource_type)).
    unfold check_resource_access, can_use_chat, _reset_daily_chat_if_needed.
    solve_catalogue.
  - rewrite purchase_bundle_exec. reflexivity.
  - revert db. change (keeps keeps_catalogue (reset_daily_chats env)).
    unfold reset_daily_chats. solve_catalogue.
  - revert db. change (keeps keeps_catalogue (expire_bundles env)).
    unfold expire_bundles, expire_one. solve_catalogue.
  - revert db.
    change (keeps keeps_catalogue
              (create_order env user bundle_definition_id payment_method_id)).
    unfold create_order. solve_catalogue.
  - revert db.
    change (keeps keeps_catalogue
              (verify_payment verifier env order_id reference_number)).
    unfold verify_payment. solve_catalogue.
  - apply Hcomplete.
  - revert db.
    change (keeps keeps_catalogue
              (accept_suggestion env order_id suggested_bundle_id)).
    unfold accept_suggestion. solve_catalogue.
  - revert db. change (keeps keeps_catalogue (cancel_order order_id)).
    unfold cancel_order. solve_catalogue.
Qed.

(** ** The expiry sweep *)

(** One turn of the sweep, on a stored row that passes the checks. *)
Lemma expire_one_run env x db row :
  user_bundles db !! UserBundle.id x = Some row ->
  UserBundle.check_positive row = true ->
  exists db',
    expire_one env x db = (Ok tt, db')
    /\ user_bundles db'
       = <[UserBundle.id x := UserBundle.set_is_active false row]> (user_bundles db)
    /\ resource_transactions db'
       = resource_transactions db ++ [expiry_transaction x (now env)]
    /\ (profiles db' = profiles db
        \/ profiles db'
           = <[UserBundle.user x := UserProfile.mk None]> (profiles db)
           /\ exists p, profiles db !! UserBundle.user x = Some p
                        /\ UserProfile.active_bundle p = Some (UserBundle.id x)).
Proof.
  intros Hrow Hpos.
  unfold expire_one, bind, update_user_bundle, create_transaction, modify,
    try_except, get_profile, activate_bundle, ret.
  rewrite Hrow.
  assert (UserBundle.check_positive (UserBundle.set_is_active false row) = true)
    as -> by done.
  simpl. destruct (profiles db !! UserBundle.user x) as [p|] eqn:Hp; simpl.
  - case_bool_decide as Hptr; simpl.
    + eexists. repeat split; try reflexivity. right. split; [done|]. by exists p.
    + eexists. repeat split; try reflexivity. by left.
  - eexists. repeat split; try reflexivity. by left.
Qed.

(** A turn of the sweep on a row past its expiry date does not change
    anyone's active bundle: that row was no one's already. *)
Lemma expire_one_active env x db row db' user :
  user_bundles db !! UserBundle.id x = Some row ->
  UserBundle.expiry_date row < now env ->
  user_bundles db'
  = <[UserBundle.id x := UserBundle.set_is_active false row]> (user_bundles db) ->
  (profiles db' = profiles db
   \/ profiles db' = <[UserBundle.user x := UserProfile.mk None]> (profiles db)
      /\ exists p, profiles db !! UserBundle.user x = Some p
                   /\ UserProfile.active_bundle p = Some (UserBundle.id x)) ->
  get_active_bundle env user db' = get_active_bundle env user db.
Proof.
  intros Hrow Hlate Hbundles Hprofiles.
  assert (Hexp : UserBundle.is_expired row (now env) = true).
  { unfold UserBundle.is_expired. lia. }
  assert (Hsame : forall pk,
            (user_bundles db' !! pk) ≫= (fun b : UserBundle.t =>
               if UserBundle.is_active b
                  && negb (UserBundle.is_expired b (now env))
               then Some b else None)
            = (user_bundles db !! pk) ≫= (fun b : UserBundle.t =>
               if UserBundle.is_active b
                  && negb (UserBundle.is_expired b (now env))
               then Some b else None)).
  { intros pk. rewrite Hbundles, lookup_insert. case_decide as Hk; [|done].
    subst pk. rewrite Hrow. simpl. rewrite Hexp. by rewrite andb_false_r. }
  assert (Hget : forall d, get_active_bundle env user d
            = (profiles d !! user) ≫= (fun p =>
                UserProfile.active_bundle p ≫= (fun pk =>
                  (user_bundles d !! pk) ≫= (fun b : UserBundle.t =>
                    if UserBundle.is_active b
                       && negb (UserBundle.is_expired b (now env))
                    then Some b else None)))).
  { intros d. unfold get_active_bundle.
    destruct (profiles d !! user) as [[[pk|]]|]; simpl; try done;
      by destruct (user_bundles d !! pk). }
  rewrite !Hget.
  destruct Hprofiles as [->|[-> (p & Hp & Hptr)]].
  - destruct (profiles db !! user) as [[[pk|]]|]; simpl; try done; apply Hsame.
  - rewrite lookup_insert. case_decide as Hu.
    + subst user. rewrite Hp. simpl. rewrite Hptr. simpl. rewrite Hrow. simpl.
      rewrite Hexp. by rewrite andb_false_r.
    + destruct (profiles db !! user) as [[[pk|]]|]; simpl; try done; apply Hsame.
Qed.

(** What the sweep has kept so far: everyone's active bundle, and the expiry
    date of every row. *)
Lemma expire_one_keeps env db0 x db :
  (forall row0, user_bundles db0 !! UserBundle.id x = Some row0 ->
                UserBundle.expiry_date row0 < now env) ->
  (forall user, get_active_bundle env user db = get_active_bundle env user db0)
  /\ (forall k row, user_bundles db !! k = Some row ->
        exists row0, user_bundles db0 !! k = Some row0
                     /\ UserBundle.expiry_date row = UserBundle.expiry_date row0) ->
  let db' := exec (expire_one env x) db in
  (forall user, get_active_bundle env user db' = get_active_bundle env user db0)
  /\ (forall k row, user_bundles db' !! k = Some row ->
        exists row0, user_bundles db0 !! k = Some row0
                     /\ UserBundle.expiry_date row = UserBundle.expiry_date row0).
Proof.
  intros Hx [Hactive Hexpiry] db'.
  destruct (user_bundles db !! UserBundle.id x) as [row|] eqn:Hrow.
  2: { subst db'. unfold exec, expire_one, bind, update_user_bundle.
       rewrite Hrow. simpl. done. }
  destruct (UserBundle.check_positive row) eqn:Hpos.
  2: { subst db'. unfold exec, expire_one, bind, update_user_bundle.
       rewrite Hrow.
       assert (UserBundle.check_positive (UserBundle.set_is_active false row)
               = false) as -> by done.
       simpl. done. }
  destruct (expire_one_run env x db row Hrow Hpos)
    as (db1 & Hrun & Hbundles & _ & Hprofiles).
  subst db'. unfold exec. rewrite Hrun. simpl.
  destruct (Hexpiry _ _ Hrow) as (row0 & Hrow0 & Hdate).
  split.
  - intros user. rewrite <- Hactive.
    apply (expire_one_active env x db row); try done.
    rewrite Hdate. by apply Hx.
  - intros k row'. rewrite Hbundles, lookup_insert. case_decide as Hk.
    + subst k. intros [= <-]. by exists row0.
    + apply Hexpiry.
Qed.

Lemma expire_loop_keeps env db0 l :
  (forall x, In x l ->
     forall row0, user_bundles db0 !! UserBundle.id x = Some row0 ->
                  UserBundle.expiry_date row0 < now env) ->
  forall db,
    (forall user, get_active_bundle env user db = get_active_bundle env user db0)
    /\ (forall k row, user_bundles db !! k = Some row ->
          exists row0, user_bundles db0 !! k = Some row0
                       /\ UserBundle.expiry_date row = UserBundle.expiry_date row0) ->
    forall user,
      get_active_bundle env user (exec (for_each l (expire_one env)) db)
      = get_active_bundle env user db0.
Proof.
  induction l as [|x l IH]; intros Hl db Hinv user; simpl.
  - by destruct Hinv.
  - pose proof (expire_one_keeps env db0 x db (Hl x (or_introl eq_refl)) Hinv)
      as Hstep.
    unfold exec, bind in *. simpl in Hstep.
    destruct (expire_one env x db) as [[[]|e] db1]; simpl in *.
    + apply IH; [|done]. intros y Hy. apply Hl. by right.
    + by destruct Hstep.
Qed.

(** X22.  The expiry sweep is bookkeeping only: it changes no one's active
    bundle.  A bundle past its expiry date was already refused by every
    check, whether or not the sweep has run and whether or not it fails. *)
Theorem expire_bundles_keeps_active_bundles env db user :
  stored_under_keys db ->
  get_active_bundle env user (exec (expire_bundles env) db)
  = get_active_bundle env user db.
Proof.
  intros Hkeys.
  assert (Hlate : forall x,
            In x (List.filter (fun b => UserBundle.is_active b
                                        && (UserBundle.expiry_date b <? now env))
                              (all_user_bundles db)) ->
            forall row0, user_bundles db !! UserBundle.id x = Some row0 ->
                         UserBundle.expiry_date row0 < now env).
  { intros x Hx row0 Hrow0.
    apply filter_In in Hx as [Hin Hx]. apply andb_true_iff in Hx as [_ Hx].
    apply all_user_bundles_In in Hin as [k Hk].
    rewrite <- (Hkeys k x Hk) in Hk. simplify_eq. lia. }
  assert (Hinv : (forall user', get_active_bundle env user' db
                                = get_active_bundle env user' db)
                 /\ (forall k row, user_bundles db !! k = Some row ->
                       exists row0, user_bundles db !! k = Some row0
                                    /\ UserBundle.expiry_date row
                                       = UserBundle.expiry_date row0)).
  { split; [done|]. intros k row Hrow. by exists row. }
  pose proof (expire_loop_keeps env db _ Hlate db Hinv user) as Hloop.
  unfold exec, expire_bundles, try_except, atomic, bind, gets, ret in *.
  simpl in *.
  match goal with
  | |- context [for_each ?l ?f db] => destruct (for_each l f db) as [[[]|e] db1]
  end; simpl in *; done.
Qed.

Lemma shop_with_bundle_keys exams daily : stored_under_keys (shop_with_bundle exams daily).
Proof.
  intros k b H. unfold shop_with_bundle in H. simpl in H.
  by apply lookup_singleton_Some in H as [<- <-].
Qed.

Lemma expire_bundles_keeps_active_bundles_witness :
  get_active_bundle (request 40 9) alice
    (exec (expire_bundles (request 40 9)) (shop_with_bundle 5 0))
  = get_active_bundle (request 40 9) alice (shop_with_bundle 5 0).
Proof.
  apply (expire_bundles_keeps_active_bundles (request 40 9)
           (shop_with_bundle 5 0) alice).
  apply shop_with_bundle_keys.
Defined.

Lemma all_user_bundles_elem db k b :
  user_bundles db !! k = Some b -> In b (all_user_bundles db).
Proof.
  intros H. unfold all_user_bundles. rewrite sort_by_In, in_map_iff.
  exists (k, b). split; [done|].
  by apply list_elem_of_In, elem_of_map_to_list.
Qed.

(** The whole loop of the sweep, on rows that pass the checks: it does not
    fail, it deactivates the rows of the bundles it is given, and it leaves
    the other rows as they are. *)
Lemma expire_loop_run env l :
  forall db,
    (forall x, In x l ->
       exists row, user_bundles db !! UserBundle.id x = Some row
                   /\ UserBundle.check_positive row = true) ->
    exists db',
      for_each l (expire_one env) db = (Ok tt, db')
      /\ (forall k, user_bundles db !! k = None -> user_bundles db' !! k = None)
      /\ (forall k row, user_bundles db !! k = Some row ->
            user_bundles db' !! k = Some row
            \/ user_bundles db' !! k = Some (UserBundle.set_is_active false row))
      /\ (forall x row, In x l -> user_bundles db !! UserBundle.id x = Some row ->
            user_bundles db' !! UserBundle.id x
            = Some (UserBundle.set_is_active false row))
      /\ (forall k, (forall x, In x l -> UserBundle.id x <> k) ->
            user_bundles db' !! k = user_bundles db !! k)
      /\ resource_transactions db'
         = resource_transactions db
           ++ map (fun x => expiry_transaction x (now env)) l.
Proof.
  induction l as [|x l IH]; intros db Hl; simpl.
  - exists db. unfold ret. rewrite app_nil_r. repeat split; auto. by intros x row [].
  - destruct (Hl x (or_introl eq_refl)) as (row & Hrow & Hpos).
    destruct (expire_one_run env x db row Hrow Hpos)
      as (db1 & Hrun & Hbundles & Hledger & _).
    destruct (IH db1) as (db' & Hloop & Hnone & Hsome & Hdone & Hframe & Hrows).
    { intros y Hy. rewrite Hbundles, lookup_insert. case_decide as Hk.
      - by exists (UserBundle.set_is_active false row).
      - apply Hl. by right. }
    exists db'. unfold bind. rewrite Hrun. split; [exact Hloop|].
    split; [|split; [|split; [|split]]].
    + intros k Hk. apply Hnone. rewrite Hbundles, lookup_insert_ne; [done|].
      intros <-. congruence.
    + intros k row' Hk.
      destruct (decide (UserBundle.id x = k)) as [<-|Hne].
      * simplify_eq.
        destruct (Hsome (UserBundle.id x) (UserBundle.set_is_active false row))
          as [H|H]; [by rewrite Hbundles, lookup_insert_eq|by right|by right].
      * apply Hsome. by rewrite Hbundles, lookup_insert_ne.
    + intros y row' [<-|Hy] Hk.
      * simplify_eq.
        destruct (Hsome (UserBundle.id x) (UserBundle.set_is_active false row))
          as [H|H]; [by rewrite Hbundles, lookup_insert_eq|done|done].
      * destruct (decide (UserBundle.id x = UserBundle.id y)) as [E|Hne].
        -- rewrite <- E in Hk. simplify_eq.
           rewrite (Hdone y (UserBundle.set_is_active false row) Hy);
             [done|]. by rewrite Hbundles, <- E, lookup_insert_eq.
        -- apply (Hdone y row' Hy). by rewrite Hbundles, lookup_insert_ne.
    + intros k Hk. rewrite Hframe by (intros y Hy; apply Hk; by right).
      rewrite Hbundles, lookup_insert_ne; [done|]. apply Hk. by left.
    + rewrite Hrows, Hledger. by rewrite <- app_assoc.
Qed.

(** X23.  When the stored rows are sound, the sweep goes through: it
    reports the number of active bundles past their expiry date,
    deactivates exactly those, logs one [EXPIRY] row for each, and leaves no
    bundle both active and expired. *)
Theorem expire_bundles_sweeps env db :
  stored_under_keys db -> rows_checked db ->
  let expired :=
    List.filter (fun b => UserBundle.is_active b
                          && (UserBundle.expiry_date b <? now env))
                (all_user_bundles db) in
  let db' := exec (expire_bundles env) db in
  eval (expire_bundles env) db = Ok (Z.of_nat (length expired))
  /\ (forall k b, user_bundles db' !! k = Some b ->
        UserBundle.is_active b = true -> now env <= UserBundle.expiry_date b)
  /\ (forall k b, user_bundles db !! k = Some b ->
        user_bundles db' !! k
        = Some (if UserBundle.is_active b && (UserBundle.expiry_date b <? now env)
                then UserBundle.set_is_active false b else b))
  /\ resource_transactions db'
     = resource_transactions db
       ++ map (fun b => expiry_transaction b (now env)) expired.
Proof.
  intros Hkeys Hchecked expired db'.
  assert (Hexp : forall x, In x expired <->
            (user_bundles db !! UserBundle.id x = Some x
             /\ UserBundle.is_active x = true
             /\ UserBundle.expiry_date x < now env)).
  { intros x. unfold expired. rewrite filter_In, andb_true_iff. split.
    - intros (Hin & Hact & Hlate). apply all_user_bundles_In in Hin as [k Hk].
      rewrite <- (Hkeys k x Hk) in Hk. repeat split; [done|done|lia].
    - intros (Hin & Hact & Hlate). repeat split; [|done|lia].
      by apply (all_user_bundles_elem db (UserBundle.id x)). }
  destruct (expire_loop_run env expired db)
    as (db1 & Hloop & Hnone & Hsome & Hdone & Hframe & Hrows).
  { intros x Hx. apply Hexp in Hx as (Hx & _). exists x. split; [done|].
    by apply (Hchecked _ _ Hx). }
  assert (Hrun : expire_bundles env db = (Ok (Z.of_nat (length expired)), db1)).
  { unfold expire_bundles, try_except, atomic, bind, gets, ret. simpl.
    fold expired. by rewrite Hloop. }
  assert (Hrow : forall k b, user_bundles db !! k = Some b ->
            user_bundles db1 !! k
            = Some (if UserBundle.is_active b
                       && (UserBundle.expiry_date b <? now env)
                    then UserBundle.set_is_active false b else b)).
  { intros k b Hb. pose proof (Hkeys k b Hb) as Hid. subst k.
    destruct (UserBundle.is_active b && (UserBundle.expiry_date b <? now env))
      eqn:Hc.
    - apply andb_true_iff in Hc as [Hact Hlate].
      apply Hdone; [|done]. apply Hexp. repeat split; [done|done|lia].
    - rewrite Hframe; [done|]. intros x Hx Hid.
      apply Hexp in Hx as (Hx & Hact & Hlate). rewrite Hid in Hx. simplify_eq.
      apply andb_false_iff in Hc as [Hc|Hc]; [congruence|lia]. }
  subst db'. unfold exec, eval. rewrite Hrun. simpl.
  split; [done|]. split; [|split; [exact Hrow|exact Hrows]].
  intros k b Hb Hact.
  destruct (user_bundles db !! k) as [b0|] eqn:Hb0.
  - rewrite (Hrow k b0 Hb0) in Hb. injection Hb as <-.
    destruct (UserBundle.is_active b0 && (UserBundle.expiry_date b0 <? now env))
      eqn:Hc; [done|].
    apply andb_false_iff in Hc as [Hc|Hc]; [congruence|lia].
  - rewrite (Hnone k Hb0) in Hb. done.
Qed.

Lemma expire_bundles_sweeps_witness :
  eval (expire_bundles (request 40 9)) (shop_with_bundle 5 0) = Ok 1
  /\ UserBundle.is_active
       <$> (user_bundles (exec (expire_bundles (request 40 9))
                            (shop_with_bundle 5 0)) !! 50%positive)
     = Some false.
Proof.
  destruct (expire_bundles_sweeps (request 40 9) (shop_with_bundle 5 0))
    as (Heval & _ & Hrow & _).
  - apply shop_with_bundle_keys.
  - intros k b H. unfold shop_with_bundle in H. simpl in H.
    by apply lookup_singleton_Some in H as [_ <-].
  - split; [exact Heval|].
    rewrite (Hrow 50%positive (alice_bundle 5 0)) by reflexivity. reflexivity.
Defined.

(** ** The daily reset job, after a run *)

(** After [reset_daily_chats] no active bundle has a window older
    than the start of the day: each bundle that was due has its daily count
    at 0 and its reset time at the time of the run, the others are as they
    were, and no remaining counter of any bundle has moved. *)
Theorem reset_daily_chats_effect env db k b :
  user_bundles db !! k = Some b ->
  let db' := exec (reset_daily_chats env) db in
  exists b',
    user_bundles db' !! k = Some b'
    /\ b' = (if reset_due (now env) b then UserBundle.set_daily 0 (now env) b
             else b)
    /\ reset_due (now env) b' = false
    /\ balances b' = balances b
    /\ identity b' = identity b.
Proof.
  intros Hb db'. subst db'. unfold exec. rewrite reset_daily_chats_run. simpl.
  unfold reset_rows. rewrite lookup_fmap, Hb. simpl.
  eexists. split; [reflexivity|]. split; [reflexivity|].
  assert (Hsod : start_of_day (now env) <= now env).
  { unfold start_of_day.
    pose proof (Z.mod_pos_bound (now env) usec_per_day) as Hm.
    unfold usec_per_day in *. lia. }
  destruct (reset_due (now env) b) eqn:Hdue; [|done].
  repeat split. unfold reset_due in *. simpl.
  apply andb_false_iff. right. lia.
Qed.

Lemma reset_daily_chats_effect_witness :
  exists b',
    user_bundles (exec (reset_daily_chats (request 3 9)) (shop_with_bundle 5 3))
    !! 50%positive = Some b'
    /\ b' = (if reset_due (now (request 3 9)) (alice_bundle 5 3)
             then UserBundle.set_daily 0 (now (request 3 9)) (alice_bundle 5 3)
             else alice_bundle 5 3)
    /\ reset_due (now (request 3 9)) b' = false
    /\ balances b' = balances (alice_bundle 5 3)
    /\ identity b' = identity (alice_bundle 5 3).
Proof.
  apply (reset_daily_chats_effect (request 3 9) (shop_with_bundle 5 3) 50
           (alice_bundle 5 3)).
  reflexivity.
Defined.

(** ** Upgrade options *)

(** X24.  When [can_upgrade_existing_bundle] offers an upgrade, the user's
    profile points at a stored bundle that is not past its expiry date, and
    the offer is of at least one and at most three active definitions of
    the catalogue, each dearer than the definition of that bundle and within
    the additional amount of it; the answer never says how much more would
    be needed. *)
Theorem can_upgrade_existing_bundle_options env user extra db u :
  can_upgrade_existing_bundle env user extra db = Some u ->
  can_upgrade u = true
  /\ additional_needed u = None
  /\ (0 < length (upgrade_options u) <= 3)%nat
  /\ (exists profile pk b,
        profiles db !! user = Some profile
        /\ UserProfile.active_bundle profile = Some pk
        /\ user_bundles db !! pk = Some b
        /\ now env <= UserBundle.expiry_date b
        /\ current_bundle u = UserBundle.bundle_definition b)
  /\ forall d, In d (upgrade_options u) ->
       In d (bundle_definitions db)
       /\ BundleDefinition.is_active d = true
       /\ BundleDefinition.price_etb (current_bundle u) < BundleDefinition.price_etb d
          <= BundleDefinition.price_etb (current_bundle u) + extra.
Proof.
  unfold can_upgrade_existing_bundle.
  destruct (profiles db !! user) as [[[pk|]]|] eqn:Hp; simpl; try done.
  destruct (user_bundles db !! pk) as [b|] eqn:Hb; simpl; [|done].
  destruct (UserBundle.is_expired b (now env)) eqn:Hexp; [done|].
  destruct (sort_by _ _) as [|d0 rest] eqn:Hsort; [done|].
  intros [= <-]. simpl. split; [done|]. split; [done|]. split; [|split].
  - destruct rest as [|d1 [|d2 rest]]; simpl; rewrite ?length_take; simpl; lia.
  - exists (UserProfile.mk (Some pk)), pk, b. repeat split; try done.
    unfold UserBundle.is_expired in Hexp. lia.
  - intros d Hd.
    assert (Hin : In d (d0 :: rest)).
    { apply (In_take d 3). exact Hd. }
    rewrite <- Hsort in Hin. apply sort_by_In in Hin.
    apply filter_In in Hin as [Hin Hc].
    apply andb_true_iff in Hc as [Hc Hlt]. apply andb_true_iff in Hc as [Hact Hle].
    repeat split; [done|done|lia|lia].
Qed.

Lemma can_upgrade_existing_bundle_options_witness :
  can_upgrade (mkUpgrade true basic [premium] None) = true
  /\ forall d, In d [premium] ->
       BundleDefinition.price_etb basic < BundleDefinition.price_etb d
       <= BundleDefinition.price_etb basic + 70000.
Proof.
  destruct (can_upgrade_existing_bundle_options (request 1 9) alice 70000
              (shop_with_bundle 5 0) (mkUpgrade true basic [premium] None))
    as (Hcan & _ & _ & _ & Hoptions); [vm_compute; reflexivity|].
  split; [exact Hcan|]. intros d Hd. by apply Hoptions.
Defined.

(** ** The profile, the permissions and the service *)

Lemma get_active_bundle_profile env user db :
  get_active_bundle env user db
  = profile ← profiles db !! user;
    bundle ← UserProfile.active_bundle profile ≫= (fun pk => user_bundles db !! pk);
    if has_active_bundle env profile db then Some bundle else None.
Proof.
  unfold get_active_bundle, has_active_bundle.
  destruct (profiles db !! user) as [[[pk|]]|]; simpl; try done.
  by destruct (user_bundles db !! pk).
Qed.

(** X25.  The profile and the service give the same account of a user: the
    profile has an active bundle exactly when [get_active_bundle] finds one,
    and its remaining resources and days are those [get_user_resources]
    reports. *)
Theorem profile_agrees_with_service env user db profile :
  profiles db !! user = Some profile ->
  has_active_bundle env profile db
  = bool_decide (is_Some (get_active_bundle env user db))
  /\ is_pro_user env profile db = has_active_bundle env profile db
  /\ bundle_remaining_resources env profile db
     = ur_resources <$> get_user_resources env user db
  /\ days_remaining env profile db
     = default 0 (UserBundle.r_days_remaining
                    <$> (ur_resources <$> get_user_resources env user db))
  /\ 0 <= days_remaining env profile db.
Proof.
  intros Hp.
  unfold is_pro_user, bundle_remaining_resources, days_remaining,
    get_user_resources.
  rewrite get_active_bundle_profile, Hp. simpl.
  unfold has_active_bundle.
  destruct (UserProfile.active_bundle profile ≫= _) as [b|]; simpl; [|done].
  destruct (UserBundle.is_active b && negb (UserBundle.is_expired b (now env)));
    simpl; repeat split; try done. lia.
Qed.

Lemma profile_agrees_with_service_witness :
  has_active_bundle (request 1 9) (UserProfile.mk (Some 50%positive))
    (shop_with_bundle 5 0)
  = bool_decide (is_Some (get_active_bundle (request 1 9) alice
                            (shop_with_bundle 5 0)))
  /\ days_remaining (request 1 9) (UserProfile.mk (Some 50%positive))
       (shop_with_bundle 5 0)
     = default 0 (UserBundle.r_days_remaining
                    <$> (ur_resources
                           <$> get_user_resources (request 1 9) alice
                                 (shop_with_bundle 5 0))).
Proof.
  destruct (profile_agrees_with_service (request 1 9) alice
              (shop_with_bundle 5 0) (UserProfile.mk (Some 50%positive)))
    as (Hactive & _ & _ & Hdays & _); [reflexivity|].
  split; [exact Hactive|exact Hdays].
Defined.

Lemma check_resource_access_granted env user rt db :
  granted (eval (check_resource_access env user rt) db) = true ->
  exists b, get_active_bundle env user db = Some b.
Proof.
  unfold eval, check_resource_access, bind, gets.
  destruct (get_active_bundle env user db) as [b|]; simpl; [|done].
  intros _. by exists b.
Qed.

(** X26.  [HasBundleResource] is at least as strict as [HasActiveBundle]:
    whatever the resource type, a request it lets through is one of a user
    with an active bundle. *)
Theorem has_bundle_resource_needs_active_bundle rt env request db :
  eval (HasBundleResource rt env request) db = Ok true ->
  HasActiveBundle env request db = true
  /\ IsProUser env request db = true.
Proof.
  unfold HasBundleResource, HasActiveBundle, IsProUser, is_pro_user.
  destruct (request_user request) as [user|]; [|done].
  intros H.
  destruct (check_resource_access_granted env user rt db) as [b Hb].
  { unfold eval, bind, ret in *.
    destruct (check_resource_access env user rt db) as [[[[can ?] ?]|e] db'];
      simpl in *; [|done]. by injection H as ->. }
  rewrite get_active_bundle_profile in Hb.
  destruct (profiles db !! user) as [profile|]; simpl in Hb; [|done].
  destruct (UserProfile.active_bundle profile ≫= _); simpl in Hb; [|done].
  by destruct (has_active_bundle env profile db).
Qed.

Lemma has_bundle_resource_needs_active_bundle_witness :
  HasActiveBundle (request 1 9) (mkRequest "/api/v1/exam/" (Some alice))
    (shop_with_bundle 5 0) = true
  /\ IsProUser (request 1 9) (mkRequest "/api/v1/exam/" (Some alice))
       (shop_with_bundle 5 0) = true.
Proof.
  apply (has_bundle_resource_needs_active_bundle ResourceTransaction.EXAM
           (request 1 9) (mkRequest "/api/v1/exam/" (Some alice))
           (shop_with_bundle 5 0)).
  vm_compute. reflexivity.
Defined.

(** An order can be completed, by its own account, exactly when it is
    [PAYMENT_VERIFIED], not past its deadline, and has an amount difference
    that is not negative; an order verified for an amount of zero has no
    amount difference and cannot be completed. *)
Theorem can_be_completed_amount_difference order now_ :
  (can_be_completed order now_ = true
   <-> BundleOrder.status order = BundleOrder.PAYMENT_VERIFIED
       /\ now_ <= BundleOrder.expires_at order
       /\ exists difference,
            amount_difference order = Some difference /\ 0 <= difference)
  /\ (BundleOrder.verified_amount order = Some 0 ->
      amount_difference order = None /\ can_be_completed order now_ = false).
Proof.
  unfold can_be_completed, amount_difference, BundleOrder.is_expired.
  split.
  - rewrite !andb_true_iff, bool_decide_eq_true, negb_true_iff.
    destruct (BundleOrder.verified_amount order) as [verified|]; simpl.
    + destruct (verified =? 0) eqn:Hz; simpl.
      * split; [intros [[_ ?] _]; done|intros (_ & _ & d & ? & _); done].
      * split.
        -- intros [[Hs Hle] Hexp]. repeat split; [done|lia|].
           eexists. split; [reflexivity|lia].
        -- intros (Hs & Hexp & d & [= <-] & Hd). repeat split; [done|lia|lia].
    + split; [intros [[_ ?] _]; done|intros (_ & _ & d & ? & _); done].
  - intros ->. simpl. split; [done|]. by rewrite andb_false_r.
Qed.

(** ** The access-control middleware *)

Lemma prefix_trans a : forall b c,
  String.prefix a b = true -> String.prefix b c = true -> String.prefix a c = true.
Proof.
  induction a as [|x a IH]; intros [|y b] [|z c]; simpl; try done.
  destruct (Ascii.ascii_dec x y) as [->|]; [|done].
  destruct (Ascii.ascii_dec y z) as [->|]; [|done].
  destruct (Ascii.ascii_dec z z); [|done]. apply IH.
Qed.

Lemma prefix_refl a : String.prefix a a = true.
Proof.
  induction a as [|x a IH]; simpl; [done|].
  by destruct (Ascii.ascii_dec x x).
Qed.

Lemma prefix_app a b : String.prefix a (a ++ b) = true.
Proof.
  induction a as [|x a IH].
  - change (String.prefix EmptyString b = true). by destruct b.
  - change (String.prefix (String x a) (String x (a ++ b)) = true). simpl.
    by destruct (Ascii.ascii_dec x x).
Qed.

(** A text that a pattern [^s$] or [^s...] takes starts with [s]. *)
Lemma re_match_prefix pattern path :
  re_match pattern path = true ->
  String.prefix match pattern with Exactly s | StartsWith s => s end path = true.
Proof.
  destruct pattern as [s|s]; simpl; [|done].
  intros H. apply orb_true_iff in H as [H|H]; apply String.eqb_eq in H; subst.
  - apply prefix_refl.
  - apply prefix_app.
Qed.

Lemma prefix_cons_inv x s path :
  String.prefix (String x s) path = true ->
  exists rest, path = String x rest /\ String.prefix s rest = true.
Proof.
  destruct path as [|y rest]; simpl; [done|].
  destruct (Ascii.ascii_dec x y) as [->|]; [eauto|done].
Qed.

(** A path under [/api/v1/] is none of the paths the middleware skips. *)
Lemma api_path_not_skipped path :
  String.prefix "/api/v1/" path = true ->
  String.prefix "/admin/" path || String.prefix "/static/" path
  || String.prefix "/media/" path = false.
Proof.
  intros H.
  apply prefix_cons_inv in H as (t1 & -> & H).
  apply prefix_cons_inv in H as (t2 & -> & H).
  apply prefix_cons_inv in H as (t3 & -> & _).
  vm_compute. reflexivity.
Qed.

(** X27.  An anonymous request for a path under [/api/v1/] that no public
    pattern takes is answered 401, and nothing is read or written for it. *)
Theorem process_view_requires_authentication env later request db :
  request_user request = None ->
  String.prefix "/api/v1/" (request_path request) = true ->
  existsb (fun pattern => re_match pattern (request_path request))
    PUBLIC_ENDPOINTS = false ->
  process_view env later request db = (Ok (Some AuthenticationRequired), db).
Proof.
  intros Hanon Hapi Hpublic. unfold process_view.
  rewrite (api_path_not_skipped _ Hapi), Hpublic, Hanon, Hapi.
  destruct (find _ _) as [[pattern rt]|]; [done|].
  destruct (existsb _ AUTH_REQUIRED_ENDPOINTS); reflexivity.
Qed.

Lemma process_view_requires_authentication_witness :
  process_view (request 1 9) (at_ 1 9) (mkRequest "/api/v1/exam/" None) shop
  = (Ok (Some AuthenticationRequired), shop).
Proof.
  apply (process_view_requires_authentication (request 1 9) (at_ 1 9)
           (mkRequest "/api/v1/exam/" None) shop); reflexivity.
Defined.

(** X28.  The middleware decides on nothing outside [/api/v1/]: every other
    path is let through, for anyone, and nothing is read or written. *)
Theorem process_view_outside_api env later request db :
  String.prefix "/api/v1/" (request_path request) = false ->
  process_view env later request db = (Ok None, db).
Proof.
  intros Hapi. unfold process_view.
  destruct (_ || _); [done|]. destruct (existsb _ PUBLIC_ENDPOINTS); [done|].
  assert (Hno : forall pattern,
            String.prefix "/api/v1/"
              match pattern with Exactly s | StartsWith s => s end = true ->
            re_match pattern (request_path request) = false).
  { intros pattern Hs. apply not_true_is_false. intros Hm.
    apply re_match_prefix in Hm.
    by rewrite (prefix_trans _ _ _ Hs Hm) in Hapi. }
  rewrite find_absent.
  2: { intros entry Hin. apply Hno.
       unfold RESOURCE_REQUIRED_ENDPOINTS in Hin.
       repeat (destruct Hin as [<-|Hin]; [vm_compute; reflexivity|]).
       destruct Hin. }
  rewrite existsb_none.
  2: { intros pattern Hin. apply Hno.
       unfold AUTH_REQUIRED_ENDPOINTS in Hin.
       repeat (destruct Hin as [<-|Hin]; [vm_compute; reflexivity|]).
       destruct Hin. }
  by rewrite Hapi.
Qed.

Lemma process_view_outside_api_witness :
  process_view (request 1 9) (at_ 1 9) (mkRequest "/health/" None) shop
  = (Ok None, shop).
Proof.
  apply (process_view_outside_api (request 1 9) (at_ 1 9)
           (mkRequest "/health/" None) shop).
  reflexivity.
Defined.

(** X29.  Every path under [/api/v1/auth/] is public: the middleware lets it
    through for an anonymous request too.  That includes [/api/v1/auth/me/],
    which the table of the endpoints that require authentication lists: the
    public patterns are tried first. *)
Theorem process_view_auth_is_public env later request db :
  String.prefix "/api/v1/auth/" (request_path request) = true ->
  process_view env later request db = (Ok None, db)
  /\ existsb (fun pattern => re_match pattern "/api/v1/auth/me/")
       AUTH_REQUIRED_ENDPOINTS = true.
Proof.
  intros Hauth. split; [|reflexivity]. unfold process_view.
  destruct (_ || _); [done|].
  unfold PUBLIC_ENDPOINTS. simpl. rewrite Hauth.
  by rewrite !orb_true_r.
Qed.

Lemma process_view_auth_is_public_witness :
  process_view (request 1 9) (at_ 1 9) (mkRequest "/api/v1/auth/me/" None) shop
  = (Ok None, shop).
Proof.
  apply (process_view_auth_is_public (request 1 9) (at_ 1 9)
           (mkRequest "/api/v1/auth/me/" None) shop).
  reflexivity.
Defined.

Lemma check_resource_access_bundle env user rt db can b' message :
  eval (check_resource_access env user rt) db = Ok (can, Some b', message) ->
  exists b, get_active_bundle env user db = Some b
            /\ UserBundle.expiry_date b' = UserBundle.expiry_date b.
Proof.
  unfold eval, check_resource_access, bind, gets.
  destruct (get_active_bundle env user db) as [b|] eqn:Hb; simpl; [|done].
  intros H. exists b. split; [done|].
  destruct (String.eqb rt ResourceTransaction.EXAM);
    [repeat (case_match; simplify_eq/=); done|].
  destruct (String.eqb rt ResourceTransaction.CHAT).
  { pose proof (can_use_chat_eval env b db) as Hc. unfold eval in Hc.
    destruct (can_use_chat env b db) as [[[can' b0]|e] db']; simpl in *; [|done].
    destruct (Hc can' b0 eq_refl) as (_ & He & _).
    destruct (negb can'); simpl in H; by simplify_eq. }
  repeat (case_match; simplify_eq/=); done.
Qed.

(** X30.  The middleware answers [BUNDLE_EXPIRED] only for a bundle that
    expired while the request was being handled, between the clock reading
    of the access check and its own.  A bundle that had expired before the
    request is never reported as expired: read at one and the same time, the
    answer cannot occur. *)
Theorem process_view_bundle_expired env later request db :
  eval (process_view env later request) db = Ok (Some BundleExpired) ->
  exists user b,
    request_user request = Some user
    /\ get_active_bundle env user db = Some b
    /\ now env <= UserBundle.expiry_date b < later.
Proof.
  unfold eval, process_view.
  destruct (_ || _); [done|]. destruct (existsb _ PUBLIC_ENDPOINTS); [done|].
  destruct (find _ _) as [[pattern rt]|].
  2: { repeat (case_match; simplify_eq/=); done. }
  destruct (request_user request) as [user|]; [|done].
  unfold bind at 1.
  destruct (_ && _); simpl.
  { unfold bind, gets, ret. simpl.
    destruct (get_active_bundle env user db) as [b|]; simpl.
    - destruct (UserBundle.has_unlimited_road_sign_quiz b); [done|].
      pose proof (check_resource_access_bundle env user rt db) as Hc.
      unfold eval in Hc.
      destruct (check_resource_access env user rt db)
        as [[[[can [b'|]] message]|e] db']; simpl; try done;
        destruct can; simpl; try done.
      destruct (UserBundle.is_expired b' later) eqn:Hexp; [|done].
      intros _. destruct (Hc false b' message eq_refl) as (b0 & Hb0 & Hdate).
      destruct (get_active_bundle_usable _ _ _ _ Hb0) as [_ Hnot].
      exists user, b0. unfold UserBundle.is_expired in *. repeat split; try done; lia.
    - pose proof (check_resource_access_bundle env user rt db) as Hc.
      unfold eval in Hc.
      destruct (check_resource_access env user rt db)
        as [[[[can [b'|]] message]|e] db']; simpl; try done;
        destruct can; simpl; try done.
      destruct (UserBundle.is_expired b' later) eqn:Hexp; [|done].
      intros _. destruct (Hc false b' message eq_refl) as (b0 & Hb0 & Hdate).
      destruct (get_active_bundle_usable _ _ _ _ Hb0) as [_ Hnot].
      exists user, b0. unfold UserBundle.is_expired in *. repeat split; try done; lia. }
  unfold bind, ret. simpl.
  pose proof (check_resource_access_bundle env user rt db) as Hc.
  unfold eval in Hc.
  destruct (check_resource_access env user rt db)
    as [[[[can [b'|]] message]|e] db']; simpl; try done;
    destruct can; simpl; try done.
  destruct (UserBundle.is_expired b' later) eqn:Hexp; [|done].
  intros _. destruct (Hc false b' message eq_refl) as (b0 & Hb0 & Hdate).
  destruct (get_active_bundle_usable _ _ _ _ Hb0) as [_ Hnot].
  exists user, b0. unfold UserBundle.is_expired in *. repeat split; try done; lia.
Qed.

Lemma process_view_bundle_expired_witness :
  exists user b,
    request_user (mkRequest "/api/v1/exam/" (Some alice)) = Some user
    /\ get_active_bundle (request 31 8) user (shop_with_bundle 0 0) = Some b
    /\ now (request 31 8) <= UserBundle.expiry_date b < at_ 31 9.
Proof.
  apply (process_view_bundle_expired (request 31 8) (at_ 31 9)
           (mkRequest "/api/v1/exam/" (Some alice)) (shop_with_bundle 0 0)).
  vm_compute. reflexivity.
Defined.

(** ** The ledger pairing, counter by counter *)

#[local] Instance writes_logged_counters :
  Ledgering (writes_logged UserBundle.counters).
Proof. apply writes_logged_ledgering. done. Qed.

(** The object [can_use_chat] hands back is the one it was given, up to the
    daily window. *)
Lemma can_use_chat_id env b db can b' :
  eval (can_use_chat env b) db = Ok (can, b') ->
  UserBundle.id b' = UserBundle.id b.
Proof.
  unfold eval, can_use_chat, _reset_daily_chat_if_needed, update_user_bundle,
    bind, ret.
  intros H. repeat (case_match; simplify_eq/=); done.
Qed.

(** The one write the admission check of [consume_resource] can make, and
    the bundle the call then goes on with. *)
Lemma consume_admission_exec env user rt q db :
  exec (consume_admission env user rt q) db = db
  \/ (rt = ResourceTransaction.CHAT
      /\ exists b,
           lazy_reset env (UserBundle.id b) db
             (exec (consume_admission env user rt q) db)
           /\ forall held,
                eval (consume_admission env user rt q) db = Ok (Proceed held) ->
                UserBundle.id held = UserBundle.id b).
Proof.
  unfold exec, eval, consume_admission, bind, gets.
  destruct (get_active_bundle env user db) as [b|] eqn:Hb; simpl; [|by left].
  destruct (String.eqb rt ResourceTransaction.EXAM).
  { repeat (case_match; simplify_eq/=; try (by left)). }
  destruct (String.eqb rt ResourceTransaction.CHAT) eqn:Hchat.
  2: { repeat (case_match; simplify_eq/=; try (by left)). }
  apply String.eqb_eq in Hchat.
  pose proof (can_use_chat_exec env b db) as Hc.
  pose proof (can_use_chat_id env b db) as Hid.
  unfold exec in Hc. unfold eval in Hid.
  destruct (can_use_chat env b db) as [[[can b']|e] db']; simpl in *.
  - specialize (Hid can b' eq_refl).
    assert (Hstate : db' = db \/ lazy_reset env (UserBundle.id b) db db').
    { destruct Hc as [->|(row & ? & ? & ? & ->)]; [by left|].
      right. by exists row. }
    destruct (negb can); simpl.
    + destruct Hstate as [->|Hreset]; [by left|].
      right. split; [done|]. exists b. split; [done|]. intros held; done.
    + destruct (negb _ && _); simpl.
      * destruct Hstate as [->|Hreset]; [by left|].
        right. split; [done|]. exists b. split; [done|]. intros held; done.
      * destruct Hstate as [->|Hreset]; [by left|].
        right. split; [done|]. exists b. split; [done|].
        intros held [= <-]. exact Hid.
  - destruct Hc as [->|(row & ? & ? & ? & ->)]; [by left|].
    right. split; [done|]. exists b. split; [by exists row|]. intros held; done.
Qed.

(** The daily job logs every row it resets. *)
Lemma wl_reset_daily_chats env db :
  stored_under_keys db ->
  writes_logged UserBundle.counters db (exec (reset_daily_chats env) db).
Proof.
  intros Hkeys. unfold exec. rewrite reset_daily_chats_run. simpl.
  eexists. split; [reflexivity|].
  intros k. simpl. unfold reset_rows. rewrite lookup_fmap.
  destruct (user_bundles db !! k) as [b|] eqn:Hb; simpl; [|done].
  destruct (reset_due (now env) b) eqn:Hdue; [|done].
  intros _. exists (reset_transaction (UserBundle.set_daily 0 (now env) b) (now env)).
  split; [|simpl; f_equal; by apply Hkeys].
  apply in_map_iff. eexists. split; [reflexivity|].
  apply filter_In. split.
  - apply (all_user_bundles_elem _ k). simpl. unfold reset_rows.
    by rewrite lookup_fmap, Hb; simpl; rewrite Hdue.
  - unfold reset_due in Hdue. unfold reset_logged. simpl.
    apply andb_true_iff in Hdue as [-> _]. simpl. lia.
Qed.

(** C3 (amended).  Every operation only appends to the ledger, and it logs
    every write of the five counters of a bundle ([exams_remaining],
    [chats_remaining], [search_remaining], [daily_chats_used],
    [total_chats_consumed]), and every creation of a bundle, with a row for
    that bundle appended by the same call, neither being committed without
    the other: the consumptions, the daily reset job and the completion of
    an order all do.  The one exception is the admission check of a chat,
    in [consume_resource] and [check_resource_access], when the call goes
    no further: then the lazy reset of the daily window of one bundle is
    all that happened, and it is not logged.  (When the call goes on to a
    committed consumption, the [CONSUME] row is the row of that bundle.
    Every bundle row is stored under its own key.) *)
Theorem counter_writes_are_logged verifier env op db :
  stored_under_keys db ->
  writes_logged UserBundle.counters db (run verifier env op db)
  \/ (chat_admission op
      /\ exists k, lazy_reset env k db (run verifier env op db)).
Proof.
  intros Hkeys.
  assert (Hrefl : forall d, writes_logged UserBundle.counters d d)
    by (intros d; reflexivity).
  destruct op as [user rt q desc|user rt|user d p| | |user d p|o r|o|o s|o];
    simpl.
  - destruct (consume_admission_exec env user rt q db)
      as [Hsame|(Hrt & b & Hreset & Hheld)].
    + left. unfold exec, eval, consume_resource, bind in *.
      destruct (consume_admission env user rt q db) as [[a|e] db1];
        simpl in *; subst db1; [|apply Hrefl].
      destruct a as [r|held]; [apply Hrefl|].
      apply (wl_consume_commit UserBundle.counters).
    + unfold exec, eval, consume_resource, bind in *.
      destruct (consume_admission env user rt q db) as [[a|e] db1];
        simpl in *; [|right; split; [done|by exists (UserBundle.id b)]].
      destruct a as [r|held]; simpl;
        [right; split; [done|by exists (UserBundle.id b)]|].
      specialize (Hheld held eq_refl).
      rewrite consume_commit_run, Hheld.
      destruct Hreset as (row & Hrow & ->). simpl.
      rewrite lookup_insert_eq.
      destruct (UserBundle.check_positive _); simpl.
      2: { right. split; [done|]. exists (UserBundle.id b). by exists row. }
      left. eexists. split; [reflexivity|].
      intros k. simpl. destruct (decide (k = UserBundle.id b)) as [->|Hk].
      * intros _. eexists. split; [left; reflexivity|done].
      * by rewrite !lookup_insert_ne.
  - destruct (check_resource_access_exec env user rt db)
      as [->|(Hrt & b & row & _ & Hrow & _ & _ & ->)]; [by left|].
    right. split; [done|]. exists (UserBundle.id b). by exists row.
  - left. rewrite purchase_bundle_exec. apply Hrefl.
  - left. by apply wl_reset_daily_chats.
  - left. apply (keeps_expire_bundles (writes_logged UserBundle.counters)).
  - left. apply (keeps_create_order (writes_logged UserBundle.counters)).
  - left. apply (keeps_verify_payment (writes_logged UserBundle.counters)).
    intros o'. apply (wl_complete_order UserBundle.counters).
  - left. apply (wl_complete_order UserBundle.counters).
  - left. apply (keeps_accept_suggestion (writes_logged UserBundle.counters)).
    intros o'. apply (wl_complete_order UserBundle.counters).
  - left. apply (keeps_cancel_order (writes_logged UserBundle.counters)).
Qed.

Lemma counter_writes_are_logged_witness :
  stored_under_keys (shop_with_bundle 5 3)
  /\ (writes_logged UserBundle.counters (shop_with_bundle 5 3)
        (run mock_verify (request 3 9) (ConsumeResource alice "chat" 1 "hello")
           (shop_with_bundle 5 3))
      \/ (chat_admission (ConsumeResource alice "chat" 1 "hello")
          /\ exists k,
               lazy_reset (request 3 9) k (shop_with_bundle 5 3)
                 (run mock_verify (request 3 9)
                    (ConsumeResource alice "chat" 1 "hello")
                    (shop_with_bundle 5 3)))).
Proof.
  split; [apply shop_with_bundle_keys|].
  apply (counter_writes_are_logged mock_verify (request 3 9)
           (ConsumeResource alice "chat" 1 "hello") (shop_with_bundle 5 3)).
  apply shop_with_bundle_keys.
Defined.

(** C3, as stated, fails in both directions.  A chat admission check that
    finds the daily window a day old resets [daily_chats_used] and appends
    no row; and the expiry job appends a row for a bundle none of whose
    counters it writes. *)
Lemma ledger_pairing_fails :
  ~ (forall verifier env op db,
       stored_under_keys db ->
       writes_logged UserBundle.counters db (run verifier env op db))
  /\ ~ (forall verifier env op db,
          stored_under_keys db ->
          rows_are_writes db (run verifier env op db)).
Proof.
  split; intros H.
  - destruct (H mock_verify (request 3 9) (CheckResourceAccess alice "chat")
                (shop_with_bundle 5 3) (shop_with_bundle_keys 5 3))
      as (rows & Hrows & Hlog).
    assert (rows = []) as ->.
    { vm_compute in Hrows. by destruct rows. }
    destruct (Hlog 50%positive) as (t & [] & _).
    vm_compute. discriminate.
  - destruct (H mock_verify (request 40 9) ExpireBundles (shop_with_bundle 5 0)
                (shop_with_bundle_keys 5 0)
                [expiry_transaction (alice_bundle 5 0) (now (request 40 9))]
                (expiry_transaction (alice_bundle 5 0) (now (request 40 9))))
      as (k & Hk & Hdiff).
    + vm_compute. reflexivity.
    + by left.
    + simpl in Hk. injection Hk as <-. apply Hdiff. vm_compute. reflexivity.
Qed.
